(** * jiaxun: authentication and authorization middleware

    A shallow embedding of the Go packages [jiaxun/internal/middleware]
    (the JWT authentication filter and the three authorization gates),
    [jiaxun/internal/config] (the configuration loader that owns the
    signing secret) and the root-user bootstrap of
    [jiaxun/internal/repository], together with the parts of the Go
    standard library, gin and golang-jwt/v5 those packages call.

    Go strings and byte slices are byte sequences; both are modelled by
    [string] (a list of 8-bit characters).  [uint] and [int] are [Z] with
    their ranges written where the code depends on them.  gin's
    [Context.Keys] and the process environment are finite maps. *)

From Stdlib Require Import ZArith List Ascii String Bool Lia.
From Stdlib Require Import DecimalString DecimalPos.
From stdpp Require Import base option gmap strings.

Local Open Scope string_scope.
Local Open Scope Z_scope.

(** ** The Go standard library functions used by the code *)

Module Go.

(** [strings.HasPrefix(s, prefix)]: a byte-wise, case-sensitive test. *)
Fixpoint HasPrefix (s p : string) {struct p} : bool :=
  match p with
  | EmptyString => true
  | String b p' =>
      match s with
      | EmptyString => false
      | String a s' => if Ascii.eqb a b then HasPrefix s' p' else false
      end
  end.

(** [strings.Split(s, sep)] for a one-byte separator (the code splits on
    [" "] and the token parser on ["."]): every separator ends a piece,
    so the result has one more piece than [s] has separators, and
    splitting the empty string gives the one-element list holding it. *)
Fixpoint Split (s : string) (sep : ascii) : list string :=
  match s with
  | EmptyString => [EmptyString]
  | String a s' =>
      if Ascii.eqb a sep then EmptyString :: Split s' sep
      else match Split s' sep with
           | piece :: rest => String a piece :: rest
           | [] => [String a EmptyString]
           end
  end.

(** The two errors of package [strconv]. *)
Inductive NumError := ErrSyntax | ErrRange.

Definition maxUint64 : Z := 2 ^ 64 - 1.

Definition isDigit (c : ascii) : bool :=
  let n := Z.of_N (N_of_ascii c) in (48 <=? n) && (n <=? 57).

Definition digitVal (c : ascii) : Z := Z.of_N (N_of_ascii c) - 48.

(** The digit loop of [strconv.ParseUint] in base 10: [n] is the value
    read so far, [maxVal] is [1<<bitSize - 1]. *)
Fixpoint parseUintLoop (maxVal : Z) (s : string) (n : Z) : Z + NumError :=
  match s with
  | EmptyString => inl n
  | String c s' =>
      if negb (isDigit c) then inr ErrSyntax
      else if maxUint64 / 10 + 1 <=? n then inr ErrRange
      else
        let n1 := n * 10 + digitVal c in
        if maxVal <? n1 then inr ErrRange
        else parseUintLoop maxVal s' n1
  end.

(** [strconv.ParseUint(s, 10, bitSize)]. *)
Definition ParseUint (s : string) (bitSize : Z) : Z + NumError :=
  match s with
  | EmptyString => inr ErrSyntax
  | _ => parseUintLoop (2 ^ bitSize - 1) s 0
  end.

(** [strconv.ParseInt(s, 10, 64)]: an optional sign, then [ParseUint]. *)
Definition ParseInt64 (s : string) : Z + NumError :=
  match s with
  | EmptyString => inr ErrSyntax
  | String c s' =>
      let neg := Ascii.eqb c "-" in
      let digits := if Ascii.eqb c "+" || neg then s' else s in
      match ParseUint digits 64 with
      | inr e => inr e
      | inl un =>
          let cutoff := 2 ^ 63 in
          if negb neg && (cutoff <=? un) then inr ErrRange
          else if neg && (cutoff <? un) then inr ErrRange
          else inl (if neg then - un else un)
      end
  end.

(** [strconv.Atoi] on a 64-bit platform: its fast path and its call of
    [ParseInt(s, 10, 0)] agree on every input. *)
Definition Atoi (s : string) : Z + NumError := ParseInt64 s.

(** [os.Getenv]: the value of the variable, empty when it is unset. *)
Definition Getenv (env : gmap string string) (key : string) : string :=
  default EmptyString (env !! key).

(** No byte of the string is the separator. *)
Definition free (sep : ascii) (s : string) : Prop :=
  Forall (fun c => c <> sep) (list_ascii_of_string s).

End Go.

(** ** gin: the request context seen by a handler *)

Module Gin.

(** The dynamic values the code stores under [Context.Keys], of type
    [any]: a [uint], a [string], or the nil interface. *)
Inductive any :=
| AUint (n : Z)
| AString (s : string)
| ANil.

(** [v == s] for an interface value [v] and a string constant [s]: true
    only when the dynamic type is [string] and the bytes agree. *)
Definition anyEqString (v : any) (s : string) : bool :=
  match v with
  | AString s' => String.eqb s' s
  | _ => false
  end.

Definition anyIsNil (v : any) : bool :=
  match v with ANil => true | _ => false end.

(** What [c.JSON(status, gin.H{"error": msg})] writes. *)
Record Response := { Status : Z; ErrorMessage : string }.

Record Context := {
  Path : string;                      (* c.Request.URL.Path *)
  Header : gmap string string;        (* c.Request.Header *)
  Params : gmap string string;        (* route parameters *)
  Keys : gmap string any;             (* c.Keys *)
  Written : option Response;          (* the response body, once written *)
  Aborted : bool                      (* c.IsAborted() *)
}.

Definition GetHeader (c : Context) (key : string) : string :=
  default EmptyString (Header c !! key).

Definition Param (c : Context) (key : string) : string :=
  default EmptyString (Params c !! key).

(** [c.Get(key)] returns the pair (value, exists); a stored nil has
    [exists = true].  [None] stands for [exists = false]. *)
Definition Get (c : Context) (key : string) : option any := Keys c !! key.

Definition Set_ (c : Context) (key : string) (v : any) : Context :=
  {| Path := Path c; Header := Header c; Params := Params c;
     Keys := <[key := v]> (Keys c);
     Written := Written c; Aborted := Aborted c |}.

Definition JSON (c : Context) (status : Z) (msg : string) : Context :=
  {| Path := Path c; Header := Header c; Params := Params c;
     Keys := Keys c;
     Written := Some {| Status := status; ErrorMessage := msg |};
     Aborted := Aborted c |}.

Definition Abort (c : Context) : Context :=
  {| Path := Path c; Header := Header c; Params := Params c;
     Keys := Keys c; Written := Written c; Aborted := true |}.

(** The result of running one handler: it returns, or it panics (a
    failed type assertion). *)
Inductive Exec :=
| Done (c : Context)
| Panic.

(** A handler of this code base calls [c.Next()] only as its last
    statement, so calling it and returning are the same: the engine goes
    on to the next handler of the chain unless the context is aborted. *)
Definition HandlerFunc := Context -> Exec.

Fixpoint runChain (hs : list HandlerFunc) (c : Context) : Exec :=
  match hs with
  | [] => Done c
  | h :: rest =>
      match h c with
      | Panic => Panic
      | Done c' => if Aborted c' then Done c' else runChain rest c'
      end
  end.

Definition StatusBadRequest : Z := 400.
Definition StatusUnauthorized : Z := 401.
Definition StatusForbidden : Z := 403.

End Gin.

(** ** Authorization gates (package middleware) *)

Module Authz.
Import Gin.

(** [c.JSON(status, gin.H{"error": msg}); c.Abort(); return] *)
Definition reject (c : Context) (status : Z) (msg : string) : Exec :=
  Done (Abort (JSON c status msg)).

(** LoginRequired ensures a user is authenticated. *)
Definition LoginRequired : HandlerFunc := fun c =>
  match Get c "userID" with
  | None => reject c StatusUnauthorized "Authentication required"
  | Some userID =>
      if anyIsNil userID
      then reject c StatusUnauthorized "Authentication required"
      else Done c
  end.

(** TeacherRequired ensures a user has teacher role. *)
Definition TeacherRequired : HandlerFunc := fun c =>
  let unauthenticated :=
    match Get c "userID" with
    | None => true
    | Some userID => anyIsNil userID
    end in
  if unauthenticated
  then reject c StatusUnauthorized "Authentication required"
  else
    let isTeacher :=
      match Get c "role" with
      | None => false
      | Some role => anyEqString role "teacher"
      end in
    if negb isTeacher
    then reject c StatusForbidden "Teacher privileges required"
    else Done c.

(** CanModifyUser checks if the authenticated user has permission to
    modify the target user. *)
Definition CanModifyUser : HandlerFunc := fun c =>
  let targetIDStr := Param c "id" in
  match Go.ParseUint targetIDStr 32 with
  | inr _ => reject c StatusBadRequest "Invalid user ID"
  | inl targetID =>
      match Get c "userID" with
      | None => reject c StatusUnauthorized "Authentication required"
      | Some authenticatedUserID =>
          (* userRole, _ := c.Get("role"): the nil interface when unset *)
          let userRole := default ANil (Get c "role") in
          if anyEqString userRole "teacher" then Done c
          else
            match authenticatedUserID with
            | AUint uid =>
                if uid =? targetID then Done c
                else reject c StatusForbidden
                       "You can only modify your own profile"
            | _ => Panic   (* authenticatedUserID.(uint) *)
            end
      end
  end.

End Authz.

(** ** Configuration (package config) *)

Module Config.

Record ServerConfig := { ServerHost : string; ServerPort : Z }.

Record ApplicationConfig := { Secret : string }.

Record DatabaseConfig := {
  Driver : string;
  DBHost : string;
  DBPort : Z;
  User : string;
  Password : string;
  Name : string
}.

Record LoggingConfig := { Level : string; Format : string }.

Record Config := {
  Server : ServerConfig;
  Database : DatabaseConfig;
  Logging : LoggingConfig;
  Application : ApplicationConfig
}.

(** The literal [LoadConfig] starts from. *)
Definition defaultConfig : Config :=
  {| Server := {| ServerHost := "127.0.0.1"; ServerPort := 8080 |};
     Database := {| Driver := "postgres"; DBHost := "localhost";
                    DBPort := 5432; User := "postgres";
                    Password := "postgres"; Name := "jiaxun" |};
     Logging := {| Level := "info"; Format := "text" |};
     Application := {| Secret := "mysecret" |} |}.

(** A string field: replaced by the variable's value when that value
    is not empty. *)
Definition envString (env : gmap string string) (key old : string) : string :=
  let v := Go.Getenv env key in
  if String.eqb v EmptyString then old else v.

(** An integer field: replaced when the variable's value is not empty
    and [strconv.Atoi] accepts it. *)
Definition envInt (env : gmap string string) (key : string) (old : Z) : Z :=
  let v := Go.Getenv env key in
  if String.eqb v EmptyString then old
  else match Go.Atoi v with
       | inl p => p
       | inr _ => old
       end.

(** overrideFromEnv overrides configuration with environment variables. *)
Definition overrideFromEnv (env : gmap string string) (cfg : Config) : Config :=
  {| Server :=
       {| ServerHost := envString env "SERVER_HOST" (ServerHost (Server cfg));
          ServerPort := envInt env "SERVER_PORT" (ServerPort (Server cfg)) |};
     Database :=
       {| Driver := envString env "DB_DRIVER" (Driver (Database cfg));
          DBHost := envString env "DB_HOST" (DBHost (Database cfg));
          DBPort := envInt env "DB_PORT" (DBPort (Database cfg));
          User := envString env "DB_USER" (User (Database cfg));
          Password := envString env "DB_PASSWORD" (Password (Database cfg));
          Name := envString env "DB_NAME" (Name (Database cfg)) |};
     Logging :=
       {| Level := envString env "LOG_LEVEL" (Level (Logging cfg));
          Format := envString env "LOG_FORMAT" (Format (Logging cfg)) |};
     Application := Application cfg |}.

(** What [loadFromFile] finds on disk.  The JSON decoder is outside the
    repository: a readable file is given by what [json.Unmarshal(data,
    cfg)] does to the configuration it is handed (the updated value and
    whether it reported an error). *)
Inductive FileState :=
| FileAbsent (writeFails : bool)        (* os.Stat: not exist; defaults are written *)
| FileUnreadable                        (* os.ReadFile fails *)
| FileContent (unmarshal : Config -> Config * bool).

(** loadFromFile loads configuration from a JSON file; the boolean is
    [err != nil]. *)
Definition loadFromFile (fs : FileState) (cfg : Config) : Config * bool :=
  match fs with
  | FileAbsent writeFails => (cfg, writeFails)
  | FileUnreadable => (cfg, true)
  | FileContent unmarshal => unmarshal cfg
  end.

(** The body run once by [LoadConfig(configFile)]: the defaults, then the
    file when a name is given, then the environment.  A file error
    returns from the closure before the environment is consulted. *)
Definition LoadConfig (configFile : string) (fs : FileState)
    (env : gmap string string) : Config * bool :=
  if negb (String.eqb configFile EmptyString) then
    match loadFromFile fs defaultConfig with
    | (cfg, true) => (cfg, true)
    | (cfg, false) => (overrideFromEnv env cfg, false)
    end
  else (overrideFromEnv env defaultConfig, false).

(** Validate validates the configuration; [true] is [err == nil]. *)
Definition Validate (c : Config) : bool :=
  negb ((ServerPort (Server c) <=? 0) || (65535 <? ServerPort (Server c)))
  && negb (String.eqb (DBHost (Database c)) EmptyString)
  && negb (String.eqb (User (Database c)) EmptyString)
  && negb (String.eqb (Password (Database c)) EmptyString)
  && negb (String.eqb (Name (Database c)) EmptyString).

End Config.

(** ** SHA-2 and HMAC (packages crypto/sha256, crypto/sha512, crypto/hmac) *)

Module Crypto.

(** Byte sequences as numbers in [0, 256) while hashing. *)
Definition bytesOf (s : string) : list Z :=
  map (fun c => Z.of_N (N_of_ascii c)) (list_ascii_of_string s).

Definition stringOf (bs : list Z) : string :=
  string_of_list_ascii (map (fun b => ascii_of_N (Z.to_N b)) bs).

(** The parameters that tell SHA-256 from SHA-512 (FIPS 180-4). *)
Record Sha2 := {
  wordBits : Z;                 (* 32 or 64 *)
  roundK : list Z;              (* 64 or 80 round constants *)
  bigSigma0 : Z * Z * Z;        (* rotations of the state functions *)
  bigSigma1 : Z * Z * Z;
  smallSigma0 : Z * Z * Z;      (* two rotations and a shift *)
  smallSigma1 : Z * Z * Z
}.

(** The constants of FIPS 180-4: the leading bits of the fractional parts
    of the cube roots (round constants) and square roots (initial hash
    values) of the first primes. *)
Definition isPrime (n : Z) : bool :=
  forallb (fun d => negb (n mod Z.of_nat d =? 0)) (seq 2 (Z.to_nat n - 2)).

Definition primes (count : nat) : list Z :=
  firstn count (filter isPrime (map Z.of_nat (seq 2 420))).

(** The largest [r] below [2 ^ n] whose cube does not exceed [x]. *)
Fixpoint cubeRoot (n : nat) (x r : Z) : Z :=
  match n with
  | O => r
  | S n' =>
      let r' := r + 2 ^ Z.of_nat n' in
      cubeRoot n' x (if r' * r' * r' <=? x then r' else r)
  end.

Definition cubeRootBits (bits : Z) (p : Z) : Z :=
  cubeRoot (Z.to_nat bits + 4) (p * 2 ^ (3 * bits)) 0 mod 2 ^ bits.

Definition squareRootBits (bits : Z) (p : Z) : Z :=
  Z.sqrt (p * 2 ^ (2 * bits)) mod 2 ^ bits.

Definition K256 : list Z :=
  Eval vm_compute in map (cubeRootBits 32) (primes 64).

Definition K512 : list Z :=
  Eval vm_compute in map (cubeRootBits 64) (primes 80).

Definition H256 : list Z :=
  Eval vm_compute in map (squareRootBits 32) (primes 8).

Definition H384 : list Z :=
  Eval vm_compute in map (squareRootBits 64) (skipn 8 (primes 16)).

Definition H512 : list Z :=
  Eval vm_compute in map (squareRootBits 64) (primes 8).

Definition sha256Params : Sha2 :=
  {| wordBits := 32; roundK := K256;
     bigSigma0 := (2, 13, 22); bigSigma1 := (6, 11, 25);
     smallSigma0 := (7, 18, 3); smallSigma1 := (17, 19, 10) |}.

Definition sha512Params : Sha2 :=
  {| wordBits := 64; roundK := K512;
     bigSigma0 := (28, 34, 39); bigSigma1 := (14, 18, 41);
     smallSigma0 := (1, 8, 7); smallSigma1 := (19, 61, 6) |}.

Section Rounds.
Variable P : Sha2.

Definition wrap (x : Z) : Z := x mod 2 ^ wordBits P.

Definition rotr (n x : Z) : Z :=
  Z.lor (Z.shiftr x n) (wrap (Z.shiftl x (wordBits P - n))).

Definition Sigma (r : Z * Z * Z) (x : Z) : Z :=
  let '(a, b, c) := r in Z.lxor (Z.lxor (rotr a x) (rotr b x)) (rotr c x).

Definition sigma (r : Z * Z * Z) (x : Z) : Z :=
  let '(a, b, c) := r in Z.lxor (Z.lxor (rotr a x) (rotr b x)) (Z.shiftr x c).

Definition Ch (x y z : Z) : Z :=
  Z.lxor (Z.land x y) (Z.land (wrap (Z.lnot x)) z).

Definition Maj (x y z : Z) : Z :=
  Z.lxor (Z.lxor (Z.land x y) (Z.land x z)) (Z.land y z).

(** Big-endian words of a block. *)
Fixpoint beWord (bs : list Z) (acc : Z) : Z :=
  match bs with
  | [] => acc
  | b :: bs' => beWord bs' (acc * 256 + b)
  end.

Fixpoint wordsOf (n : nat) (bs : list Z) : list Z :=
  match n with
  | O => []
  | S n' =>
      let k := Z.to_nat (wordBits P / 8) in
      beWord (firstn k bs) 0 :: wordsOf n' (skipn k bs)
  end.

(** The message schedule, most recent word first. *)
Fixpoint schedule (n : nat) (rev : list Z) : list Z :=
  match n with
  | O => rev
  | S n' =>
      let w := wrap (sigma (smallSigma1 P) (nth 1 rev 0) + nth 6 rev 0
                     + sigma (smallSigma0 P) (nth 14 rev 0) + nth 15 rev 0) in
      schedule n' (w :: rev)
  end.

Definition state := (Z * Z * Z * Z * Z * Z * Z * Z)%type.

Definition round (st : state) (kw : Z * Z) : state :=
  let '(a, b, c, d, e, f, g, h) := st in
  let '(k, w) := kw in
  let t1 := h + Sigma (bigSigma1 P) e + Ch e f g + k + w in
  let t2 := Sigma (bigSigma0 P) a + Maj a b c in
  (wrap (t1 + t2), a, b, c, wrap (d + t1), e, f, g).

Definition compress (st : state) (block : list Z) : state :=
  let w16 := wordsOf 16 block in
  let ws := rev (schedule (length (roundK P) - 16) (rev w16)) in
  let '(a, b, c, d, e, f, g, h) := fold_left round (combine (roundK P) ws) st in
  let '(a0, b0, c0, d0, e0, f0, g0, h0) := st in
  (wrap (a0 + a), wrap (b0 + b), wrap (c0 + c), wrap (d0 + d),
   wrap (e0 + e), wrap (f0 + f), wrap (g0 + g), wrap (h0 + h)).

Definition blockBytes : Z := 16 * (wordBits P / 8).

Fixpoint beBytes (n : nat) (x : Z) : list Z :=
  match n with
  | O => []
  | S n' => beBytes n' (x / 256) ++ [x mod 256]
  end.

(** The padded message: a one bit, zeros, and the bit length in the
    last two words of the final block. *)
Definition pad (msg : list Z) : list Z :=
  let len := Z.of_nat (length msg) in
  let lenBytes := 2 * (wordBits P / 8) in
  let zeros := (- (len + 1 + lenBytes)) mod blockBytes in
  msg ++ [128] ++ repeat 0 (Z.to_nat zeros)
      ++ beBytes (Z.to_nat lenBytes) (8 * len).

Fixpoint blocks (n : nat) (st : state) (bs : list Z) : state :=
  match n with
  | O => st
  | S n' =>
      let k := Z.to_nat blockBytes in
      blocks n' (compress st (firstn k bs)) (skipn k bs)
  end.

Definition digestWords (iv : list Z) (msg : list Z) : list Z :=
  let st0 := (nth 0 iv 0, nth 1 iv 0, nth 2 iv 0, nth 3 iv 0,
              nth 4 iv 0, nth 5 iv 0, nth 6 iv 0, nth 7 iv 0) in
  let padded := pad msg in
  let n := Z.to_nat (Z.of_nat (length padded) / blockBytes) in
  let '(a, b, c, d, e, f, g, h) := blocks n st0 padded in
  [a; b; c; d; e; f; g; h].

Definition digest (iv : list Z) (outLen : nat) (msg : list Z) : list Z :=
  firstn outLen
    (flat_map (beBytes (Z.to_nat (wordBits P / 8))) (digestWords iv msg)).

End Rounds.

(** The three hashes golang-jwt registers for its HMAC methods. *)
Inductive Hash := SHA256 | SHA384 | SHA512.

Definition Sum (h : Hash) (msg : list Z) : list Z :=
  match h with
  | SHA256 => digest sha256Params H256 32 msg
  | SHA384 => digest sha512Params H384 48 msg
  | SHA512 => digest sha512Params H512 64 msg
  end.

Definition BlockSize (h : Hash) : nat :=
  match h with
  | SHA256 => 64%nat
  | SHA384 | SHA512 => 128%nat
  end.

(** [hmac.New(h, key)]: a key longer than the block is hashed, and the
    key is then copied into a zeroed block. *)
Definition hmacKeyBlock (h : Hash) (key : list Z) : list Z :=
  let key' := if (BlockSize h <? length key)%nat then Sum h key else key in
  key' ++ repeat 0 (BlockSize h - length key')%nat.

Definition hmacBytes (h : Hash) (key msg : list Z) : list Z :=
  let kb := hmacKeyBlock h key in
  let ipad := map (Z.lxor 54) kb in
  let opad := map (Z.lxor 92) kb in
  Sum h (opad ++ Sum h (ipad ++ msg)).

(** [mac := hmac.New(h, key); mac.Write(msg); mac.Sum(nil)] *)
Definition HMAC (h : Hash) (key msg : string) : string :=
  stringOf (hmacBytes h (bytesOf key) (bytesOf msg)).

Definition hexDigit (n : Z) : ascii :=
  ascii_of_N (Z.to_N (if n <? 10 then 48 + n else 87 + n)).

Definition hex (s : string) : string :=
  string_of_list_ascii
    (flat_map (fun b => [hexDigit (b / 16); hexDigit (b mod 16)]) (bytesOf s)).

End Crypto.

(** ** Unpadded URL-safe base64 (encoding/base64, [RawURLEncoding]) *)

Module Base64.

(** The URL-safe alphabet: A-Z, a-z, 0-9, '-' and '_'. *)
Definition charOf (q : Z) : ascii :=
  ascii_of_N (Z.to_N
    (if q <? 26 then 65 + q
     else if q <? 52 then 97 + (q - 26)
     else if q <? 62 then 48 + (q - 52)
     else if q =? 62 then 45 else 95)).

Definition sextetOf (c : ascii) : option Z :=
  let n := Z.of_N (N_of_ascii c) in
  if (65 <=? n) && (n <=? 90) then Some (n - 65)
  else if (97 <=? n) && (n <=? 122) then Some (n - 97 + 26)
  else if (48 <=? n) && (n <=? 57) then Some (n - 48 + 52)
  else if n =? 45 then Some 62
  else if n =? 95 then Some 63
  else None.

Fixpoint encodeBytes (bs : list Z) : list ascii :=
  match bs with
  | b1 :: b2 :: b3 :: rest =>
      charOf (b1 / 4) :: charOf ((b1 mod 4) * 16 + b2 / 16)
      :: charOf ((b2 mod 16) * 4 + b3 / 64) :: charOf (b3 mod 64)
      :: encodeBytes rest
  | [b1; b2] =>
      [charOf (b1 / 4); charOf ((b1 mod 4) * 16 + b2 / 16);
       charOf ((b2 mod 16) * 4)]
  | [b1] => [charOf (b1 / 4); charOf ((b1 mod 4) * 16)]
  | [] => []
  end.

(** [base64.RawURLEncoding.EncodeToString] *)
Definition EncodeToString (s : string) : string :=
  string_of_list_ascii (encodeBytes (Crypto.bytesOf s)).

(** The decoder skips carriage returns and line feeds and rejects every
    other byte outside the alphabet, the padding character included. *)
Fixpoint sextets (cs : list ascii) : option (list Z) :=
  match cs with
  | [] => Some []
  | c :: cs' =>
      let n := Z.of_N (N_of_ascii c) in
      if (n =? 10) || (n =? 13) then sextets cs'
      else match sextetOf c with
           | None => None
           | Some q =>
               match sextets cs' with
               | None => None
               | Some qs => Some (q :: qs)
               end
           end
  end.

(** Four sextets give three bytes; a final group of two or three gives
    one or two bytes (left-over bits are dropped: the encoding is not
    strict); a final group of one is corrupt. *)
Fixpoint decodeSextets (qs : list Z) : option (list Z) :=
  match qs with
  | q1 :: q2 :: q3 :: q4 :: rest =>
      match decodeSextets rest with
      | None => None
      | Some bs =>
          Some (q1 * 4 + q2 / 16 :: (q2 mod 16) * 16 + q3 / 4
                :: (q3 mod 4) * 64 + q4 :: bs)
      end
  | [q1; q2; q3] => Some [q1 * 4 + q2 / 16; (q2 mod 16) * 16 + q3 / 4]
  | [q1; q2] => Some [q1 * 4 + q2 / 16]
  | [_] => None
  | [] => Some []
  end.

(** [base64.RawURLEncoding.DecodeString] *)
Definition DecodeString (s : string) : option string :=
  match sextets (list_ascii_of_string s) with
  | None => None
  | Some qs =>
      match decodeSextets qs with
      | None => None
      | Some bs => Some (Crypto.stringOf bs)
      end
  end.

Definition isByte (b : Z) : Prop := 0 <= b < 256.

(** A sextet's letter decodes to the sextet and is none of line feed,
    carriage return, space and dot. *)
Definition goodChar (q : Z) : bool :=
  let c := charOf q in
  let n := Z.of_N (N_of_ascii c) in
  match sextetOf c with
  | Some q' => (q' =? q) && negb ((n =? 10) || (n =? 13))
               && negb (n =? 32) && negb (n =? 46)
  | None => false
  end.

End Base64.

(** ** golang-jwt/jwt/v5: tokens, signing methods, parsing and validation *)

Module JWT.

(** Instants are nanoseconds since the Unix epoch ([time.Time]). *)
Definition Time := Z.
Definition Second : Z := 1000000000.
Definition Hour : Z := 3600 * Second.

(** [jwt.NewNumericDate(t)]: [t.Truncate(TimePrecision)], one second. *)
Definition NewNumericDate (t : Time) : Time := t / Second * Second.

Record RegisteredClaims := {
  Issuer : string;
  Subject : string;
  Audience : list string;
  ExpiresAt : option Time;
  NotBefore : option Time;
  IssuedAt : option Time;
  ID : string
}.

(** JWTClaims represents the claims in the JWT (package middleware). *)
Record JWTClaims := {
  UserID : Z;
  Email : string;
  Role : string;
  Registered : RegisteredClaims
}.

(** The signing methods the library registers, by family. *)
Inductive SigningMethod :=
| SigningMethodHMAC (h : Crypto.Hash)
| SigningMethodRSA (h : Crypto.Hash)
| SigningMethodRSAPSS (h : Crypto.Hash)
| SigningMethodECDSA (h : Crypto.Hash)
| SigningMethodEd25519
| SigningMethodNone.


Definition hashSuffix (h : Crypto.Hash) : string :=
  match h with
  | Crypto.SHA256 => "256"
  | Crypto.SHA384 => "384"
  | Crypto.SHA512 => "512"
  end.

Definition Alg (m : SigningMethod) : string :=
  match m with
  | SigningMethodHMAC h => "HS" +:+ hashSuffix h
  | SigningMethodRSA h => "RS" +:+ hashSuffix h
  | SigningMethodRSAPSS h => "PS" +:+ hashSuffix h
  | SigningMethodECDSA h => "ES" +:+ hashSuffix h
  | SigningMethodEd25519 => "EdDSA"
  | SigningMethodNone => "none"
  end.

Definition registeredMethods : list SigningMethod :=
  let hs := [Crypto.SHA256; Crypto.SHA384; Crypto.SHA512] in
  (map SigningMethodHMAC hs ++ map SigningMethodRSA hs
   ++ map SigningMethodRSAPSS hs ++ map SigningMethodECDSA hs
   ++ [SigningMethodEd25519; SigningMethodNone])%list.

(** [jwt.GetSigningMethod(alg)]: nil for an unregistered name. *)
Definition GetSigningMethod (alg : string) : option SigningMethod :=
  find (fun m => String.eqb (Alg m) alg) registeredMethods.

(** The sentinel errors [errors.Is] can find in a parse error. *)
Inductive Sentinel :=
| ErrTokenMalformed
| ErrTokenUnverifiable
| ErrTokenSignatureInvalid
| ErrTokenInvalidClaims
| ErrTokenExpired
| ErrTokenNotValidYet
| ErrSignatureInvalid
| ErrInvalidKeyType
| ErrNoneSignatureDisallowed.

Definition sentinelEqb (a b : Sentinel) : bool :=
  match a, b with
  | ErrTokenMalformed, ErrTokenMalformed
  | ErrTokenUnverifiable, ErrTokenUnverifiable
  | ErrTokenSignatureInvalid, ErrTokenSignatureInvalid
  | ErrTokenInvalidClaims, ErrTokenInvalidClaims
  | ErrTokenExpired, ErrTokenExpired
  | ErrTokenNotValidYet, ErrTokenNotValidYet
  | ErrSignatureInvalid, ErrSignatureInvalid
  | ErrInvalidKeyType, ErrInvalidKeyType
  | ErrNoneSignatureDisallowed, ErrNoneSignatureDisallowed => true
  | _, _ => false
  end.

Definition sentinelText (e : Sentinel) : string :=
  match e with
  | ErrTokenMalformed => "token is malformed"
  | ErrTokenUnverifiable => "token is unverifiable"
  | ErrTokenSignatureInvalid => "token signature is invalid"
  | ErrTokenInvalidClaims => "token has invalid claims"
  | ErrTokenExpired => "token is expired"
  | ErrTokenNotValidYet => "token is not valid yet"
  | ErrSignatureInvalid => "signature is invalid"
  | ErrInvalidKeyType => "key is of invalid type"
  | ErrNoneSignatureDisallowed =>
      "'none' signature type is not allowed"
  end.

(** An error value: the sentinels it wraps and its [Error()] text. *)
Record error := { wraps : list Sentinel; Error : string }.

(** [errors.Is(err, target)] *)
Definition Is (err : error) (target : Sentinel) : bool :=
  existsb (sentinelEqb target) (wraps err).

Definition sentinel (e : Sentinel) : error :=
  {| wraps := [e]; Error := sentinelText e |}.

(** [fmt.Errorf(format, args...)] of the code's key function: it wraps
    nothing. *)
Definition Errorf (text : string) : error := {| wraps := []; Error := text |}.

(** [newError(message, err, more...)]: the text is [err], then the
    message when there is one, then each further error, joined by a
    colon and a space; all of them are wrapped. *)
Definition newError (message : string) (err : Sentinel) (more : list error) : error :=
  {| wraps := err :: flat_map wraps more;
     Error :=
       fold_left (fun acc e => acc +:+ ": " +:+ Error e) more
         (if String.eqb message EmptyString then sentinelText err
          else sentinelText err +:+ ": " +:+ message) |}.

(** [errors.Join(errs...)] for a non-empty list (texts on separate lines). *)
Definition joinErrors (errs : list error) : error :=
  {| wraps := flat_map wraps errs;
     Error := String.concat (String (ascii_of_nat 10) EmptyString) (map Error errs) |}.

(** The JSON layer (encoding/json), an interface of the embedding: what
    it does to a token header (of which the parser reads the [alg]
    member: [Some a] when it is the JSON string [a]) and to the claims. *)
Record JSONCodec := {
  marshalHeader : string -> string;
  unmarshalHeader : string -> option (option string);
  marshalClaims : JWTClaims -> string;
  unmarshalClaims : string -> option JWTClaims
}.

Record Token := {
  Raw : string;
  Method : SigningMethod;
  HeaderAlg : string;               (* token.Header["alg"] *)
  Claims : JWTClaims;
  Signature : string;
  Valid : bool
}.


Definition Verify (m : SigningMethod) (signingString sig key : string) : option error :=
  match m with
  | SigningMethodHMAC h =>
      if String.eqb sig (Crypto.HMAC h key signingString) then None
      else Some (sentinel ErrSignatureInvalid)
  | SigningMethodNone => Some (sentinel ErrNoneSignatureDisallowed)
  | _ => Some (sentinel ErrInvalidKeyType)
  end.

(** The default validator: [exp] and [nbf] are checked when present,
    against one reading of the clock and with no leeway. *)
Definition verifyExpiresAt (c : RegisteredClaims) (now : Time) : list error :=
  match ExpiresAt c with
  | None => []
  | Some exp => if now <? exp then [] else [sentinel ErrTokenExpired]
  end.

Definition verifyNotBefore (c : RegisteredClaims) (now : Time) : list error :=
  match NotBefore c with
  | None => []
  | Some nbf => if now <? nbf then [sentinel ErrTokenNotValidYet] else []
  end.

Definition Validate (c : RegisteredClaims) (now : Time) : option error :=
  match (verifyExpiresAt c now ++ verifyNotBefore c now)%list with
  | [] => None
  | errs => Some (joinErrors errs)
  end.

Section Parser.
Variable J : JSONCodec.

(** [token.SigningString()] and [token.SignedString(key)] for a token
    made by [jwt.NewWithClaims(method, claims)]. *)
Definition SigningString (m : SigningMethod) (claims : JWTClaims) : string :=
  Base64.EncodeToString (marshalHeader J (Alg m)) +:+ "."
  +:+ Base64.EncodeToString (marshalClaims J claims).


(** [Parser.ParseUnverified]: three segments, a header and claims that
    decode, and a registered [alg].  The texts of the base64 and JSON
    errors wrapped into a malformed-token error are left out. *)
Definition ParseUnverified (tokenString : string)
    : (Token * string * string * string) + error :=
  match Go.Split tokenString "." with
  | [p0; p1; p2] =>
      match Base64.DecodeString p0 with
      | None =>
          inr (newError "could not base64 decode header" ErrTokenMalformed [])
      | Some headerBytes =>
          match unmarshalHeader J headerBytes with
          | None =>
              inr (newError "could not JSON decode header" ErrTokenMalformed [])
          | Some alg =>
              match Base64.DecodeString p1 with
              | None =>
                  inr (newError "could not base64 decode claim" ErrTokenMalformed [])
              | Some claimBytes =>
                  match unmarshalClaims J claimBytes with
                  | None =>
                      inr (newError "could not JSON decode claim" ErrTokenMalformed [])
                  | Some claims =>
                      match alg with
                      | None =>
                          inr (newError "signing method (alg) is unspecified"
                                 ErrTokenUnverifiable [])
                      | Some method =>
                          match GetSigningMethod method with
                          | None =>
                              inr (newError "signing method (alg) is unavailable"
                                     ErrTokenUnverifiable [])
                          | Some m =>
                              inl ({| Raw := tokenString; Method := m;
                                      HeaderAlg := method; Claims := claims;
                                      Signature := EmptyString; Valid := false |},
                                   p0, p1, p2)
                          end
                      end
                  end
              end
          end
      end
  | _ => inr (newError "token contains an invalid number of segments"
                ErrTokenMalformed [])
  end.

(** [jwt.ParseWithClaims(tokenString, claims, keyFunc)] with the default
    parser: the signature is checked with the key the key function
    returns, then the claims are validated at [now]. *)
Definition ParseWithClaims (tokenString : string)
    (keyFunc : Token -> string + error) (now : Time) : Token + error :=
  match ParseUnverified tokenString with
  | inr err => inr err
  | inl (token, p0, p1, p2) =>
      match Base64.DecodeString p2 with
      | None =>
          inr (newError "could not base64 decode signature" ErrTokenMalformed [])
      | Some sig =>
          let text := p0 +:+ "." +:+ p1 in
          match keyFunc token with
          | inr err =>
              inr (newError "error while executing keyfunc"
                     ErrTokenUnverifiable [err])
          | inl key =>
              match Verify (Method token) text sig key with
              | Some err => inr (newError EmptyString ErrTokenSignatureInvalid [err])
              | None =>
                  match Validate (Registered (Claims token)) now with
                  | Some err =>
                      inr (newError EmptyString ErrTokenInvalidClaims [err])
                  | None =>
                      inl {| Raw := Raw token; Method := Method token;
                             HeaderAlg := HeaderAlg token;
                             Claims := Claims token;
                             Signature := sig; Valid := true |}
                  end
              end
          end
      end
  end.

End Parser.

End JWT.

(** ** The authentication filter and the token issuer (package middleware) *)

Module Middleware.
Import Gin.

(** Public paths that don't require authentication. *)
Definition publicPaths : list string :=
  ["/api/auth/login"; "/api/auth/register"; "/api/health"].

Definition isPublicPath (path : string) : bool :=
  existsb (fun p => Go.HasPrefix path p) publicPaths.

Section WithConfig.
Variable J : JWT.JSONCodec.
(** The value [config.GetConfig()] returns: loaded once per process. *)
Variable cfg : Config.Config.

(** The key function handed to [jwt.ParseWithClaims]. *)
Definition keyFunc (token : JWT.Token) : string + JWT.error :=
  match JWT.Method token with
  | JWT.SigningMethodHMAC _ =>
      inl (Config.Secret (Config.Application cfg))
  | _ =>
      inr (JWT.Errorf ("unexpected signing method: " +:+ JWT.HeaderAlg token))
  end.

(** The body of a token validation failure. *)
Definition tokenErrorMessage (err : JWT.error) : string :=
  if JWT.Is err JWT.ErrTokenExpired then "Token has expired"
  else if JWT.Is err JWT.ErrTokenMalformed then "Malformed token"
  else if JWT.Is err JWT.ErrTokenSignatureInvalid then "Invalid token signature"
  else "Invalid token: " +:+ JWT.Error err.

(** AuthMiddleware authenticates requests using JWT; [now] is the
    clock reading of the token validation. *)
Definition AuthMiddleware (now : JWT.Time) : HandlerFunc := fun c =>
  if isPublicPath (Path c) then Done c
  else
    let authHeader := GetHeader c "Authorization" in
    if String.eqb authHeader EmptyString
    then Authz.reject c 401 "Authorization header is required"
    else
      match Go.Split authHeader " " with
      | [scheme; tokenString] =>
          if negb (String.eqb scheme "Bearer")
          then Authz.reject c 401
                 "Authorization header format must be Bearer {token}"
          else
            match JWT.ParseWithClaims J tokenString keyFunc now with
            | inr err => Authz.reject c 401 (tokenErrorMessage err)
            | inl token =>
                if negb (JWT.Valid token)
                then Authz.reject c 401 "Invalid token"
                else
                  let claims := JWT.Claims token in
                  let c1 := Set_ c "userID" (AUint (JWT.UserID claims)) in
                  let c2 := Set_ c1 "email" (AString (JWT.Email claims)) in
                  let c3 := Set_ c2 "role" (AString (JWT.Role claims)) in
                  Done c3
            end
      | _ => Authz.reject c 401
               "Authorization header format must be Bearer {token}"
      end.

(** The claims [GenerateToken] builds; [now1] and [now2] are its two
    readings of the clock. *)
Definition newClaims (now1 now2 : JWT.Time) (userID : Z)
    (email role : string) : JWT.JWTClaims :=
  let expirationTime := now1 + 24 * JWT.Hour in
  {| JWT.UserID := userID; JWT.Email := email; JWT.Role := role;
     JWT.Registered :=
       {| JWT.Issuer := "jiaxun"; JWT.Subject := EmptyString;
          JWT.Audience := [];
          JWT.ExpiresAt := Some (JWT.NewNumericDate expirationTime);
          JWT.NotBefore := None;
          JWT.IssuedAt := Some (JWT.NewNumericDate now2);
          JWT.ID := EmptyString |} |}.


End WithConfig.

End Middleware.

(** ** The bootstrap user (package repository, [InitDB]) *)

Module Repository.

Record User := {
  ID : Z;
  Username : string;
  Email : string;
  FullName : string;
  Password : string;
  Role : string;
  CreatedAt : JWT.Time
}.

(** The record [InitDB] creates when no user is called root; the
    password hash and the clock reading come from outside. *)
Definition rootUser (hashedPassword : string) (now : JWT.Time) : User :=
  {| ID := 0; Username := "root"; Email := "root@example.com";
     FullName := "System Administrator"; Password := hashedPassword;
     Role := "admin"; CreatedAt := now |}.

End Repository.

(** ** unicode/utf8 *)

Module UTF8.

Definition byte (c : ascii) : Z := Z.of_N (N_of_ascii c).
Definition chr (n : Z) : ascii := ascii_of_N (Z.to_N n).

Definition RuneError : Z := 0xFFFD.
Definition MaxRune : Z := 0x10FFFF.
Definition RuneSelf : Z := 0x80.

Definition within (lo hi n : Z) : bool := (lo <=? n) && (n <=? hi).

(** The table [first]: the length of the sequence a lead byte announces,
    0 for a byte that starts none (0x80-0xC1 and 0xF5-0xFF). *)
Definition leadSize (p0 : Z) : nat :=
  if within 0xC2 0xDF p0 then 2
  else if within 0xE0 0xEF p0 then 3
  else if within 0xF0 0xF4 p0 then 4
  else 0.

(** [acceptRanges]: the range of the second byte after lead byte [p0]. *)
Definition acceptLo (p0 : Z) : Z :=
  if p0 =? 0xE0 then 0xA0 else if p0 =? 0xF0 then 0x90 else 0x80.

Definition acceptHi (p0 : Z) : Z :=
  if p0 =? 0xED then 0x9F else if p0 =? 0xF4 then 0x8F else 0xBF.

(** [utf8.DecodeRune(p)]: the first rune of [p] and its width in bytes;
    [(RuneError, 0)] for the empty input and [(RuneError, 1)] for an
    encoding that is invalid or cut short.  [p0&mask] is written
    [p0 mod (mask+1)] and [x<<6 | y] as [x * 64 + y]. *)
Definition DecodeRune (p : list ascii) : Z * nat :=
  match p with
  | [] => (RuneError, 0%nat)
  | c0 :: p1 =>
      let p0 := byte c0 in
      if p0 <? RuneSelf then (p0, 1%nat)
      else
        match leadSize p0, p1 with
        | S (S sz), c1 :: p2 =>
            let b1 := byte c1 in
            if negb (within (acceptLo p0) (acceptHi p0) b1)
            then (RuneError, 1%nat)
            else
              match sz, p2 with
              | O, _ => (p0 mod 32 * 64 + b1 mod 64, 2%nat)
              | S sz', c2 :: p3 =>
                  let b2 := byte c2 in
                  if negb (within 0x80 0xBF b2) then (RuneError, 1%nat)
                  else
                    match sz', p3 with
                    | O, _ =>
                        (p0 mod 16 * 4096 + b1 mod 64 * 64 + b2 mod 64, 3%nat)
                    | S _, c3 :: _ =>
                        let b3 := byte c3 in
                        if negb (within 0x80 0xBF b3) then (RuneError, 1%nat)
                        else (p0 mod 8 * 262144 + b1 mod 64 * 4096
                              + b2 mod 64 * 64 + b3 mod 64, 4%nat)
                    | S _, [] => (RuneError, 1%nat)
                    end
              | S _, [] => (RuneError, 1%nat)
              end
        | _, _ => (RuneError, 1%nat)
        end
  end.

(** The first [utf8.UTFMax] bytes of a string, to decode its first rune. *)
Definition prefix4 (s : string) : list ascii :=
  match s with
  | String a (String b (String c (String d _))) => [a; b; c; d]
  | _ => list_ascii_of_string s
  end.

Definition DecodeRuneInString (s : string) : Z * nat := DecodeRune (prefix4 s).

Definition surrogate (r : Z) : bool := within 0xD800 0xDFFF r.

(** [utf8.EncodeRune]: the bytes of a rune; of [RuneError] for a value
    that is no rune (out of range, or a surrogate half). *)
Definition EncodeRune (r0 : Z) : string :=
  let r := if (r0 <? 0) || (MaxRune <? r0) || surrogate r0 then RuneError
           else r0 in
  if r <=? 0x7F then String (chr r) EmptyString
  else if r <=? 0x7FF then
    String (chr (0xC0 + r / 64)) (String (chr (0x80 + r mod 64)) EmptyString)
  else if r <=? 0xFFFF then
    String (chr (0xE0 + r / 4096))
      (String (chr (0x80 + r / 64 mod 64))
         (String (chr (0x80 + r mod 64)) EmptyString))
  else
    String (chr (0xF0 + r / 262144))
      (String (chr (0x80 + r / 4096 mod 64))
         (String (chr (0x80 + r / 64 mod 64))
            (String (chr (0x80 + r mod 64)) EmptyString))).

(** [utf8.ValidString] *)
Fixpoint ValidString (s : string) : bool :=
  match s with
  | EmptyString => true
  | String c0 s1 =>
      if byte c0 <? RuneSelf then ValidString s1
      else
        match snd (DecodeRuneInString s), s1 with
        | 2%nat, String _ t => ValidString t
        | 3%nat, String _ (String _ t) => ValidString t
        | 4%nat, String _ (String _ (String _ t)) => ValidString t
        | _, _ => false
        end
  end.

(** What a decoded rune and its width say about the input: the bytes
    consumed, the range of the rune, and that [EncodeRune] writes those
    bytes back. *)
Definition runeAt (p : list ascii) (r : Z) (n : nat) : Prop :=
  match n with
  | 0%nat => p = []
  | 1%nat =>
      exists c0 p1, p = c0 :: p1
        /\ (byte c0 < 128 /\ r = byte c0 \/ 128 <= byte c0 /\ r = RuneError)
  | 2%nat =>
      exists c0 c1 p2, p = c0 :: c1 :: p2 /\ 128 <= byte c0
        /\ 128 <= r <= 2047
        /\ EncodeRune r = String c0 (String c1 EmptyString)
        /\ forall q, DecodeRune (c0 :: c1 :: q) = (r, 2%nat)
  | 3%nat =>
      exists c0 c1 c2 p3, p = c0 :: c1 :: c2 :: p3 /\ 128 <= byte c0
        /\ 2048 <= r <= 65535
        /\ EncodeRune r = String c0 (String c1 (String c2 EmptyString))
        /\ forall q, DecodeRune (c0 :: c1 :: c2 :: q) = (r, 3%nat)
  | 4%nat =>
      exists c0 c1 c2 c3 p4, p = c0 :: c1 :: c2 :: c3 :: p4 /\ 128 <= byte c0
        /\ 65536 <= r <= 1114111
        /\ EncodeRune r
           = String c0 (String c1 (String c2 (String c3 EmptyString)))
        /\ forall q, DecodeRune (c0 :: c1 :: c2 :: c3 :: q) = (r, 4%nat)
  | _ => False
  end.

End UTF8.

(** ** encoding/json and the JSON methods of golang-jwt

    [json.Marshal] of a token header and of [JWTClaims], and
    [json.Unmarshal] into the header map and into [JWTClaims]: a reader
    of JSON texts (white space, nesting, every kind of value), the
    assignment of members to struct fields by name, exactly or folding
    case, and the conversions of the field types, with the
    [UnmarshalJSON] methods of [NumericDate] and [ClaimStrings]. *)

Module GoJSON.
Import JWT UTF8.

Definition dquote : ascii := ascii_of_nat 34.
Definition backslash : ascii := ascii_of_nat 92.

Definition str (c : ascii) : string := String c EmptyString.

(** A byte below [utf8.RuneSelf] in a string literal ([Marshal] escapes
    for HTML). *)
Definition escapeByte (c : ascii) : string :=
  let n := byte c in
  if n =? 34 then String backslash (str dquote)
  else if n =? 92 then String backslash (str backslash)
  else if n =? 8 then String backslash "b"
  else if n =? 12 then String backslash "f"
  else if n =? 10 then String backslash "n"
  else if n =? 13 then String backslash "r"
  else if n =? 9 then String backslash "t"
  else if (n <? 32) || (n =? 60) || (n =? 62) || (n =? 38)
  then String backslash ("u00" +:+ str (Crypto.hexDigit (n / 16))
                               +:+ str (Crypto.hexDigit (n mod 16)))
  else str c.

(** The body of a string literal ([appendString]): a byte that starts
    no valid encoding becomes the escape of U+FFFD, the line and
    paragraph separators U+2028 and U+2029 are escaped, every other
    rune is copied. *)
Fixpoint escape (s : string) : string :=
  match s with
  | EmptyString => EmptyString
  | String c0 s1 =>
      if byte c0 <? RuneSelf then escapeByte c0 +:+ escape s1
      else
        match DecodeRuneInString s, s1 with
        | (_, 2%nat), String c1 t => String c0 (String c1 (escape t))
        | (r, 3%nat), String c1 (String c2 t) =>
            if (r =? 0x2028) || (r =? 0x2029)
            then String backslash ("u202" +:+ str (Crypto.hexDigit (r mod 16))
                                   +:+ escape t)
            else String c0 (String c1 (String c2 (escape t)))
        | (_, 4%nat), String c1 (String c2 (String c3 t)) =>
            String c0 (String c1 (String c2 (String c3 (escape t))))
        | _, _ => String backslash ("ufffd" +:+ escape s1)
        end
  end.

Definition quote (s : string) : string :=
  String dquote (escape s +:+ str dquote).

(** [strconv.FormatInt(n, 10)] *)
Definition formatInt (n : Z) : string :=
  DecimalString.NilZero.string_of_int (Z.to_int n).

Definition member (key value : string) : string :=
  quote key +:+ ":" +:+ value.

Definition object (members : list string) : string :=
  "{" +:+ String.concat "," members +:+ "}".

(** A string field tagged omitempty. *)
Definition optString (key value : string) : list string :=
  if String.eqb value EmptyString then [] else [member key (quote value)].

(** [NumericDate.MarshalJSON] at the precision of one second: the Unix
    seconds of the date. *)
Definition optDate (key : string) (t : option Time) : list string :=
  match t with
  | None => []
  | Some t => [member key (formatInt (t / Second))]
  end.

(** [ClaimStrings.MarshalJSON]: an array, also for a single string. *)
Definition optAudience (aud : list string) : list string :=
  match aud with
  | [] => []
  | _ => [member "aud" ("[" +:+ String.concat "," (map quote aud) +:+ "]")]
  end.

(** The header map has the keys alg and typ; a map is written with its
    keys sorted. *)
Definition marshalHeaderGo (alg : string) : string :=
  object [member "alg" (quote alg); member "typ" (quote "JWT")].

Definition marshalClaimsGo (c : JWTClaims) : string :=
  let r := Registered c in
  object ([member "user_id" (formatInt (UserID c));
           member "email" (quote (Email c));
           member "role" (quote (Role c))]
          ++ optString "iss" (Issuer r) ++ optString "sub" (Subject r)
          ++ optAudience (Audience r)
          ++ optDate "exp" (ExpiresAt r) ++ optDate "nbf" (NotBefore r)
          ++ optDate "iat" (IssuedAt r) ++ optString "jti" (ID r))%list.

(** *** Reading a JSON text *)

#[warnings="-register-all"]
Inductive json :=
| JNull
| JBool (b : bool)
| JNumber (lit : string)
| JString (s : string)
| JArray (elems : list json)
| JObject (members : list (string * json)).

Definition isSpace (c : ascii) : bool :=
  let n := byte c in (n =? 32) || (n =? 9) || (n =? 13) || (n =? 10).

Fixpoint skipSpace (cs : list ascii) : list ascii :=
  match cs with
  | c :: cs' => if isSpace c then skipSpace cs' else cs
  | [] => []
  end.

Definition hexVal (c : ascii) : option Z :=
  let n := byte c in
  if (48 <=? n) && (n <=? 57) then Some (n - 48)
  else if (97 <=? n) && (n <=? 102) then Some (n - 87)
  else if (65 <=? n) && (n <=? 70) then Some (n - 55)
  else None.

Definition hex4 (h1 h2 h3 h4 : ascii) : option Z :=
  match hexVal h1, hexVal h2, hexVal h3, hexVal h4 with
  | Some a, Some b, Some c, Some d => Some (((a * 16 + b) * 16 + c) * 16 + d)
  | _, _, _, _ => None
  end.

(** [getu4]: the value of a [\uXXXX] escape at the head of the input. *)
Definition getu4 (cs : list ascii) : option Z :=
  match cs with
  | b :: u :: h1 :: h2 :: h3 :: h4 :: _ =>
      if Ascii.eqb b backslash && Ascii.eqb u "u" then hex4 h1 h2 h3 h4
      else None
  | _ => None
  end.

(** [utf16.DecodeRune]: the rune of a surrogate pair, [RuneError] when
    the two values are no pair. *)
Definition decodePair (r1 r2 : Z) : Z :=
  if within 0xD800 0xDBFF r1 && within 0xDC00 0xDFFF r2
  then (r1 - 0xD800) * 1024 + (r2 - 0xDC00) + 0x10000
  else RuneError.

Definition push (emit : string) (r : option (string * list ascii))
    : option (string * list ascii) :=
  match r with
  | None => None
  | Some (s, out) => Some (emit +:+ s, out)
  end.

(** The rest of a string literal after its opening quote, unquoted
    ([unquote]): escapes are resolved, a pair of surrogate escapes is
    one rune and a lone one U+FFFD, and bytes outside ASCII are decoded
    and encoded again, which turns each byte of an invalid encoding
    into U+FFFD. *)
Fixpoint readString (cs : list ascii) : option (string * list ascii) :=
  match cs with
  | [] => None
  | c :: cs' =>
      let n := byte c in
      if n =? 34 then Some (EmptyString, cs')
      else if n <? 32 then None
      else if n =? 92 then
        match cs' with
        | e :: rest =>
            let k := byte e in
            if k =? 34 then push (str dquote) (readString rest)
            else if k =? 92 then push (str backslash) (readString rest)
            else if k =? 47 then push "/" (readString rest)
            else if k =? 98 then push (str (chr 8)) (readString rest)
            else if k =? 102 then push (str (chr 12)) (readString rest)
            else if k =? 110 then push (str (chr 10)) (readString rest)
            else if k =? 114 then push (str (chr 13)) (readString rest)
            else if k =? 116 then push (str (chr 9)) (readString rest)
            else if k =? 117 then
              match rest with
              | h1 :: h2 :: h3 :: h4 :: rest' =>
                  match hex4 h1 h2 h3 h4 with
                  | None => None
                  | Some rr =>
                      if surrogate rr then
                        match getu4 rest', rest' with
                        | Some rr1, _ :: _ :: _ :: _ :: _ :: _ :: rest'' =>
                            if decodePair rr rr1 =? RuneError
                            then push (EncodeRune RuneError) (readString rest')
                            else push (EncodeRune (decodePair rr rr1))
                                   (readString rest'')
                        | _, _ =>
                            push (EncodeRune RuneError) (readString rest')
                        end
                      else push (EncodeRune rr) (readString rest')
                  end
              | _ => None
              end
            else None
        | [] => None
        end
      else if n <? RuneSelf then push (str c) (readString cs')
      else
        match DecodeRune cs, cs' with
        | (r, 2%nat), _ :: t => push (EncodeRune r) (readString t)
        | (r, 3%nat), _ :: _ :: t => push (EncodeRune r) (readString t)
        | (r, 4%nat), _ :: _ :: _ :: t => push (EncodeRune r) (readString t)
        | (r, _), _ => push (EncodeRune r) (readString cs')
        end
  end.

(** The longest run of digits at the head of the input. *)
Fixpoint digitRun (cs : list ascii) : list ascii * list ascii :=
  match cs with
  | c :: cs' =>
      if Go.isDigit c
      then let '(ds, out) := digitRun cs' in (c :: ds, out)
      else ([], cs)
  | [] => ([], [])
  end.

(** A number literal: an optional minus, 0 or a digit from 1 to 9
    followed by digits, an optional fraction and an optional exponent. *)
Definition readNumber (cs : list ascii) : option (string * list ascii) :=
  let '(sign, r0) :=
    match cs with
    | c :: r => if Ascii.eqb c "-" then ([c], r) else ([], cs)
    | [] => ([], cs)
    end in
  match r0 with
  | [] => None
  | c :: r1 =>
      if negb (Go.isDigit c) then None
      else
        let '(int, r2) :=
          if Ascii.eqb c "0" then ([c], r1)
          else let '(ds, out) := digitRun r1 in (c :: ds, out) in
        let frac :=
          match r2 with
          | dot :: r3 =>
              if Ascii.eqb dot "."
              then match digitRun r3 with
                   | ([], _) => None
                   | (ds, out) => Some (dot :: ds, out)
                   end
              else Some ([], r2)
          | [] => Some ([], r2)
          end in
        match frac with
        | None => None
        | Some (fr, r4) =>
            let exp :=
              match r4 with
              | e :: r5 =>
                  if Ascii.eqb e "e" || Ascii.eqb e "E" then
                    let '(sg, r6) :=
                      match r5 with
                      | s :: r => if Ascii.eqb s "+" || Ascii.eqb s "-"
                                  then ([s], r) else ([], r5)
                      | [] => ([], r5)
                      end in
                    match digitRun r6 with
                    | ([], _) => None
                    | (ds, out) => Some (e :: sg ++ ds, out)
                    end
                  else Some ([], r4)
              | [] => Some ([], r4)
              end in
            match exp with
            | None => None
            | Some (ex, out) =>
                Some (string_of_list_ascii (sign ++ int ++ fr ++ ex), out)
            end
        end
  end.

(** One of the words true, false and null. *)
Fixpoint word (w : list ascii) (cs : list ascii) : option (list ascii) :=
  match w, cs with
  | [], _ => Some cs
  | a :: w', c :: cs' => if Ascii.eqb a c then word w' cs' else None
  | _ :: _, [] => None
  end.

(** The scanner refuses a text nested deeper than this. *)
Definition maxNestingDepth : Z := 10000.

(** A value, after optional white space; [depth] counts the arrays and
    objects that are open.  Every call consumes a byte before it calls
    another, or is called right after a byte was consumed, so twice the
    length of the input is fuel enough. *)
Fixpoint readValue (fuel : nat) (depth : Z) (cs : list ascii)
    : option (json * list ascii) :=
  match fuel with
  | O => None
  | S fuel' =>
      match skipSpace cs with
      | [] => None
      | c :: cs' =>
          if Ascii.eqb c dquote then
            match readString cs' with
            | None => None
            | Some (s, out) => Some (JString s, out)
            end
          else if Ascii.eqb c "{" then
            if maxNestingDepth <=? depth then None
            else
              match skipSpace cs' with
              | c' :: rest =>
                  if Ascii.eqb c' "}" then Some (JObject [], rest)
                  else
                    match readMembers fuel' (depth + 1) (c' :: rest) with
                    | None => None
                    | Some (ms, out) => Some (JObject ms, out)
                    end
              | [] => None
              end
          else if Ascii.eqb c "[" then
            if maxNestingDepth <=? depth then None
            else
              match skipSpace cs' with
              | c' :: rest =>
                  if Ascii.eqb c' "]" then Some (JArray [], rest)
                  else
                    match readElems fuel' (depth + 1) (c' :: rest) with
                    | None => None
                    | Some (l, out) => Some (JArray l, out)
                    end
              | [] => None
              end
          else if Ascii.eqb c "t" then
            match word (list_ascii_of_string "rue") cs' with
            | None => None
            | Some out => Some (JBool true, out)
            end
          else if Ascii.eqb c "f" then
            match word (list_ascii_of_string "alse") cs' with
            | None => None
            | Some out => Some (JBool false, out)
            end
          else if Ascii.eqb c "n" then
            match word (list_ascii_of_string "ull") cs' with
            | None => None
            | Some out => Some (JNull, out)
            end
          else
            match readNumber (c :: cs') with
            | None => None
            | Some (lit, out) => Some (JNumber lit, out)
            end
      end
  end

(** The elements of an array that is not empty, up to its bracket. *)
with readElems (fuel : nat) (depth : Z) (cs : list ascii)
    : option (list json * list ascii) :=
  match fuel with
  | O => None
  | S fuel' =>
      match readValue fuel' depth cs with
      | None => None
      | Some (v, r) =>
          match skipSpace r with
          | sep :: r' =>
              if Ascii.eqb sep "]" then Some ([v], r')
              else if Ascii.eqb sep "," then
                match readElems fuel' depth r' with
                | None => None
                | Some (l, out) => Some (v :: l, out)
                end
              else None
          | [] => None
          end
      end
  end

(** The members of an object that is not empty, up to its brace. *)
with readMembers (fuel : nat) (depth : Z) (cs : list ascii)
    : option (list (string * json) * list ascii) :=
  match fuel with
  | O => None
  | S fuel' =>
      match skipSpace cs with
      | q :: r =>
          if Ascii.eqb q dquote then
            match readString r with
            | None => None
            | Some (key, r1) =>
                match skipSpace r1 with
                | colon :: r2 =>
                    if Ascii.eqb colon ":" then
                      match readValue fuel' depth r2 with
                      | None => None
                      | Some (v, r3) =>
                          match skipSpace r3 with
                          | sep :: r4 =>
                              if Ascii.eqb sep "}" then Some ([(key, v)], r4)
                              else if Ascii.eqb sep "," then
                                match readMembers fuel' depth r4 with
                                | None => None
                                | Some (ms, out) => Some ((key, v) :: ms, out)
                                end
                              else None
                          | [] => None
                          end
                      end
                    else None
                | [] => None
                end
            end
          else None
      | [] => None
      end
  end.

(** A whole text: one value, white space around it, nothing after. *)
Definition parse (s : string) : option json :=
  let cs := list_ascii_of_string s in
  match readValue (2 * length cs + 2) 0 cs with
  | None => None
  | Some (v, rest) =>
      match skipSpace rest with
      | [] => Some v
      | _ :: _ => None
      end
  end.

(** *** Numbers *)

(** The value of a run of decimal digits. *)
Definition digitsValue (ds : list ascii) : Z :=
  fold_left (fun acc c => acc * 10 + Go.digitVal c) ds 0.

(** The exponent as strconv reads it: it stops growing at 10000. *)
Definition exponentValue (ds : list ascii) : Z :=
  fold_left (fun e c => if e <? 10000 then e * 10 + Go.digitVal c else e) ds 0.

(** A number literal as sign, digits [m] and decimal exponent [e]: its
    value is [m * 10^e]. *)
Definition decimalOf (lit : string) : bool * Z * Z :=
  let cs := list_ascii_of_string lit in
  let '(neg, r0) :=
    match cs with
    | c :: r => if Ascii.eqb c "-" then (true, r) else (false, cs)
    | [] => (false, cs)
    end in
  let '(int, r1) := digitRun r0 in
  let '(fr, r2) :=
    match r1 with
    | dot :: r => if Ascii.eqb dot "." then digitRun r else ([], r1)
    | [] => ([], r1)
    end in
  let e :=
    match r2 with
    | _ :: s :: r =>
        if Ascii.eqb s "-" then - exponentValue (fst (digitRun r))
        else if Ascii.eqb s "+" then exponentValue (fst (digitRun r))
        else exponentValue (fst (digitRun (s :: r)))
    | _ => 0
    end in
  (neg, digitsValue (int ++ fr), e - Z.of_nat (length fr)).

(** A finite float64 as mantissa and binary exponent: [m * 2^e]. *)
Definition float64 : Type := (Z * Z)%type.

(** The float64 nearest to [p / q] for [0 <= p] and [0 < q], a tie going
    to the even mantissa; [None] when it is beyond the largest float64
    ([strconv.ErrRange]). *)
Definition nearest (p q : Z) : option float64 :=
  if p =? 0 then Some (0, 0)
  else
    let k := Z.log2 p - Z.log2 q in
    let below := if 0 <=? k then p <? q * 2 ^ k else p * 2 ^ (- k) <? q in
    let lg := if below then k - 1 else k in
    let e := Z.max (lg - 52) (-1074) in
    let num := if 0 <=? e then p else p * 2 ^ (- e) in
    let den := if 0 <=? e then q * 2 ^ e else q in
    let m0 := num / den in
    let r := num mod den in
    let m := if 2 * r <? den then m0
             else if den <? 2 * r then m0 + 1
             else if Z.even m0 then m0 else m0 + 1 in
    let '(m, e) := if m =? 2 ^ 53 then (2 ^ 52, e + 1) else (m, e) in
    if 971 <? e then None else Some (m, e).

(** [strconv.ParseFloat(lit, 64)] on a number literal: sign and
    magnitude.  An integer below 2^53 is a float64 as it stands. *)
Definition ParseFloat (lit : string) : option (bool * float64) :=
  let '(neg, m, e) := decimalOf lit in
  if (e =? 0) && (m <? 2 ^ 53) then Some (neg, (m, 0))
  else
    match (if 0 <=? e then nearest (m * 10 ^ e) 1 else nearest m (10 ^ (- e))) with
    | None => None
    | Some f => Some (neg, f)
    end.

(** The whole string is a number literal ([isValidNumber]). *)
Definition isValidNumber (s : string) : bool :=
  match readNumber (list_ascii_of_string s) with
  | Some (_, []) => true
  | _ => false
  end.

(** Go's [int64] after wrap-around. *)
Definition wrap64 (x : Z) : Z := (x + 2 ^ 63) mod 2 ^ 64 - 2 ^ 63.

(** The seconds from year 1 to 1970 ([unixToInternal]). *)
Definition unixToInternal : Z := 62135596800.

(** [newNumericDateFromSeconds(f)]: [math.Modf], the conversions of the
    two parts to int64 (on amd64 a value out of range converts to the
    least int64), [time.Unix], whose seconds since year 1 wrap around,
    and the truncation to a second.  The fraction times 1e9, rounded to
    a float64, is -1 or less exactly when the product is at most
    -(1 - 2^-54); then [time.Unix] borrows a second. *)
Definition newNumericDateFromSeconds (neg : bool) (f : float64) : Time :=
  let '(m, e) := f in
  let num := if 0 <=? e then m * 2 ^ e else m in
  let den := if 0 <=? e then 1 else 2 ^ (- e) in
  let round := num / den in
  let frac := num mod den in
  let sec0 :=
    if neg
    then (if round <=? 2 ^ 63 then - round else - 2 ^ 63)
    else (if round <? 2 ^ 63 then round else - 2 ^ 63) in
  let borrow := neg && ((2 ^ 54 - 1) * den <=? frac * 10 ^ 9 * 2 ^ 54) in
  let sec := if borrow then sec0 - 1 else sec0 in
  (wrap64 (sec + unixToInternal) - unixToInternal) * Second.

(** [NumericDate.UnmarshalJSON]: the value is read as a [json.Number],
    which a number literal is and a string holding one too, then
    converted with [Float64]. *)
Definition numericDate (v : json) : option Time :=
  let ofLiteral (lit : string) :=
    match ParseFloat lit with
    | None => None
    | Some (neg, f) => Some (newNumericDateFromSeconds neg f)
    end in
  match v with
  | JNumber lit => ofLiteral lit
  | JString s => if isValidNumber s then ofLiteral s else None
  | _ => None
  end.

(** Decoding into [interface{}] converts every number to a float64 and
    fails when one is out of range, at any depth. *)
Fixpoint numbersInRange (v : json) : bool :=
  match v with
  | JNumber lit => match ParseFloat lit with Some _ => true | None => false end
  | JArray l => forallb numbersInRange l
  | JObject ms => forallb (fun kv => numbersInRange (snd kv)) ms
  | _ => true
  end.

(** [ClaimStrings.UnmarshalJSON]: a string, or an array of strings;
    [Some None] leaves the field as it is (null). *)
Definition claimStrings (v : json) : option (option (list string)) :=
  if negb (numbersInRange v) then None
  else
    match v with
    | JNull => Some None
    | JString s => Some (Some [s])
    | JArray l =>
        match
          fold_right
            (fun e acc =>
               match e, acc with
               | JString s, Some ss => Some (s :: ss)
               | _, _ => None
               end) (Some []) l
        with
        | Some ss => Some (Some ss)
        | None => None
        end
    | _ => None
    end.

(** *** Members and struct fields *)

(** [foldName]: ASCII letters in upper case; of the runes outside ASCII
    only U+017F and U+212A fold to an ASCII letter (S and K), so for the
    comparison with the ASCII names of the fields every other rune can
    stay as it is. *)
Fixpoint foldName (s : string) : string :=
  match s with
  | EmptyString => EmptyString
  | String c0 s1 =>
      let n := byte c0 in
      if within 97 122 n then String (chr (n - 32)) (foldName s1)
      else if n <? RuneSelf then String c0 (foldName s1)
      else
        match DecodeRuneInString s, s1 with
        | (r, 2%nat), String c1 t =>
            if r =? 0x17F then String "S" (foldName t)
            else String c0 (String c1 (foldName t))
        | (r, 3%nat), String c1 (String c2 t) =>
            if r =? 0x212A then String "K" (foldName t)
            else String c0 (String c1 (String c2 (foldName t)))
        | (_, 4%nat), String c1 (String c2 (String c3 t)) =>
            String c0 (String c1 (String c2 (String c3 (foldName t))))
        | _, _ => EncodeRune RuneError +:+ foldName s1
        end
  end.

(** The JSON names of the fields of [JWTClaims], those of the embedded
    [RegisteredClaims] included. *)
Definition fieldNames : list string :=
  ["user_id"; "email"; "role"; "iss"; "sub"; "aud"; "exp"; "nbf"; "iat"; "jti"].

(** The field a member goes to: the one of that name, or else the one
    whose name is the same when case is folded. *)
Definition fieldFor (key : string) : option string :=
  match find (String.eqb key) fieldNames with
  | Some f => Some f
  | None => find (fun f => String.eqb (foldName f) (foldName key)) fieldNames
  end.

Definition setRegistered (c : JWTClaims) (r : RegisteredClaims) : JWTClaims :=
  {| UserID := UserID c; Email := Email c; Role := Role c; Registered := r |}.

(** A string field: a string is stored, null changes nothing, any other
    value is a type error. *)
Definition stringField (v : json) (old : string) : option string :=
  match v with
  | JString s => Some s
  | JNull => Some old
  | _ => None
  end.

(** A [*NumericDate] field: null makes it nil. *)
Definition dateField (v : json) : option (option Time) :=
  match v with
  | JNull => Some None
  | _ => match numericDate v with
         | Some t => Some (Some t)
         | None => None
         end
  end.

(** One member of the claims object stored into the struct; [None] is
    an error, which makes [Unmarshal] fail whatever follows. *)
Definition storeMember (c : JWTClaims) (kv : string * json) : option JWTClaims :=
  let '(key, v) := kv in
  let r := Registered c in
  match fieldFor key with
  | None => Some c
  | Some f =>
      if String.eqb f "user_id" then
        match v with
        | JNull => Some c
        | JNumber lit =>
            match Go.ParseUint lit 64 with
            | inl n => Some {| UserID := n; Email := Email c; Role := Role c;
                               Registered := r |}
            | inr _ => None
            end
        | _ => None
        end
      else if String.eqb f "email" then
        s ← stringField v (Email c);
        Some {| UserID := UserID c; Email := s; Role := Role c; Registered := r |}
      else if String.eqb f "role" then
        s ← stringField v (Role c);
        Some {| UserID := UserID c; Email := Email c; Role := s; Registered := r |}
      else if String.eqb f "iss" then
        s ← stringField v (Issuer r);
        Some (setRegistered c
                {| Issuer := s; Subject := Subject r; Audience := Audience r;
                   ExpiresAt := ExpiresAt r; NotBefore := NotBefore r;
                   IssuedAt := IssuedAt r; ID := ID r |})
      else if String.eqb f "sub" then
        s ← stringField v (Subject r);
        Some (setRegistered c
                {| Issuer := Issuer r; Subject := s; Audience := Audience r;
                   ExpiresAt := ExpiresAt r; NotBefore := NotBefore r;
                   IssuedAt := IssuedAt r; ID := ID r |})
      else if String.eqb f "aud" then
        a ← claimStrings v;
        Some (setRegistered c
                {| Issuer := Issuer r; Subject := Subject r;
                   Audience := default (Audience r) a;
                   ExpiresAt := ExpiresAt r; NotBefore := NotBefore r;
                   IssuedAt := IssuedAt r; ID := ID r |})
      else if String.eqb f "exp" then
        t ← dateField v;
        Some (setRegistered c
                {| Issuer := Issuer r; Subject := Subject r;
                   Audience := Audience r;
                   ExpiresAt := t; NotBefore := NotBefore r;
                   IssuedAt := IssuedAt r; ID := ID r |})
      else if String.eqb f "nbf" then
        t ← dateField v;
        Some (setRegistered c
                {| Issuer := Issuer r; Subject := Subject r;
                   Audience := Audience r;
                   ExpiresAt := ExpiresAt r; NotBefore := t;
                   IssuedAt := IssuedAt r; ID := ID r |})
      else if String.eqb f "iat" then
        t ← dateField v;
        Some (setRegistered c
                {| Issuer := Issuer r; Subject := Subject r;
                   Audience := Audience r;
                   ExpiresAt := ExpiresAt r; NotBefore := NotBefore r;
                   IssuedAt := t; ID := ID r |})
      else
        s ← stringField v (ID r);
        Some (setRegistered c
                {| Issuer := Issuer r; Subject := Subject r;
                   Audience := Audience r;
                   ExpiresAt := ExpiresAt r; NotBefore := NotBefore r;
                   IssuedAt := IssuedAt r; ID := s |})
  end.

(** The zero value of [JWTClaims], which the filter hands to the parser. *)
Definition zeroClaims : JWTClaims :=
  {| UserID := 0; Email := EmptyString; Role := EmptyString;
     Registered :=
       {| Issuer := EmptyString; Subject := EmptyString; Audience := [];
          ExpiresAt := None; NotBefore := None; IssuedAt := None;
          ID := EmptyString |} |}.

Definition storeMembers (ms : list (string * json)) : option JWTClaims :=
  fold_left (fun acc kv => c ← acc; storeMember c kv) ms (Some zeroClaims).

(** [json.Unmarshal(claimBytes, &claims)]: an object fills the struct,
    null leaves it as it is, any other value is a type error. *)
Definition unmarshalClaimsGo (s : string) : option JWTClaims :=
  match parse s with
  | Some (JObject ms) => storeMembers ms
  | Some JNull => Some zeroClaims
  | _ => None
  end.

(** The last member of that name, as a map keeps it. *)
Definition lastMember (key : string) (ms : list (string * json)) : option json :=
  match find (fun kv => String.eqb (fst kv) key) (rev ms) with
  | Some (_, v) => Some v
  | None => None
  end.

(** [json.Unmarshal(headerBytes, &token.Header)] and the type assertion
    [token.Header["alg"].(string)]. *)
Definition unmarshalHeaderGo (s : string) : option (option string) :=
  match parse s with
  | Some (JObject ms) =>
      if forallb (fun kv => numbersInRange (snd kv)) ms
      then Some (match lastMember "alg" ms with
                 | Some (JString a) => Some a
                 | _ => None
                 end)
      else None
  | Some JNull => Some None
  | _ => None
  end.

(** The text of a string or number member, and the members the writer
    produces for a token: names and strings in valid UTF-8, numbers that
    are not negative. *)
Definition writeValue (v : json) : string :=
  match v with
  | JString s => quote s
  | JNumber lit => lit
  | _ => EmptyString
  end.

Definition writeMember (kv : string * json) : string :=
  member (fst kv) (writeValue (snd kv)).

Definition plainMember (kv : string * json) : Prop :=
  ValidString (fst kv) = true
  /\ match snd kv with
     | JString s => ValidString s = true
     | JNumber lit => exists n, 0 <= n /\ lit = formatInt n
     | _ => False
     end.

(** What may follow a value in the texts written here. *)
Definition closes (sep : ascii) : Prop := sep = ","%char \/ sep = "}"%char.

Definition codec : JSONCodec :=
  {| marshalHeader := marshalHeaderGo; unmarshalHeader := unmarshalHeaderGo;
     marshalClaims := marshalClaimsGo; unmarshalClaims := unmarshalClaimsGo |}.

End GoJSON.

(** ** Vocabulary of the statements *)

Module Spec.
Import Gin.

(** The context carries the identity (subject id, role) the filter
    stores: a [uint] under userID and a string under role. *)
Definition hasIdentity (c : Context) (uid : Z) (role : string) : Prop :=
  Get c "userID" = Some (AUint uid) /\ Get c "role" = Some (AString role).


(** The context after the filter has stored the claims' identity. *)
Definition withIdentity (c : Context) (claims : JWT.JWTClaims) : Context :=
  Set_ (Set_ (Set_ c "userID" (AUint (JWT.UserID claims)))
             "email" (AString (JWT.Email claims)))
       "role" (AString (JWT.Role claims)).

(** A request to a route of the given path and parameters, carrying one
    Authorization header, before any handler has run. *)
Definition request (path : string) (params : gmap string string)
    (authorization : option string) : Context :=
  {| Path := path;
     Header := match authorization with
               | Some h => {[ "Authorization" := h ]}
               | None => ∅
               end;
     Params := params; Keys := ∅; Written := None; Aborted := false |}.

(** The request reaches the token check with [tokenString] as its
    bearer token. *)
Definition presents (c : Context) (tokenString : string) : Prop :=
  Middleware.isPublicPath (Path c) = false
  /\ Go.Split (GetHeader c "Authorization") " " = ["Bearer"; tokenString].

(** The names of the symmetric (HMAC) signing methods. *)
Definition isHMACName (alg : string) : bool :=
  String.eqb alg "HS256" || String.eqb alg "HS384" || String.eqb alg "HS512".

(** The algorithm the first segment of a token string declares. *)
Definition declaredAlg (J : JWT.JSONCodec) (tokenString : string) : option string :=
  match Go.Split tokenString "." with
  | p0 :: _ =>
      match Base64.DecodeString p0 with
      | Some headerBytes =>
          match JWT.unmarshalHeader J headerBytes with
          | Some alg => alg
          | None => None
          end
      | None => None
      end
  | [] => None
  end.


(** The token string carries [claims] under an HMAC method, its
    signature segment is the HMAC tag of its first two segments under
    [secret], and the claims pass validation at [now]. *)
Definition verifiedUnder (J : JWT.JSONCodec) (secret : string) (now : JWT.Time)
    (tokenString : string) (claims : JWT.JWTClaims) : Prop :=
  exists p0 p1 p2 headerBytes claimBytes h,
    Go.Split tokenString "." = [p0; p1; p2]
    /\ Base64.DecodeString p0 = Some headerBytes
    /\ JWT.unmarshalHeader J headerBytes
       = Some (Some (JWT.Alg (JWT.SigningMethodHMAC h)))
    /\ Base64.DecodeString p1 = Some claimBytes
    /\ JWT.unmarshalClaims J claimBytes = Some claims
    /\ Base64.DecodeString p2
       = Some (Crypto.HMAC h secret (p0 +:+ "." +:+ p1))
    /\ JWT.Validate (JWT.Registered claims) now = None.

(** The JSON layer gives back the header and the claims it wrote. *)
Definition roundTrips (J : JWT.JSONCodec) (claims : JWT.JWTClaims) : Prop :=
  JWT.unmarshalHeader J (JWT.marshalHeader J "HS256") = Some (Some "HS256")
  /\ JWT.unmarshalClaims J (JWT.marshalClaims J claims) = Some claims.


(** The sentence of the specification about the origin of the signing
    secret: some environment variable supplies it. *)
Definition secretFromEnv : Prop :=
  exists name : string,
    forall (env : gmap string string) (cfg : Config.Config) (s : string),
      s <> EmptyString ->
      Go.Getenv env name = s ->
      Config.Secret (Config.Application (Config.overrideFromEnv env cfg)) = s.

(** The route group of the self-or-role policy as the handler package
    mounts it: the filter, then the gate. *)
Definition userOwnerChain (J : JWT.JSONCodec) (cfg : Config.Config)
    (now : JWT.Time) : list HandlerFunc :=
  [Middleware.AuthMiddleware J cfg now; Authz.CanModifyUser].

(** The three cases the specification lists for target id 7. *)
Definition onUser7 (uid : Z) (role : string) : Context :=
  withIdentity (request "/api/users/7" {[ "id" := "7" ]} None)
    {| JWT.UserID := uid; JWT.Email := "u@example.com"; JWT.Role := role;
       JWT.Registered :=
         {| JWT.Issuer := "jiaxun"; JWT.Subject := EmptyString;
            JWT.Audience := []; JWT.ExpiresAt := None; JWT.NotBefore := None;
            JWT.IssuedAt := None; JWT.ID := EmptyString |} |}.


(** Example inputs. *)

(** An environment that sets a secret under every likely name. *)
Definition suppliedEnv : gmap string string :=
  {[ "SECRET" := "s3cret"; "JWT_SECRET" := "s3cret";
     "APP_SECRET" := "s3cret"; "APPLICATION_SECRET" := "s3cret" ]}.

(** What decoding a config file whose application secret is the empty
    string does to the configuration. *)
Definition blankSecretFile (cfg : Config.Config) : Config.Config * bool :=
  ({| Config.Server := Config.Server cfg;
      Config.Database := Config.Database cfg;
      Config.Logging := Config.Logging cfg;
      Config.Application := {| Config.Secret := EmptyString |} |}, false).

(** A forged, unsigned token: header alg none, claims user 1, teacher. *)
Definition noneToken : string :=
  "eyJhbGciOiJub25lIiwidHlwIjoiSldUIn0.eyJ1c2VyX2lkIjoxLCJyb2xlIjoidGVhY2hlciJ9.".


(** A request for user 7's profile with the given Authorization header. *)
Definition toUser7 (authorization : option string) : Context :=
  request "/api/users/7" {[ "id" := "7" ]} authorization.

(** The token [GenerateToken] issues under the default configuration to
    user 7, a student, at 1700000000 seconds and a fraction. *)
Definition token7 : string :=
  "eyJhbGciOiJIUzI1NiIsInR5cCI6IkpXVCJ9"
  +:+ ".eyJ1c2VyX2lkIjo3LCJlbWFpbCI6ImFteUBleGFtcGxlLmNvbSIsInJvbGUiOiJzdHVkZW50Iiw"
  +:+ "iaXNzIjoiamlheHVuIiwiZXhwIjoxNzAwMDg2NDAwLCJpYXQiOjE3MDAwMDAwMDB9"
  +:+ ".k0vt_hlKavfumFT-TbSSP_BW6YsCSZxKkBEcr4pb2Ng".

Definition issuedAt7 : JWT.Time := 1700000000123456789.

Definition claims7 : JWT.JWTClaims :=
  Middleware.newClaims issuedAt7 issuedAt7 7 "amy@example.com" "student".



End Spec.

(** ** Route groups and signed tokens: further vocabulary *)

Module Routes.
Import Gin.

(** A context no handler has touched yet: no keys, no response, not
    aborted. *)
Definition fresh (c : Context) : Prop :=
  Keys c = ∅ /\ Written c = None /\ Aborted c = false.


(** The JSON layer gives back a header naming [alg] and the claims. *)
Definition roundTripsWith (J : JWT.JSONCodec) (alg : string)
    (claims : JWT.JWTClaims) : Prop :=
  JWT.unmarshalHeader J (JWT.marshalHeader J alg) = Some (Some alg)
  /\ JWT.unmarshalClaims J (JWT.marshalClaims J claims) = Some claims.

(** The text of a token made of [claims] and signed with the HMAC method
    of hash [h] under [key]. *)
Definition signedWith (J : JWT.JSONCodec) (h : Crypto.Hash)
    (claims : JWT.JWTClaims) (key : string) : string :=
  JWT.SigningString J (JWT.SigningMethodHMAC h) claims +:+ "."
  +:+ Base64.EncodeToString
        (Crypto.HMAC h key
           (JWT.SigningString J (JWT.SigningMethodHMAC h) claims)).

(** Claims that carry an identity and no temporal claim at all. *)
Definition timelessClaims (uid : Z) (email role : string) : JWT.JWTClaims :=
  {| JWT.UserID := uid; JWT.Email := email; JWT.Role := role;
     JWT.Registered :=
       {| JWT.Issuer := EmptyString; JWT.Subject := EmptyString;
          JWT.Audience := []; JWT.ExpiresAt := None; JWT.NotBefore := None;
          JWT.IssuedAt := None; JWT.ID := EmptyString |} |}.

End Routes.

(** ** The environment variables the loader reads *)

Module Env.

Definition names : list string :=
  ["SERVER_HOST"; "SERVER_PORT"; "DB_DRIVER"; "DB_HOST"; "DB_PORT";
   "DB_USER"; "DB_PASSWORD"; "DB_NAME"; "LOG_LEVEL"; "LOG_FORMAT"].

(** The server port is one [Validate] accepts. *)
Definition portInRange (cfg : Config.Config) : bool :=
  (0 <? Config.ServerPort (Config.Server cfg))
  && (Config.ServerPort (Config.Server cfg) <=? 65535).

End Env.

(** ** The persistence boundary (gorm) as the services see it *)

Module Gorm.

(** The errors the code tells apart with [errors.Is]. *)
Inductive DBError :=
| ErrRecordNotFound
| ErrDuplicatedKey
| ErrOther (text : string).

Definition isNotFound (e : DBError) : bool :=
  match e with ErrRecordNotFound => true | _ => false end.

Definition isDuplicatedKey (e : DBError) : bool :=
  match e with ErrDuplicatedKey => true | _ => false end.

(** The zero [time.Time], 1 January of year 1, which a struct literal
    leaves in a time field it does not mention. *)
Definition zeroTime : JWT.Time := -62135596800 * JWT.Second.

(** Go's [int] on a 64-bit platform: the value of an arithmetic result
    after wrap-around. *)
Definition wrapInt (x : Z) : Z := (x + 2 ^ 63) mod 2 ^ 64 - 2 ^ 63.

(** What [BaseRepository] asks of a table of rows [T], over a database
    state [S]: the row count, and the rows a query with the given offset
    and limit finds. *)
Record Table (S T : Type) := {
  Count : S -> Z + DBError;
  Find : S -> Z -> Z -> list T + DBError
}.
Arguments Count {S T}.
Arguments Find {S T}.

(** [BaseRepository.List(page, pageSize)] *)
Definition BaseList {S T : Type} (db : Table S T) (s : S) (page pageSize : Z)
    : (list T * Z) + DBError :=
  match Count db s with
  | inr err => inr err
  | inl total =>
      let offset := wrapInt ((page - 1) * pageSize) in
      match Find db s offset pageSize with
      | inr err => inr err
      | inl objs => inl (objs, total)
      end
  end.

End Gorm.

(** ** The user repository as its callers see it *)

Module Repo.
Import Gorm Repository.

(** The methods of [UserRepository] the service and the handlers call,
    over a database state [S].  [Create] gives back the row as the
    database completed it (its id). *)
Record UserRepo (S : Type) := {
  GetByID : S -> Z -> User + DBError;
  GetByUsername : S -> string -> User + DBError;
  GetByEmail : S -> string -> User + DBError;
  Create : S -> User -> S * (User + DBError);
  Update : S -> User -> S * option DBError;
  Delete : S -> Z -> S * option DBError;
  List : S -> Z -> Z -> (list User * Z) + DBError
}.
Arguments GetByID {S}.
Arguments GetByUsername {S}.
Arguments GetByEmail {S}.
Arguments Create {S}.
Arguments Update {S}.
Arguments Delete {S}.
Arguments List {S}.

End Repo.

(** ** The user service (package service) *)

Module Service.
Import Gorm Repository.

(** bcrypt: hashing (which may fail) and comparing a hash with a
    password ([true] is a nil error). *)
Record Bcrypt := {
  GenerateFromPassword : string -> string + string;
  CompareHashAndPassword : string -> string -> bool
}.

Inductive ServiceError :=
| ErrUserNotFound
| ErrUserAlreadyExists
| ErrEmailAlreadyExists
| ErrInvalidCredentials
| DB (e : DBError)
| HashFailed (text : string).

Definition setPassword (u : User) (p : string) : User :=
  {| ID := ID u; Username := Username u; Email := Email u;
     FullName := FullName u; Password := p; Role := Role u;
     CreatedAt := CreatedAt u |}.

Definition setCreatedAt (u : User) (t : JWT.Time) : User :=
  {| ID := ID u; Username := Username u; Email := Email u;
     FullName := FullName u; Password := Password u; Role := Role u;
     CreatedAt := t |}.

Definition setEmail (u : User) (e : string) : User :=
  {| ID := ID u; Username := Username u; Email := e;
     FullName := FullName u; Password := Password u; Role := Role u;
     CreatedAt := CreatedAt u |}.

Definition setFullName (u : User) (n : string) : User :=
  {| ID := ID u; Username := Username u; Email := Email u;
     FullName := n; Password := Password u; Role := Role u;
     CreatedAt := CreatedAt u |}.

Section UserService.
Context {S : Type}.
Variable repo : Repo.UserRepo S.
Variable B : Bcrypt.

(** HashPassword generates a bcrypt hash from a password string. *)
Definition HashPassword (password : string) : string + ServiceError :=
  match GenerateFromPassword B password with
  | inl hashed => inl hashed
  | inr text => inr (HashFailed text)
  end.

(** CheckPassword compares a plaintext password with a hashed one;
    [true] is the nil error. *)
Definition CheckPassword (provided recorded : string) : bool :=
  CompareHashAndPassword B recorded provided.

(** A lookup whose only use is to see whether a row exists: [inl true]
    when it does, [inl false] when the record is not found. *)
Definition taken (r : User + DBError) : bool + DBError :=
  match r with
  | inl _ => inl true
  | inr e => if isNotFound e then inl false else inr e
  end.

(** Create registers a new user; [now] is the clock reading.  The user
    given back is the caller's struct after the call. *)
Definition Create (now : JWT.Time) (s : S) (user : User)
    : S * (User + ServiceError) :=
  match taken (Repo.GetByUsername repo s (Username user)) with
  | inr e => (s, inr (DB e))
  | inl true => (s, inr ErrUserAlreadyExists)
  | inl false =>
      match taken (Repo.GetByEmail repo s (Email user)) with
      | inr e => (s, inr (DB e))
      | inl true => (s, inr ErrEmailAlreadyExists)
      | inl false =>
          let user1 := setCreatedAt user now in
          match HashPassword (Password user1) with
          | inr e => (s, inr e)
          | inl hashed =>
              match Repo.Create repo s (setPassword user1 hashed) with
              | (s', inl user3) => (s', inl user3)
              | (s', inr e) => (s', inr (DB e))
              end
          end
      end
  end.

Definition Exists (s : S) (id : Z) : bool + DBError :=
  match Repo.GetByID repo s id with
  | inl _ => inl true
  | inr e => if isNotFound e then inl false else inr e
  end.

(** The error of a failed lookup as the getters report it. *)
Definition notFoundOr (e : DBError) : ServiceError :=
  if isNotFound e then ErrUserNotFound else DB e.

(** GetByID retrieves a user by ID. *)
Definition GetByID (s : S) (id : Z) : User + ServiceError :=
  match Repo.GetByID repo s id with
  | inl user => inl user
  | inr e => inr (notFoundOr e)
  end.

(** Update updates user information. *)
Definition Update (s : S) (user : User) : S * (User + ServiceError) :=
  match Repo.GetByID repo s (ID user) with
  | inr e => (s, inr (notFoundOr e))
  | inl existingUser =>
      let emailCheck : option ServiceError :=
        if negb (String.eqb (Email user) (Email existingUser)) then
          match Repo.GetByEmail repo s (Email user) with
          | inr e => if isNotFound e then None else Some (DB e)
          | inl emailUser =>
              if negb (ID emailUser =? ID user)
              then Some ErrEmailAlreadyExists else None
          end
        else None in
      match emailCheck with
      | Some e => (s, inr e)
      | None =>
          let hashing : User + ServiceError :=
            if negb (String.eqb (Password user) EmptyString)
               && negb (String.eqb (Password user) (Password existingUser))
            then match HashPassword (Password user) with
                 | inl hashed => inl (setPassword user hashed)
                 | inr e => inr e
                 end
            else inl user in
          match hashing with
          | inr e => (s, inr e)
          | inl user1 =>
              match Repo.Update repo s user1 with
              | (s', None) => (s', inl user1)
              | (s', Some e) => (s', inr (DB e))
              end
          end
      end
  end.

(** Delete removes a user by ID. *)
Definition Delete (s : S) (id : Z) : S * option ServiceError :=
  match Repo.GetByID repo s id with
  | inr e => (s, Some (notFoundOr e))
  | inl _ =>
      match Repo.Delete repo s id with
      | (s', None) => (s', None)
      | (s', Some e) => (s', Some (DB e))
      end
  end.

(** Authenticate validates user credentials and returns user if valid. *)
Definition Authenticate (s : S) (usernameOrEmail password : string)
    : User + ServiceError :=
  let found : User + ServiceError :=
    match Repo.GetByUsername repo s usernameOrEmail with
    | inl user => inl user
    | inr e =>
        if isNotFound e then
          match Repo.GetByEmail repo s usernameOrEmail with
          | inl user => inl user
          | inr e' =>
              if isNotFound e' then inr ErrInvalidCredentials else inr (DB e')
          end
        else inr (DB e)
    end in
  match found with
  | inr e => inr e
  | inl user =>
      if CheckPassword password (Password user) then inl user
      else inr ErrInvalidCredentials
  end.

(** List returns paginated users. *)
Definition List (s : S) (page pageSize : Z) : (list User * Z) + DBError :=
  Repo.List repo s page pageSize.

End UserService.

End Service.

(** ** The user handlers (package handler) *)

Module Handler.
Import Gin Gorm Repository.

(** The bodies the handlers bind; binding itself (gin) either yields the
    struct or an error whose text becomes the 400 body. *)
Record RegisterRequest := {
  RegUsername : string;
  RegEmail : string;
  RegPassword : string;
  RegFullName : string
}.


Record UpdateRequest := {
  UpdEmail : string;
  UpdPassword : string;
  UpdFullName : string
}.

Definition Bound (T : Type) : Type := (T + string)%type.

(** What a handler writes with [c.JSON]. *)
Inductive Reply :=
| ErrorReply (status : Z) (error : string)
| UserReply (status : Z) (user : User)
| LoginReply (token : string) (id : Z) (username email fullName role : string)
| MessageReply (status : Z) (message : string)
| UsersReply (users : list User) (total page pageSize : Z).

Inductive Outcome :=
| Replied (r : Reply)
| Panicked.

(** [c.DefaultQuery(key, defaultValue)] over the query values of the
    request: the default only when the key is absent. *)
Definition DefaultQuery (query : gmap string string) (key def : string) : string :=
  default def (query !! key).

Section UserHandler.
Context {S : Type}.
Variable repo : Repo.UserRepo S.
Variable B : Service.Bcrypt.
Variable J : JWT.JSONCodec.
Variable cfg : Config.Config.

(** Register creates a new user account. *)
Definition Register (now : JWT.Time) (s : S) (body : Bound RegisterRequest)
    : S * Reply :=
  match body with
  | inr text => (s, ErrorReply 400 text)
  | inl request =>
      let user := {| ID := 0; Username := RegUsername request;
                     Email := RegEmail request;
                     FullName := RegFullName request;
                     Password := RegPassword request;
                     Role := EmptyString; CreatedAt := zeroTime |} in
      match Service.Create repo B now s user with
      | (s', inr Service.ErrUserAlreadyExists) =>
          (s', ErrorReply 409 "User already exists")
      | (s', inr _) => (s', ErrorReply 500 "Failed to create user")
      | (s', inl created) =>
          (s', UserReply 201 (Service.setPassword created EmptyString))
      end
  end.


(** The reply of the handlers that fetch one user by id. *)
Definition fetched (r : User + Service.ServiceError) : Reply :=
  match r with
  | inr Service.ErrUserNotFound => ErrorReply 404 "User not found"
  | inr _ => ErrorReply 500 "Failed to retrieve user"
  | inl user => UserReply 200 (Service.setPassword user EmptyString)
  end.

(** GetUser retrieves a user's profile by their ID. *)
Definition GetUser (s : S) (c : Context) : Reply :=
  match Go.ParseUint (Param c "id") 32 with
  | inr _ => ErrorReply 400 "Invalid user ID"
  | inl id => fetched (Service.GetByID repo s id)
  end.

(** GetCurrentUser retrieves the profile of the authenticated user; its
    type assertion panics on anything but a [uint]. *)
Definition GetCurrentUser (s : S) (c : Context) : Outcome :=
  match Get c "userID" with
  | Some (AUint userID) => Replied (fetched (Service.GetByID repo s userID))
  | _ => Panicked
  end.

(** UpdateUser updates a user's profile information. *)
Definition UpdateUser (s : S) (c : Context) (body : Bound UpdateRequest)
    : S * Reply :=
  match Go.ParseUint (Param c "id") 32 with
  | inr _ => (s, ErrorReply 400 "Invalid user ID")
  | inl id =>
      match body with
      | inr text => (s, ErrorReply 400 text)
      | inl request =>
          match Service.GetByID repo s id with
          | inr Service.ErrUserNotFound => (s, ErrorReply 404 "User not found")
          | inr _ => (s, ErrorReply 500 "Failed to retrieve user")
          | inl user =>
              let user1 :=
                if negb (String.eqb (UpdEmail request) EmptyString)
                then Service.setEmail user (UpdEmail request) else user in
              let user2 :=
                if negb (String.eqb (UpdPassword request) EmptyString)
                then Service.setPassword user1 (UpdPassword request) else user1 in
              let user3 :=
                if negb (String.eqb (UpdFullName request) EmptyString)
                then Service.setFullName user2 (UpdFullName request) else user2 in
              match Service.Update repo B s user3 with
              | (s', inr _) => (s', ErrorReply 500 "Failed to update user")
              | (s', inl updated) =>
                  (s', UserReply 200 (Service.setPassword updated EmptyString))
              end
          end
      end
  end.

(** DeleteUser removes a user account. *)
Definition DeleteUser (s : S) (c : Context) : S * Reply :=
  match Go.ParseUint (Param c "id") 32 with
  | inr _ => (s, ErrorReply 400 "Invalid user ID")
  | inl id =>
      match Service.Delete repo s id with
      | (s', Some Service.ErrUserNotFound) => (s', ErrorReply 404 "User not found")
      | (s', Some _) => (s', ErrorReply 500 "Failed to delete user")
      | (s', None) => (s', MessageReply 200 "User deleted successfully")
      end
  end.

(** The page number and page size [ListUsers] reads from the query. *)
Definition pagination (query : gmap string string) : Z * Z :=
  let pageStr := DefaultQuery query "page" "1" in
  let pageSizeStr := DefaultQuery query "page_size" "10" in
  let page :=
    match Go.Atoi pageStr with
    | inl p => if p <? 1 then 1 else p
    | inr _ => 1
    end in
  let pageSize :=
    match Go.Atoi pageSizeStr with
    | inl n => if (n <? 1) || (100 <? n) then 10 else n
    | inr _ => 10
    end in
  (page, pageSize).

(** ListUsers returns a paginated list of users.  Its loop over the
    listed users assigns the empty password to the loop variable, which
    is a copy of the element of the slice of structs: the slice that is
    written to the reply is not touched. *)
Definition ListUsers (s : S) (query : gmap string string) : Reply :=
  let '(page, pageSize) := pagination query in
  match Service.List repo s page pageSize with
  | inr _ => ErrorReply 500 "Failed to list users"
  | inl (users, total) =>
      let _ := map (fun user => Service.setPassword user EmptyString) users in
      UsersReply users total page pageSize
  end.

(** The user routes behind the filter: the filter's answer when it
    aborts, the handler's otherwise. *)
Definition behindFilter (now : JWT.Time) (c : Context)
    (handler : Context -> Outcome) : Outcome + Exec :=
  match Middleware.AuthMiddleware J cfg now c with
  | Panic => inr Panic
  | Done c' => if Aborted c' then inr (Done c') else inl (handler c')
  end.

End UserHandler.

End Handler.

(** ** The contest service (package service) *)

Module Contest.
Import Gorm.

Record Contest := {
  ContestID : Z;
  Name : string;
  StartTime : JWT.Time;
  EndTime : JWT.Time;
  IsTeamBased : bool;
  Organizer : string
}.

Record ContestRegistration := {
  RegistrationID : Z;
  RegContestID : Z;
  IsUserRegistration : bool;
  UserID : option Z;
  TeamID : option Z;
  RegisteredAt : JWT.Time
}.

(** The methods of [ContestRepository] the service calls. *)
Record ContestRepo (S : Type) := {
  Create : S -> Contest -> S * option DBError;
  GetByID : S -> Z -> Contest + DBError;
  Update : S -> Contest -> S * option DBError;
  List : S -> Z -> Z -> (list Contest * Z) + DBError;
  CreateRegistration : S -> ContestRegistration -> S * option DBError
}.
Arguments Create {S}.
Arguments GetByID {S}.
Arguments Update {S}.
Arguments List {S}.
Arguments CreateRegistration {S}.

Inductive ContestError :=
| ErrContestAlreadyExists
| ErrContestNotFound
| ErrNotImplemented
| ErrUserNotFound
| DB (e : DBError).

Inductive Result :=
| Returned (e : option ContestError)
| Panicked.

(** A contest service: its repository, and the pointer to the user
    service (a user repository), nil unless something sets it. *)
Record ContestService (S : Type) := {
  repo : ContestRepo S;
  userService : option (Repo.UserRepo S)
}.
Arguments repo {S}.
Arguments userService {S}.

(** NewContestService fills in the repository only. *)
Definition NewContestService {S : Type} (r : ContestRepo S) : ContestService S :=
  {| repo := r; userService := None |}.

Definition notFoundOr (e : DBError) : ContestError :=
  if isNotFound e then ErrContestNotFound else DB e.

Definition CreateContest {S : Type} (svc : ContestService S) (s : S)
    (contest : Contest) : S * option ContestError :=
  match Create (repo svc) s contest with
  | (s', None) => (s', None)
  | (s', Some e) =>
      (s', Some (if isDuplicatedKey e then ErrContestAlreadyExists else DB e))
  end.

Definition GetContestByID {S : Type} (svc : ContestService S) (s : S) (id : Z)
    : Contest + ContestError :=
  match GetByID (repo svc) s id with
  | inl contest => inl contest
  | inr e => inr (notFoundOr e)
  end.

(** UpdateContest looks the contest up by the id of its argument and
    saves the row it has just read. *)
Definition UpdateContest {S : Type} (svc : ContestService S) (s : S)
    (contest : Contest) : S * option ContestError :=
  match GetByID (repo svc) s (ContestID contest) with
  | inr e => (s, Some (notFoundOr e))
  | inl existingContest =>
      match Update (repo svc) s existingContest with
      | (s', None) => (s', None)
      | (s', Some e) => (s', Some (DB e))
      end
  end.

(** Register a user to a contest.  Calling [Exists] through a nil user
    service dereferences nil. *)
Definition RegisterUserToContest {S : Type} (svc : ContestService S) (s : S)
    (contestID userID : Z) : S * Result :=
  match GetByID (repo svc) s contestID with
  | inr e => (s, Returned (Some (notFoundOr e)))
  | inl contest =>
      match userService svc with
      | None => (s, Panicked)
      | Some users =>
          match Service.Exists users s userID with
          | inr e =>
              (s, Returned (Some (if isNotFound e then ErrUserNotFound else DB e)))
          | inl false => (s, Returned (Some ErrUserNotFound))
          | inl true =>
              let registration :=
                {| RegistrationID := 0; RegContestID := ContestID contest;
                   IsUserRegistration := false; UserID := Some userID;
                   TeamID := None; RegisteredAt := zeroTime |} in
              match CreateRegistration (repo svc) s registration with
              | (s', None) => (s', Returned None)
              | (s', Some e) => (s', Returned (Some (DB e)))
              end
          end
      end
  end.

(** RegisterTeamToContest: currently not supported. *)
Definition RegisterTeamToContest (contestID teamID : Z) : option ContestError :=
  Some ErrNotImplemented.

End Contest.

(** ** An in-memory table and a stand-in for bcrypt, for running examples *)

Module Mem.
Import Gorm Repository.

Definition byKey {K : Type} (eqb : K -> K -> bool) (key : User -> K) (k : K)
    (rows : list User) : User + DBError :=
  match find (fun u => eqb (key u) k) rows with
  | Some u => inl u
  | None => inr ErrRecordNotFound
  end.

Definition setID (u : User) (id : Z) : User :=
  {| ID := id; Username := Username u; Email := Email u;
     FullName := FullName u; Password := Password u; Role := Role u;
     CreatedAt := CreatedAt u |}.

Definition nextID (rows : list User) : Z :=
  1 + fold_right Z.max 0 (map ID rows).

(** Usernames and emails are unique; ids are assigned in sequence. *)
Definition insert (rows : list User) (u : User) : list User * (User + DBError) :=
  if existsb (fun r => String.eqb (Username r) (Username u)
                       || String.eqb (Email r) (Email u)) rows
  then (rows, inr ErrDuplicatedKey)
  else let u' := setID u (nextID rows) in ((rows ++ [u'])%list, inl u').

Definition save (rows : list User) (u : User) : list User * option DBError :=
  if existsb (fun r => ID r =? ID u) rows
  then (map (fun r => if ID r =? ID u then u else r) rows, None)
  else ((rows ++ [u])%list, None).

Definition remove (rows : list User) (id : Z) : list User * option DBError :=
  (filter (fun r => negb (ID r =? id)) rows, None).

Definition table : Table (list User) User :=
  {| Count := fun rows => inl (Z.of_nat (length rows));
     Find := fun rows offset limit =>
       inl (firstn (Z.to_nat limit) (skipn (Z.to_nat offset) rows)) |}.

Definition users : Repo.UserRepo (list User) :=
  {| Repo.GetByID := fun rows id => byKey Z.eqb ID id rows;
     Repo.GetByUsername := fun rows name => byKey String.eqb Username name rows;
     Repo.GetByEmail := fun rows email => byKey String.eqb Email email rows;
     Repo.Create := insert;
     Repo.Update := save;
     Repo.Delete := remove;
     Repo.List := BaseList table |}.

(** A transparent stand-in for bcrypt: the hash of a password is the
    password behind a fixed prefix. *)
Definition bcrypt : Service.Bcrypt :=
  {| Service.GenerateFromPassword := fun p => inl ("hash:" +:+ p);
     Service.CompareHashAndPassword := fun h p => String.eqb h ("hash:" +:+ p) |}.

(** A table with the root user and a student. *)
Definition rows : list User :=
  [ setID (rootUser "hash:jiaxun" 0) 1;
    {| ID := 2; Username := "amy"; Email := "amy@example.com";
       FullName := "Amy"; Password := "hash:secret1"; Role := EmptyString;
       CreatedAt := 0 |} ].

(** A contest table: a list of contests, registrations kept aside. *)
Definition contests : Contest.ContestRepo (list Contest.Contest) :=
  {| Contest.Create := fun cs c => ((cs ++ [c])%list, None);
     Contest.GetByID := fun cs id =>
       match find (fun c => Contest.ContestID c =? id) cs with
       | Some c => inl c
       | None => inr ErrRecordNotFound
       end;
     Contest.Update := fun cs c =>
       (map (fun r => if Contest.ContestID r =? Contest.ContestID c
                      then c else r) cs, None);
     Contest.List := fun cs _ _ => inl (cs, Z.of_nat (length cs));
     Contest.CreateRegistration := fun cs _ => (cs, None) |}.

Definition spring : Contest.Contest :=
  {| Contest.ContestID := 1; Contest.Name := "Spring Cup";
     Contest.StartTime := 0; Contest.EndTime := 0;
     Contest.IsTeamBased := false; Contest.Organizer := "club" |}.

Definition renamed : Contest.Contest :=
  {| Contest.ContestID := 1; Contest.Name := "Autumn Cup";
     Contest.StartTime := 0; Contest.EndTime := 0;
     Contest.IsTeamBased := false; Contest.Organizer := "club" |}.

End Mem.

(** * Properties *)

(** ** The authorization gates *)

Module AuthzFacts.
Import Gin Authz Spec.

Lemma anyEqString_true (v : any) (s : string) :
  anyEqString v s = true <-> v = AString s.
Proof.
  destruct v as [n|s'|]; simpl; split; intros E; try discriminate.
  - apply String.eqb_eq in E. now subst.
  - injection E as ->. apply String.eqb_refl.
Qed.








End AuthzFacts.

(** ** The configuration loader *)

Module ConfigFacts.
Import Config Spec.

Lemma overrideFromEnv_Application (env : gmap string string) (cfg : Config) :
  Application (overrideFromEnv env cfg) = Application cfg.
Proof. reflexivity. Qed.

(** C9, as the code has it: the environment step never changes the
    signing secret; the loaded secret is the built-in default when no
    file is named, and otherwise what loading the file leaves in place,
    which is the default again when the file is absent or unreadable. *)
Theorem signing_secret_source (configFile : string) (fs : FileState)
    (env : gmap string string) :
  (forall cfg, Secret (Application (overrideFromEnv env cfg))
               = Secret (Application cfg))
  /\ Secret (Application (fst (LoadConfig configFile fs env)))
     = Secret (Application
                 (if String.eqb configFile EmptyString then defaultConfig
                  else fst (loadFromFile fs defaultConfig)))
  /\ (forall unwritable,
        Secret (Application (fst (LoadConfig configFile (FileAbsent unwritable) env)))
        = "mysecret")
  /\ Secret (Application (fst (LoadConfig configFile FileUnreadable env)))
     = "mysecret"
  /\ Secret (Application defaultConfig) <> EmptyString.
Proof.
  split; [reflexivity|]. split; [|split; [|split]].
  - unfold LoadConfig.
    destruct (String.eqb configFile EmptyString); cbn [negb]; [reflexivity|].
    destruct (loadFromFile fs defaultConfig) as [cfg [|]]; reflexivity.
  - intros unwritable. unfold LoadConfig.
    destruct (String.eqb configFile EmptyString); cbn [negb]; [reflexivity|].
    destruct unwritable; reflexivity.
  - unfold LoadConfig.
    destruct (String.eqb configFile EmptyString); reflexivity.
  - discriminate.
Qed.

(** C9, as the specification words it, fails: no environment variable
    feeds the signing secret (a secret supplied under any name leaves the
    default in place), and a config file can make the secret empty. *)
Lemma signing_secret_ignores_env :
  ~ secretFromEnv
  /\ Secret (Application (fst (LoadConfig "config.json" (FileAbsent false) suppliedEnv)))
     = "mysecret"
  /\ LoadConfig "config.json" (FileContent blankSecretFile) suppliedEnv
     = (fst (blankSecretFile defaultConfig), false)
  /\ Validate (fst (blankSecretFile defaultConfig)) = true.
Proof.
  split; [|split; [|split]]; try reflexivity.
  intros [name H].
  specialize (H {[ name := "s3cret" ]} defaultConfig "s3cret").
  assert (Go.Getenv {[ name := "s3cret" ]} name = "s3cret") as E.
  { unfold Go.Getenv. now rewrite lookup_singleton_eq. }
  specialize (H ltac:(discriminate) E). discriminate H.
Qed.

End ConfigFacts.

(** ** The authentication filter *)

Module FilterFacts.
Import Gin Authz Spec Middleware.

Lemma HasPrefix_append (p rest : string) : Go.HasPrefix (p +:+ rest) p = true.
Proof.
  induction p as [|a p IH]; [reflexivity|].
  simpl. now rewrite Ascii.eqb_refl.
Qed.

Lemma isPublicPath_prefix (path p rest : string) :
  In p publicPaths -> path = p +:+ rest -> isPublicPath path = true.
Proof.
  intros Hin ->. unfold isPublicPath. apply existsb_exists.
  exists p. split; [exact Hin | apply HasPrefix_append].
Qed.

(** C7: a request whose path starts with one of the public prefixes
    passes the filter untouched: no response is written, the chain is
    not aborted and no key is stored, whatever the headers are. *)
Theorem public_path_bypass (J : JWT.JSONCodec) (cfg : Config.Config)
    (now : JWT.Time) (c : Context) (p rest : string) :
  In p publicPaths ->
  Path c = p +:+ rest ->
  AuthMiddleware J cfg now c = Done c.
Proof.
  intros Hin Hpath. unfold AuthMiddleware.
  now rewrite (isPublicPath_prefix _ _ _ Hin Hpath).
Qed.

Lemma public_path_bypass_witness :
  GetHeader (request "/api/auth/login" ∅ None) "Authorization" = EmptyString
  /\ AuthMiddleware GoJSON.codec Config.defaultConfig 0
       (request "/api/auth/login" ∅ None)
     = Done (request "/api/auth/login" ∅ None).
Proof.
  split; [reflexivity|].
  apply (public_path_bypass _ _ _ _ "/api/auth/login" EmptyString);
    [left; reflexivity | reflexivity].
Defined.

(** The prefix test is case-sensitive, and a longer path with a public
    prefix is public too. *)
Example public_prefix_cases :
  isPublicPath "/API/auth/login" = false
  /\ isPublicPath "/api/healthcheck" = true
  /\ isPublicPath "/api/users/7" = false.
Proof. repeat split. Qed.

Lemma GetSigningMethod_Alg (alg : string) (m : JWT.SigningMethod) :
  JWT.GetSigningMethod alg = Some m -> JWT.Alg m = alg.
Proof.
  unfold JWT.GetSigningMethod. intros H.
  apply find_some in H as [_ H]. now apply String.eqb_eq.
Qed.

Lemma HMAC_alg_name (h : Crypto.Hash) :
  isHMACName (JWT.Alg (JWT.SigningMethodHMAC h)) = true.
Proof. destruct h; reflexivity. Qed.

(** What a successful parse with the filter's key function means. *)
Lemma ParseWithClaims_verified (J : JWT.JSONCodec) (cfg : Config.Config)
    (now : JWT.Time) (tokenString : string) (token : JWT.Token) :
  JWT.ParseWithClaims J tokenString (keyFunc cfg) now = inl token ->
  JWT.Valid token = true
  /\ verifiedUnder J (Config.Secret (Config.Application cfg)) now tokenString
       (JWT.Claims token).
Proof.
  unfold JWT.ParseWithClaims, JWT.ParseUnverified. intros H.
  destruct (Go.Split tokenString ".") as [|p0 [|p1 [|p2 [|]]]] eqn:Es;
    try discriminate H.
  destruct (Base64.DecodeString p0) as [headerBytes|] eqn:E0; [|discriminate H].
  destruct (JWT.unmarshalHeader J headerBytes) as [alg|] eqn:Eh; [|discriminate H].
  destruct (Base64.DecodeString p1) as [claimBytes|] eqn:E1; [|discriminate H].
  destruct (JWT.unmarshalClaims J claimBytes) as [claims|] eqn:Ec; [|discriminate H].
  destruct alg as [method|]; [|discriminate H].
  destruct (JWT.GetSigningMethod method) as [m|] eqn:Em; [|discriminate H].
  destruct (Base64.DecodeString p2) as [sig|] eqn:E2; [|discriminate H].
  apply GetSigningMethod_Alg in Em. unfold keyFunc in H. cbn in H.
  destruct m as [h| | | | |]; try discriminate H.
  cbn in H.
  destruct (String.eqb_spec sig
              (Crypto.HMAC h (Config.Secret (Config.Application cfg))
                 (p0 +:+ "." +:+ p1))) as [Esig|]; [|discriminate H].
  destruct (JWT.Validate (JWT.Registered claims) now) eqn:Ev; [discriminate H|].
  injection H as <-. split; [reflexivity|]. cbn.
  exists p0, p1, p2, headerBytes, claimBytes, h.
  rewrite Em, <- Esig. repeat split; assumption || reflexivity.
Qed.


(** The filter on a request that presents a bearer token: the outcome
    is decided by the parse alone. *)
Lemma AuthMiddleware_presents (J : JWT.JSONCodec) (cfg : Config.Config)
    (now : JWT.Time) (c : Context) (tokenString : string) :
  presents c tokenString ->
  AuthMiddleware J cfg now c
  = match JWT.ParseWithClaims J tokenString (keyFunc cfg) now with
    | inr err => reject c 401 (tokenErrorMessage err)
    | inl token => Done (withIdentity c (JWT.Claims token))
    end.
Proof.
  intros [Hpub Hsplit]. unfold AuthMiddleware. rewrite Hpub.
  destruct (String.eqb_spec (GetHeader c "Authorization") EmptyString) as [E|_].
  { rewrite E in Hsplit. discriminate Hsplit. }
  rewrite Hsplit. cbn [String.eqb Ascii.eqb Bool.eqb negb].
  destruct (JWT.ParseWithClaims J tokenString (keyFunc cfg) now) as [token|err] eqn:Ep;
    [|reflexivity].
  apply ParseWithClaims_verified in Ep as [-> _]. reflexivity.
Qed.

(** The filter on a protected path without a well-formed bearer header. *)
Lemma AuthMiddleware_no_token (J : JWT.JSONCodec) (cfg : Config.Config)
    (now : JWT.Time) (c : Context) :
  isPublicPath (Path c) = false ->
  (forall tokenString, ~ presents c tokenString) ->
  exists msg, AuthMiddleware J cfg now c = reject c 401 msg.
Proof.
  intros Hpub Hno. unfold AuthMiddleware. rewrite Hpub.
  destruct (String.eqb (GetHeader c "Authorization") EmptyString); [eauto|].
  destruct (Go.Split (GetHeader c "Authorization") " ")
    as [|scheme [|tokenString [|]]] eqn:Es; eauto.
  destruct (String.eqb_spec scheme "Bearer") as [->|]; [|cbn [negb]; eauto].
  exfalso. apply (Hno tokenString). now split.
Qed.

(** C2: the filter never panics, and it leaves the context as it found
    it (public path), or answers 401 without touching the keys, or
    stores the identity of claims that came in a bearer token of this
    request whose HMAC signature under the configured secret and whose
    validity at [now] it has checked.  So the keys change only in the
    last case. *)
Theorem identity_only_after_verification (J : JWT.JSONCodec)
    (cfg : Config.Config) (now : JWT.Time) (c : Context) :
  exists c',
    AuthMiddleware J cfg now c = Done c'
    /\ ((isPublicPath (Path c) = true /\ c' = c)
        \/ (isPublicPath (Path c) = false
            /\ Keys c' = Keys c
            /\ exists msg, c' = Abort (JSON c 401 msg))
        \/ (exists tokenString claims,
              presents c tokenString
              /\ verifiedUnder J (Config.Secret (Config.Application cfg)) now
                   tokenString claims
              /\ c' = withIdentity c claims))
    /\ (Keys c' <> Keys c ->
        exists tokenString claims,
          presents c tokenString
          /\ verifiedUnder J (Config.Secret (Config.Application cfg)) now
               tokenString claims
          /\ Keys c' = Keys (withIdentity c claims)).
Proof.
  assert (exists c',
    AuthMiddleware J cfg now c = Done c'
    /\ ((isPublicPath (Path c) = true /\ c' = c)
        \/ (isPublicPath (Path c) = false
            /\ Keys c' = Keys c
            /\ exists msg, c' = Abort (JSON c 401 msg))
        \/ (exists tokenString claims,
              presents c tokenString
              /\ verifiedUnder J (Config.Secret (Config.Application cfg)) now
                   tokenString claims
              /\ c' = withIdentity c claims))) as (c' & Hrun & Hcases).
  { destruct (isPublicPath (Path c)) eqn:Hpub.
    - exists c. split; [|left; now split].
      unfold AuthMiddleware. now rewrite Hpub.
    - destruct (Go.Split (GetHeader c "Authorization") " ")
        as [|scheme [|tokenString [|]]] eqn:Es;
        try (destruct (AuthMiddleware_no_token J cfg now c Hpub) as [msg Hm];
             [intros t [_ Ht]; rewrite Es in Ht; discriminate Ht|];
             exists (Abort (JSON c 401 msg)); split; [exact Hm|];
             right; left; repeat split; eauto).
      destruct (String.eqb_spec scheme "Bearer") as [->|Hs].
      + assert (presents c tokenString) as Hp by now split.
        rewrite (AuthMiddleware_presents J cfg now c tokenString Hp).
        destruct (JWT.ParseWithClaims J tokenString (keyFunc cfg) now)
          as [token|err] eqn:Ep.
        * exists (withIdentity c (JWT.Claims token)). split; [reflexivity|].
          right; right. exists tokenString, (JWT.Claims token).
          apply ParseWithClaims_verified in Ep as [_ Hv]. now repeat split.
        * exists (Abort (JSON c 401 (tokenErrorMessage err))).
          split; [reflexivity|]. right; left. repeat split; eauto.
      + destruct (AuthMiddleware_no_token J cfg now c Hpub) as [msg Hm].
        { intros t [_ Ht]. rewrite Es in Ht. congruence. }
        exists (Abort (JSON c 401 msg)). split; [exact Hm|].
        right; left; repeat split; eauto. }
  exists c'. split; [exact Hrun|]. split; [exact Hcases|].
  intros Hkeys.
  destruct Hcases as [[_ ->]|[(_ & Hk & _)|(t & claims & Hp & Hv & ->)]].
  - now contradict Hkeys.
  - now contradict Hkeys.
  - exists t, claims. split; [exact Hp|]. split; [exact Hv|reflexivity].
Qed.





(** C5: a token whose header declares an algorithm other than HS256,
    HS384 or HS512 never parses, whatever its claims and signature, and
    a request presenting it is answered 401 with the keys untouched. *)
Theorem non_hmac_alg_rejected (J : JWT.JSONCodec) (cfg : Config.Config)
    (now : JWT.Time) (tokenString alg : string) :
  declaredAlg J tokenString = Some alg ->
  isHMACName alg = false ->
  (exists err, JWT.ParseWithClaims J tokenString (keyFunc cfg) now = inr err)
  /\ (forall c, presents c tokenString ->
        exists msg, AuthMiddleware J cfg now c = reject c 401 msg
                    /\ Keys (Abort (JSON c 401 msg)) = Keys c).
Proof.
  intros Hdecl Hname.
  assert (exists err,
            JWT.ParseWithClaims J tokenString (keyFunc cfg) now = inr err) as [err He].
  { unfold declaredAlg in Hdecl.
    unfold JWT.ParseWithClaims, JWT.ParseUnverified.
    destruct (Go.Split tokenString ".") as [|p0 [|p1 [|p2 [|]]]]; eauto.
    destruct (Base64.DecodeString p0) as [headerBytes|]; [|discriminate Hdecl].
    destruct (JWT.unmarshalHeader J headerBytes) as [a|]; [|discriminate Hdecl].
    subst a.
    destruct (Base64.DecodeString p1) as [claimBytes|]; eauto.
    destruct (JWT.unmarshalClaims J claimBytes) as [claims|]; eauto.
    destruct (JWT.GetSigningMethod alg) as [m|] eqn:Em; eauto.
    destruct (Base64.DecodeString p2) as [sig|]; eauto.
    apply GetSigningMethod_Alg in Em. unfold keyFunc. cbn.
    destruct m as [h| | | | |]; eauto.
    rewrite <- Em, HMAC_alg_name in Hname. discriminate Hname. }
  split; [eauto|].
  intros c Hp. exists (tokenErrorMessage err).
  rewrite (AuthMiddleware_presents J cfg now c tokenString Hp), He.
  split; reflexivity.
Qed.

Lemma non_hmac_alg_rejected_witness :
  declaredAlg GoJSON.codec noneToken = Some "none"
  /\ exists msg,
       AuthMiddleware GoJSON.codec Config.defaultConfig 0
         (toUser7 (Some ("Bearer " +:+ noneToken)))
       = reject (toUser7 (Some ("Bearer " +:+ noneToken))) 401 msg
       /\ Keys (Abort (JSON (toUser7 (Some ("Bearer " +:+ noneToken))) 401 msg))
          = Keys (toUser7 (Some ("Bearer " +:+ noneToken))).
Proof.
  split; [reflexivity|].
  apply (proj2 (non_hmac_alg_rejected GoJSON.codec Config.defaultConfig 0
                  noneToken "none" eq_refl eq_refl)).
  split; reflexivity.
Defined.

End FilterFacts.

(** ** The hash functions on their published test vectors *)

Module CryptoFacts.
Import Crypto.

(** FIPS 180-4, the one-block message abc. *)
Example sha2_abc :
  hex (stringOf (Sum SHA256 (bytesOf "abc")))
  = "ba7816bf8f01cfea414140de5dae2223b00361a396177a9cb410ff61f20015ad"
  /\ hex (stringOf (Sum SHA384 (bytesOf "abc")))
     = "cb00753f45a35e8bb5a03d699ac65007272c32ab0eded163"
       +:+ "1a8b605a43ff5bed8086072ba1e7cc2358baeca134c825a7"
  /\ hex (stringOf (Sum SHA512 (bytesOf "abc")))
     = "ddaf35a193617abacc417349ae20413112e6fa4e89a97ea20a9eeee64b55d39a"
       +:+ "2192992a274fc1a836ba3c23a3feebbd454d4423643ce80e2a9ac94fa54ca49f".
Proof. repeat split; vm_compute; reflexivity. Qed.

(** RFC 4231, test case 2. *)
Example hmac_sha256_rfc4231 :
  hex (HMAC SHA256 "Jefe" "what do ya want for nothing?")
  = "5bdcc146bf60754e6a042426089575c75a003f089d2739839dec58b964ec3843".
Proof. vm_compute; reflexivity. Qed.

End CryptoFacts.

(** ** Strings, splitting and base64 *)

Module CodecFacts.
Import Go Base64.

Lemma append_nil (b : string) : EmptyString +:+ b = b.
Proof. reflexivity. Qed.

Lemma append_cons (x : ascii) (a b : string) :
  String x a +:+ b = String x (a +:+ b).
Proof. reflexivity. Qed.

Lemma append_assoc (a b c : string) : (a +:+ b) +:+ c = a +:+ (b +:+ c).
Proof.
  induction a as [|x a IH]; [reflexivity|].
  rewrite !append_cons. f_equal; exact IH.
Qed.

Lemma free_append (sep : ascii) (a b : string) :
  free sep a -> free sep b -> free sep (a +:+ b).
Proof.
  unfold free. induction a as [|x a IH]; [now rewrite append_nil|].
  rewrite append_cons. simpl.
  intros Ha Hb. inversion Ha; subst. constructor; [assumption|]. now apply IH.
Qed.

Lemma Split_free (sep : ascii) (s : string) :
  free sep s -> Go.Split s sep = [s].
Proof.
  unfold free. induction s as [|x s IH]; simpl; [reflexivity|].
  intros H. inversion H as [|? ? Hx Hs]; subst.
  apply Ascii.eqb_neq in Hx. rewrite Hx, (IH Hs). reflexivity.
Qed.

Lemma Split_at_sep (sep : ascii) (a b : string) :
  free sep a -> Go.Split (a +:+ String sep b) sep = a :: Go.Split b sep.
Proof.
  unfold free. induction a as [|x a IH].
  - intros _. rewrite append_nil. simpl. now rewrite Ascii.eqb_refl.
  - rewrite append_cons. simpl.
    intros H. inversion H as [|? ? Hx Ha]; subst.
    apply Ascii.eqb_neq in Hx. rewrite Hx, (IH Ha). reflexivity.
Qed.

(** Induction over a list three elements at a time. *)
Lemma list_ind3 {A : Type} (P : list A -> Prop) :
  P [] -> (forall a, P [a]) -> (forall a b, P [a; b]) ->
  (forall a b c l, P l -> P (a :: b :: c :: l)) ->
  forall l, P l.
Proof.
  intros H0 H1 H2 H3 l.
  assert (forall n l, (length l <= n)%nat -> P l) as Hn.
  { induction n as [|n IH]; intros [|a [|b [|c k]]] Hlen; simpl in Hlen;
      auto; try lia.
    apply H3, IH. lia. }
  exact (Hn (length l) l (le_n _)).
Qed.

Lemma bytesOf_isByte (s : string) : Forall isByte (Crypto.bytesOf s).
Proof.
  unfold Crypto.bytesOf. apply Forall_map, Forall_forall. intros c _.
  pose proof (N_ascii_bounded c). unfold isByte. lia.
Qed.

Lemma stringOf_bytesOf (s : string) : Crypto.stringOf (Crypto.bytesOf s) = s.
Proof.
  unfold Crypto.stringOf, Crypto.bytesOf. rewrite map_map.
  rewrite <- (string_of_list_ascii_of_string s) at 2. f_equal.
  rewrite <- (map_id (list_ascii_of_string s)) at 2.
  apply map_ext. intros c. now rewrite N2Z.id, ascii_N_embedding.
Qed.

(** The alphabet, checked letter by letter. *)
Lemma alphabet_checked :
  forallb goodChar (map Z.of_nat (seq 0 64)) = true.
Proof. vm_compute. reflexivity. Qed.

Lemma goodChar_sextet (q : Z) : 0 <= q < 64 -> goodChar q = true.
Proof.
  intros Hq. pose proof alphabet_checked as H.
  rewrite forallb_forall in H. apply H.
  apply in_map_iff. exists (Z.to_nat q). split; [lia|].
  apply in_seq. lia.
Qed.

Lemma sextets_charOf (q : Z) (cs : list ascii) :
  0 <= q < 64 ->
  Base64.sextets (Base64.charOf q :: cs)
  = match Base64.sextets cs with
    | Some qs => Some (q :: qs)
    | None => None
    end.
Proof.
  intros Hq. apply goodChar_sextet in Hq. unfold goodChar in Hq.
  cbn [Base64.sextets].
  destruct (Base64.sextetOf (Base64.charOf q)) as [q'|]; [|discriminate Hq].
  apply andb_prop in Hq as [Hq _]. apply andb_prop in Hq as [Hq _].
  apply andb_prop in Hq as [Hq Hnl].
  apply Z.eqb_eq in Hq. subst q'.
  apply negb_true_iff in Hnl. now rewrite Hnl.
Qed.

Lemma charOf_not (q : Z) (sep : ascii) :
  0 <= q < 64 -> sep = " "%char \/ sep = "."%char -> Base64.charOf q <> sep.
Proof.
  intros Hq Hsep E. apply goodChar_sextet in Hq. unfold goodChar in Hq.
  destruct (Base64.sextetOf (Base64.charOf q)); [|discriminate Hq].
  apply andb_prop in Hq as [Hq Hdot]. apply andb_prop in Hq as [_ Hsp].
  rewrite E in Hsp, Hdot. destruct Hsep as [->| ->]; discriminate.
Qed.

Ltac sextet_range :=
  unfold isByte in *; Z.to_euclidean_division_equations; lia.

(** Every character of an encoding is a letter of the alphabet, so it is
    neither a space nor a dot. *)
Lemma encodeBytes_free (sep : ascii) (bs : list Z) :
  sep = " "%char \/ sep = "."%char ->
  Forall isByte bs ->
  Forall (fun c => c <> sep) (Base64.encodeBytes bs).
Proof.
  intros Hsep. induction bs as [|b1|b1 b2|b1 b2 b3 l IH] using list_ind3;
    intros Hb; cbn [Base64.encodeBytes].
  - constructor.
  - inversion Hb; subst.
    repeat constructor; apply charOf_not; trivial; sextet_range.
  - inversion Hb as [|? ? ? Hb']; subst. inversion Hb'; subst.
    repeat constructor; apply charOf_not; trivial; sextet_range.
  - inversion Hb as [|? ? ? Hb']; subst.
    inversion Hb' as [|? ? ? Hb'']; subst. inversion Hb''; subst.
    repeat (constructor; [apply charOf_not; trivial; sextet_range|]).
    now apply IH.
Qed.

Lemma EncodeToString_free (sep : ascii) (s : string) :
  sep = " "%char \/ sep = "."%char -> free sep (Base64.EncodeToString s).
Proof.
  intros Hsep. unfold free, Base64.EncodeToString.
  rewrite list_ascii_of_string_of_list_ascii.
  apply encodeBytes_free; [exact Hsep | apply bytesOf_isByte].
Qed.

(** Decoding the sextets of an encoding gives the bytes back. *)
Lemma decode_encodeBytes (bs : list Z) :
  Forall isByte bs ->
  exists qs, Base64.sextets (Base64.encodeBytes bs) = Some qs
             /\ Base64.decodeSextets qs = Some bs.
Proof.
  induction bs as [|b1|b1 b2|b1 b2 b3 l IH] using list_ind3;
    intros Hb; cbn [Base64.encodeBytes].
  - exists []. split; reflexivity.
  - inversion Hb; subst.
    exists [b1 / 4; b1 mod 4 * 16].
    rewrite !sextets_charOf by sextet_range. split; [reflexivity|].
    cbn [Base64.decodeSextets]. do 2 f_equal. sextet_range.
  - inversion Hb as [|? ? ? Hb']; subst. inversion Hb'; subst.
    exists [b1 / 4; b1 mod 4 * 16 + b2 / 16; b2 mod 16 * 4].
    rewrite !sextets_charOf by sextet_range. split; [reflexivity|].
    cbn [Base64.decodeSextets]. f_equal. f_equal; [|f_equal]; sextet_range.
  - inversion Hb as [|? ? ? Hb']; subst.
    inversion Hb' as [|? ? ? Hb'']; subst. inversion Hb''; subst.
    destruct IH as (qs & Hs & Hd); [assumption|].
    exists (b1 / 4 :: b1 mod 4 * 16 + b2 / 16 :: b2 mod 16 * 4 + b3 / 64
            :: b3 mod 64 :: qs).
    rewrite !sextets_charOf by sextet_range. rewrite Hs.
    split; [reflexivity|].
    cbn [Base64.decodeSextets]. rewrite Hd.
    f_equal. f_equal; [|f_equal; [|f_equal]]; sextet_range.
Qed.

(** Round trip of the unpadded URL-safe base64 encoding. *)
Lemma DecodeString_EncodeToString (s : string) :
  Base64.DecodeString (Base64.EncodeToString s) = Some s.
Proof.
  unfold Base64.DecodeString, Base64.EncodeToString.
  rewrite list_ascii_of_string_of_list_ascii.
  destruct (decode_encodeBytes (Crypto.bytesOf s) (bytesOf_isByte s))
    as (qs & -> & ->).
  now rewrite stringOf_bytesOf.
Qed.

End CodecFacts.

(** ** UTF-8 *)

Module UTF8Facts.
Import UTF8.

Lemma byte_range (c : ascii) : 0 <= byte c < 256.
Proof.
  unfold byte. pose proof (N_ascii_bounded c). lia.
Qed.

Lemma chr_byte (c : ascii) : chr (byte c) = c.
Proof.
  unfold chr, byte. rewrite N2Z.id. apply ascii_N_embedding.
Qed.

Lemma chr_eq (n : Z) (c : ascii) : n = byte c -> chr n = c.
Proof. intros ->. apply chr_byte. Qed.

Lemma String_eq (a b : ascii) (s t : string) :
  a = b -> s = t -> String a s = String b t.
Proof. now intros -> ->. Qed.

Ltac boolZ :=
  repeat match goal with
  | H : within _ _ _ = true |- _ =>
      unfold within in H; apply andb_true_iff in H; destruct H
  | H : within _ _ _ = false |- _ =>
      unfold within in H; apply andb_false_iff in H
  | H : negb _ = true |- _ => apply negb_true_iff in H
  | H : negb _ = false |- _ => apply negb_false_iff in H
  | H : (_ <? _) = true |- _ => apply Z.ltb_lt in H
  | H : (_ <? _) = false |- _ => apply Z.ltb_ge in H
  | H : (_ <=? _) = true |- _ => apply Z.leb_le in H
  | H : (_ <=? _) = false |- _ => apply Z.leb_gt in H
  | H : (_ =? _) = true |- _ => apply Z.eqb_eq in H
  | H : (_ =? _) = false |- _ => apply Z.eqb_neq in H
  end.

Ltac zlia := Z.div_mod_to_equations; lia.

(** Decides the tests of a goal by arithmetic. *)
Ltac tests :=
  repeat match goal with
  | |- context [?a <? ?b] =>
      first [ replace (a <? b) with true by (symmetry; apply Z.ltb_lt; zlia)
            | replace (a <? b) with false by (symmetry; apply Z.ltb_ge; zlia) ]
  | |- context [?a <=? ?b] =>
      first [ replace (a <=? b) with true by (symmetry; apply Z.leb_le; zlia)
            | replace (a <=? b) with false by (symmetry; apply Z.leb_gt; zlia) ]
  | |- context [?a =? ?b] =>
      first [ replace (a =? b) with true by (symmetry; apply Z.eqb_eq; zlia)
            | replace (a =? b) with false by (symmetry; apply Z.eqb_neq; zlia) ]
  end.

Lemma DecodeRune_runeAt (p : list ascii) :
  runeAt p (fst (DecodeRune p)) (snd (DecodeRune p)).
Proof.
  destruct p as [|c0 p1]; [reflexivity|].
  pose proof (byte_range c0) as R0.
  unfold DecodeRune. fold DecodeRune.
  destruct (byte c0 <? RuneSelf) eqn:E0; unfold RuneSelf in E0; boolZ.
  { cbn. exists c0, p1. split; [reflexivity|]. left. now split. }
  assert (forall q, runeAt (c0 :: q) RuneError 1) as Hbad.
  { intros q. exists c0, q. split; [reflexivity|]. right. now split. }
  unfold leadSize.
  destruct (within 0xC2 0xDF (byte c0)) eqn:L2.
  - (* two bytes *)
    destruct p1 as [|c1 p2]; [apply Hbad|].
    pose proof (byte_range c1) as R1.
    destruct (within (acceptLo (byte c0)) (acceptHi (byte c0)) (byte c1)) eqn:A1;
      cbn [negb]; [|apply Hbad].
    unfold acceptLo, acceptHi in A1. boolZ.
    assert ((byte c0 =? 0xE0) = false) as Ea by (apply Z.eqb_neq; lia).
    assert ((byte c0 =? 0xF0) = false) as Eb by (apply Z.eqb_neq; lia).
    assert ((byte c0 =? 0xED) = false) as Ec by (apply Z.eqb_neq; lia).
    assert ((byte c0 =? 0xF4) = false) as Ed by (apply Z.eqb_neq; lia).
    rewrite Ea, Eb, Ec, Ed in *. clear Ea Eb Ec Ed.
    cbn [fst snd runeAt].
    exists c0, c1, p2. split; [reflexivity|]. split; [lia|].
    split; [zlia|]. split.
    + unfold EncodeRune, MaxRune, surrogate, within, RuneError. tests.
      cbn [orb andb]. tests.
      repeat (apply String_eq; [apply chr_eq; zlia|]); reflexivity.
    + intros q. unfold DecodeRune, RuneSelf, leadSize, within, acceptLo, acceptHi.
      tests. cbn [andb negb]. reflexivity.
  - destruct (within 0xE0 0xEF (byte c0)) eqn:L3.
    + (* three bytes *)
      destruct p1 as [|c1 p2]; [apply Hbad|].
      pose proof (byte_range c1) as R1.
      destruct (within (acceptLo (byte c0)) (acceptHi (byte c0)) (byte c1)) eqn:A1;
        cbn [negb]; [|apply Hbad].
      destruct p2 as [|c2 p3]; [apply Hbad|].
      pose proof (byte_range c2) as R2.
      destruct (within 0x80 0xBF (byte c2)) eqn:A2; cbn [negb]; [|apply Hbad].
      unfold acceptLo, acceptHi in A1.
      assert ((byte c0 =? 0xF0) = false) as Eb by (boolZ; apply Z.eqb_neq; lia).
      assert ((byte c0 =? 0xF4) = false) as Ed by (boolZ; apply Z.eqb_neq; lia).
      rewrite Eb, Ed in A1.
      cbn [fst snd runeAt].
      exists c0, c1, c2, p3. split; [reflexivity|].
      destruct (byte c0 =? 0xE0) eqn:Ea; destruct (byte c0 =? 0xED) eqn:Ec;
        destruct (byte c0 <? 0xED) eqn:Elow;
        boolZ; try lia;
        (split; [lia|]; split; [zlia|]; split;
         [ unfold EncodeRune, MaxRune, surrogate, within, RuneError; tests;
           cbn [orb andb]; tests;
           repeat (apply String_eq; [apply chr_eq; zlia|]); reflexivity
         | intros q;
           unfold DecodeRune, RuneSelf, leadSize, within, acceptLo, acceptHi;
           tests; cbn [andb negb]; reflexivity ]).
    + destruct (within 0xF0 0xF4 (byte c0)) eqn:L4; [|apply Hbad].
      (* four bytes *)
      destruct p1 as [|c1 p2]; [apply Hbad|].
      pose proof (byte_range c1) as R1.
      destruct (within (acceptLo (byte c0)) (acceptHi (byte c0)) (byte c1)) eqn:A1;
        cbn [negb]; [|apply Hbad].
      destruct p2 as [|c2 p3]; [apply Hbad|].
      pose proof (byte_range c2) as R2.
      destruct (within 0x80 0xBF (byte c2)) eqn:A2; cbn [negb]; [|apply Hbad].
      destruct p3 as [|c3 p4]; [apply Hbad|].
      pose proof (byte_range c3) as R3.
      destruct (within 0x80 0xBF (byte c3)) eqn:A3; cbn [negb]; [|apply Hbad].
      unfold acceptLo, acceptHi in A1.
      assert ((byte c0 =? 0xE0) = false) as Ea by (boolZ; apply Z.eqb_neq; lia).
      assert ((byte c0 =? 0xED) = false) as Ec by (boolZ; apply Z.eqb_neq; lia).
      rewrite Ea, Ec in A1.
      cbn [fst snd runeAt].
      exists c0, c1, c2, c3, p4. split; [reflexivity|].
      destruct (byte c0 =? 0xF0) eqn:Eb; destruct (byte c0 =? 0xF4) eqn:Ed;
        boolZ; try lia;
        (split; [lia|]; split; [zlia|]; split;
         [ unfold EncodeRune, MaxRune, surrogate, within, RuneError; tests;
           cbn [orb andb]; tests;
           repeat (apply String_eq; [apply chr_eq; zlia|]); reflexivity
         | intros q;
           unfold DecodeRune, RuneSelf, leadSize, within, acceptLo, acceptHi;
           tests; cbn [andb negb]; reflexivity ]).
Qed.

End UTF8Facts.

(** ** The JSON layer gives back what it wrote *)

Module JSONFacts.
Import GoJSON UTF8 UTF8Facts CodecFacts.

Local Abbreviation chars := list_ascii_of_string.

Lemma chars_append (a b : string) : chars (a +:+ b) = (chars a ++ chars b)%list.
Proof.
  induction a as [|x a IH]; [reflexivity|].
  rewrite append_cons. simpl. now rewrite IH.
Qed.

(** Reading back one escaped ASCII character. *)
Lemma readString_escapeByte (c : ascii) (tail : list ascii) (s : string)
    (out : list ascii) :
  byte c < 128 ->
  readString tail = Some (s, out) ->
  readString (chars (escapeByte c) ++ tail) = Some (String c s, out).
Proof.
  intros Hc Hread.
  destruct c as [b0 b1 b2 b3 b4 b5 b6 [|]];
    [exfalso; destruct b0, b1, b2, b3, b4, b5, b6; vm_compute in Hc;
     discriminate Hc|].
  destruct b0, b1, b2, b3, b4, b5, b6;
    (match goal with
     | |- context [chars (escapeByte ?c)] =>
         let l := eval vm_compute in (chars (escapeByte c)) in
         change (chars (escapeByte c)) with l
     end);
    simpl; rewrite Hread; reflexivity.
Qed.

Lemma prefix4_cons2 (c0 c1 : ascii) (t : string) :
  exists q, prefix4 (String c0 (String c1 t)) = c0 :: c1 :: q.
Proof. destruct t as [|c2 [|c3 t]]; eexists; reflexivity. Qed.

Lemma prefix4_cons3 (c0 c1 c2 : ascii) (t : string) :
  exists q, prefix4 (String c0 (String c1 (String c2 t))) = c0 :: c1 :: c2 :: q.
Proof. destruct t as [|c3 t]; eexists; reflexivity. Qed.

Lemma prefix4_cons4 (c0 c1 c2 c3 : ascii) (t : string) :
  exists q, prefix4 (String c0 (String c1 (String c2 (String c3 t))))
            = c0 :: c1 :: c2 :: c3 :: q.
Proof. eexists; reflexivity. Qed.

(** A byte outside ASCII in a string literal is read as a rune. *)
Lemma readString_raw (c0 : ascii) (cs' : list ascii) :
  128 <= byte c0 ->
  readString (c0 :: cs')
  = match DecodeRune (c0 :: cs'), cs' with
    | (r, 2%nat), _ :: t => push (EncodeRune r) (readString t)
    | (r, 3%nat), _ :: _ :: t => push (EncodeRune r) (readString t)
    | (r, 4%nat), _ :: _ :: _ :: t => push (EncodeRune r) (readString t)
    | (r, _), _ => push (EncodeRune r) (readString cs')
    end.
Proof.
  intros Hc. cbn [readString].
  destruct (byte c0 =? 34) eqn:E1; boolZ; [lia|].
  destruct (byte c0 <? 32) eqn:E2; boolZ; [lia|].
  destruct (byte c0 =? 92) eqn:E3; boolZ; [lia|].
  destruct (byte c0 <? RuneSelf) eqn:E4; unfold RuneSelf in E4; boolZ; [lia|].
  reflexivity.
Qed.

(** The reader gives back every string of valid UTF-8 the writer wrote. *)
Lemma readString_escape_len (n : nat) :
  forall (s : string) (tail : list ascii),
    (String.length s <= n)%nat ->
    ValidString s = true ->
    readString (chars (escape s) ++ dquote :: tail) = Some (s, tail).
Proof.
  induction n as [|n IH]; intros s tail Hlen Hv.
  { destruct s; [reflexivity | simpl in Hlen; lia]. }
  destruct s as [|c0 s1]; [reflexivity|].
  cbn [ValidString] in Hv. cbn [escape].
  destruct (byte c0 <? RuneSelf) eqn:E0.
  { unfold RuneSelf in E0. boolZ.
    rewrite chars_append, <- app_assoc.
    apply readString_escapeByte; [exact E0|].
    apply IH; [simpl in Hlen; lia | exact Hv]. }
  unfold RuneSelf in E0. boolZ.
  unfold DecodeRuneInString in *.
  pose proof (DecodeRune_runeAt (prefix4 (String c0 s1))) as Hr.
  destruct (DecodeRune (prefix4 (String c0 s1))) as [r k] eqn:Ed.
  cbn [fst snd] in Hr, Hv.
  destruct k as [|[|[|[|[|k]]]]]; try discriminate Hv;
    try (destruct s1 as [|? [|? [|? ?]]]; discriminate Hv).
  - (* two bytes *)
    destruct s1 as [|c1 t]; [discriminate Hv|].
    destruct (prefix4_cons2 c0 c1 t) as [q Eq].
    destruct Hr as (a0 & a1 & p2 & Ep & _ & Hrange & Henc & Hdec).
    rewrite Eq in Ep. injection Ep as <- <- _.
    cbn [chars app]. rewrite readString_raw by exact E0.
    rewrite Hdec, IH; [|simpl in Hlen; lia|exact Hv].
    cbn [push]. rewrite Henc. reflexivity.
  - (* three bytes *)
    destruct s1 as [|c1 [|c2 t]]; try discriminate Hv.
    destruct (prefix4_cons3 c0 c1 c2 t) as [q Eq].
    destruct Hr as (a0 & a1 & a2 & p3 & Ep & _ & Hrange & Henc & Hdec).
    rewrite Eq in Ep. injection Ep as <- <- <- _.
    destruct ((r =? 0x2028) || (r =? 0x2029)) eqn:Esep.
    + assert (readString (chars (escape t) ++ dquote :: tail) = Some (t, tail))
        as Ht by (apply IH; [simpl in Hlen; lia | exact Hv]).
      apply orb_true_iff in Esep as [Er|Er]; apply Z.eqb_eq in Er; subst r;
        vm_compute in Henc; injection Henc as Ec0 Ec1 Ec2; subst c0 c1 c2;
        (match goal with
         | |- context [Crypto.hexDigit ?x] =>
             let v := eval vm_compute in (Crypto.hexDigit x) in
             change (Crypto.hexDigit x) with v
         end);
        unfold str; repeat rewrite ?append_cons, ?append_nil;
        cbn [chars app]; simpl in Ht |- *; rewrite Ht; reflexivity.
    + cbn [chars app]. rewrite readString_raw by exact E0.
      rewrite Hdec, IH; [|simpl in Hlen; lia|exact Hv].
      cbn [push]. rewrite Henc. reflexivity.
  - (* four bytes *)
    destruct s1 as [|c1 [|c2 [|c3 t]]]; try discriminate Hv.
    destruct (prefix4_cons4 c0 c1 c2 c3 t) as [q Eq].
    destruct Hr as (a0 & a1 & a2 & a3 & p4 & Ep & _ & Hrange & Henc & Hdec).
    rewrite Eq in Ep. injection Ep as <- <- <- <- _.
    cbn [chars app]. rewrite readString_raw by exact E0.
    rewrite Hdec, IH; [|simpl in Hlen; lia|exact Hv].
    cbn [push]. rewrite Henc. reflexivity.
Qed.

Lemma readString_escape (s : string) (tail : list ascii) :
  ValidString s = true ->
  readString (chars (escape s) ++ dquote :: tail) = Some (s, tail).
Proof. apply (readString_escape_len (String.length s)). lia. Qed.


(** *** Numbers *)

Local Abbreviation step := (fun (acc : Z) (c : ascii) => acc * 10 + Go.digitVal c).

Lemma uint_digits (d : Decimal.uint) :
  Forall (fun c => Go.isDigit c = true) (chars (NilEmpty.string_of_uint d)).
Proof.
  induction d; cbn [NilEmpty.string_of_uint chars]; constructor;
    (reflexivity || assumption).
Qed.

Lemma uint_value_acc (d : Decimal.uint) (acc : positive) :
  fold_left step (chars (NilEmpty.string_of_uint d)) (Z.pos acc)
  = Z.pos (Pos.of_uint_acc d acc).
Proof.
  revert acc.
  induction d as [|d IH|d IH|d IH|d IH|d IH|d IH|d IH|d IH|d IH|d IH];
    intros acc; cbn [NilEmpty.string_of_uint Pos.of_uint_acc];
    [reflexivity|..];
    rewrite <- IH; cbn [chars fold_left];
    (match goal with
     | |- context [Go.digitVal ?c] =>
         let v := eval vm_compute in (Go.digitVal c) in
         change (Go.digitVal c) with v
     end); f_equal; lia.
Qed.

Lemma uint_value (d : Decimal.uint) :
  fold_left step (chars (NilEmpty.string_of_uint d)) 0
  = Z.of_N (Pos.of_uint d).
Proof.
  induction d as [|d IH|d IH|d IH|d IH|d IH|d IH|d IH|d IH|d IH|d IH];
    cbn [NilEmpty.string_of_uint Pos.of_uint];
    [reflexivity|..];
    cbn [chars fold_left];
    (match goal with
     | |- context [Go.digitVal ?c] =>
         let v := eval vm_compute in (Go.digitVal c) in
         change (Go.digitVal c) with v
     end);
    [exact IH
    | cbn [Z.of_N]; rewrite <- (uint_value_acc d); reflexivity ..].
Qed.

(** The decimal digits of a positive number do not start with 0. *)
Lemma to_uint_head (p : positive) (d : Decimal.uint) :
  Pos.to_uint p <> Decimal.D0 d.
Proof.
  intros E.
  pose proof (DecimalPos.Unsigned.to_of (Pos.to_uint p)) as Hn.
  rewrite DecimalPos.Unsigned.of_to in Hn. cbn [N.to_uint] in Hn.
  rewrite E in Hn. rewrite DecimalFacts.unorm_D0 in Hn.
  unfold Decimal.unorm in Hn.
  destruct (Decimal.nzhead d) eqn:En;
    try (symmetry in Hn; rewrite <- En in Hn;
         exact (DecimalFacts.nzhead_nonzero _ _ Hn)).
  injection Hn as ->.
  exact (DecimalPos.Unsigned.to_uint_nonzero p E).
Qed.

(** The text of a number that is not negative: digits, not empty, with
    the value of the number, and with a leading 0 only for 0. *)
Lemma formatInt_spec (n : Z) :
  0 <= n ->
  exists c ds,
    chars (formatInt n) = c :: ds
    /\ Forall (fun c => Go.isDigit c = true) (c :: ds)
    /\ fold_left step (c :: ds) 0 = n
    /\ (c = "0"%char -> ds = []).
Proof.
  intros Hn. destruct n as [|p|p]; [| |lia].
  - exists "0"%char, []. repeat split. repeat constructor.
  - unfold formatInt. cbn [Z.to_int NilZero.string_of_int].
    pose proof (DecimalPos.Unsigned.to_uint_nonnil p) as Hnil.
    pose proof (to_uint_head p) as Hhead.
    pose proof (uint_digits (Pos.to_uint p)) as Hd.
    pose proof (uint_value (Pos.to_uint p)) as Hv.
    rewrite DecimalPos.Unsigned.of_to in Hv.
    assert (NilZero.string_of_uint (Pos.to_uint p)
            = NilEmpty.string_of_uint (Pos.to_uint p)) as ->.
    { destruct (Pos.to_uint p); [contradiction|reflexivity..]. }
    destruct (Pos.to_uint p) as [|d|d|d|d|d|d|d|d|d|d] eqn:E;
      [contradiction | exfalso; exact (Hhead d eq_refl) | ..];
      cbn [NilEmpty.string_of_uint chars] in *;
      eexists _, _; (split; [reflexivity|]); (split; [exact Hd|]);
      (split; [exact Hv|]); discriminate.
Qed.

Lemma fold_step_le (ds : list ascii) (acc : Z) :
  Forall (fun c => Go.isDigit c = true) ds -> 0 <= acc ->
  acc <= fold_left step ds acc.
Proof.
  intros Hd. revert acc. induction Hd as [|c ds Hc _ IH]; intros acc Ha.
  - simpl. lia.
  - cbn [fold_left]. pose proof Hc as Hc'.
    unfold Go.isDigit in Hc'. apply andb_true_iff in Hc' as [H1 H2].
    apply Z.leb_le in H1, H2.
    assert (0 <= Go.digitVal c) by (unfold Go.digitVal; lia).
    specialize (IH (acc * 10 + Go.digitVal c) ltac:(lia)). lia.
Qed.

Lemma parseUintLoop_digits (maxVal : Z) (ds : list ascii) (acc : Z) :
  Forall (fun c => Go.isDigit c = true) ds -> 0 <= acc ->
  fold_left step ds acc <= maxVal -> maxVal <= Go.maxUint64 ->
  Go.parseUintLoop maxVal (string_of_list_ascii ds) acc
  = inl (fold_left step ds acc).
Proof.
  intros Hd. revert acc. induction Hd as [|c ds Hc Hds IH]; intros acc Ha Hle Hmax.
  - reflexivity.
  - cbn [string_of_list_ascii Go.parseUintLoop fold_left] in *.
    rewrite Hc. cbn [negb].
    pose proof Hc as Hc'.
    unfold Go.isDigit in Hc'. apply andb_true_iff in Hc' as [H1 H2].
    apply Z.leb_le in H1, H2.
    assert (0 <= Go.digitVal c) as Hdv by (unfold Go.digitVal; lia).
    pose proof (fold_step_le ds (acc * 10 + Go.digitVal c) Hds ltac:(lia)) as Hmono.
    unfold Go.maxUint64 in *.
    assert (((2 ^ 64 - 1) / 10 + 1 <=? acc) = false) as ->
      by (apply Z.leb_gt; zlia).
    assert ((maxVal <? acc * 10 + Go.digitVal c) = false) as ->
      by (apply Z.ltb_ge; lia).
    apply IH; lia.
Qed.

Lemma ParseUint_formatInt (n : Z) :
  0 <= n <= Go.maxUint64 ->
  Go.ParseUint (formatInt n) 64 = inl n.
Proof.
  intros [Hn Hmax].
  destruct (formatInt_spec n Hn) as (c & ds & Ec & Hd & Hv & _).
  rewrite <- (string_of_list_ascii_of_string (formatInt n)), Ec.
  unfold Go.ParseUint. cbn [string_of_list_ascii].
  change (String c (string_of_list_ascii ds))
    with (string_of_list_ascii (c :: ds)).
  rewrite parseUintLoop_digits; [now rewrite Hv | exact Hd | lia | |].
  - rewrite Hv. unfold Go.maxUint64 in Hmax. lia.
  - unfold Go.maxUint64. lia.
Qed.

Lemma digitRun_digits (ds tail : list ascii) :
  Forall (fun c => Go.isDigit c = true) ds ->
  match tail with [] => True | c :: _ => Go.isDigit c = false end ->
  digitRun (ds ++ tail) = (ds, tail).
Proof.
  intros Hd Htail. induction Hd as [|c ds Hc _ IH].
  - destruct tail as [|c r]; [reflexivity|]. cbn [app digitRun]. now rewrite Htail.
  - cbn [app digitRun]. now rewrite Hc, IH.
Qed.

Lemma readNumber_formatInt (n : Z) (sep : ascii) (rest : list ascii) :
  0 <= n -> closes sep ->
  readNumber (chars (formatInt n) ++ sep :: rest)
  = Some (formatInt n, sep :: rest).
Proof.
  intros Hn Hsep.
  destruct (formatInt_spec n Hn) as (c & ds & Ec & Hd & _ & Hzero).
  rewrite <- (string_of_list_ascii_of_string (formatInt n)) at 2.
  rewrite Ec. inversion Hd as [|? ? Hc Hds]; subst.
  assert (Ascii.eqb c "-" = false) as Eminus.
  { apply Ascii.eqb_neq. intros ->. discriminate Hc. }
  assert (digitRun (ds ++ sep :: rest) = (ds, sep :: rest)) as Hrun.
  { apply digitRun_digits; [exact Hds|]. destruct Hsep as [->| ->]; reflexivity. }
  unfold readNumber. cbn [app]. rewrite Eminus, Hc. cbn [negb].
  destruct (Ascii.eqb_spec c "0") as [->|Hc0].
  - rewrite (Hzero eq_refl). cbn [app].
    destruct Hsep as [->| ->]; reflexivity.
  - rewrite Hrun.
    destruct Hsep as [->| ->]; cbn; rewrite app_nil_r; reflexivity.
Qed.

Lemma decimalOf_formatInt (n : Z) :
  0 <= n -> decimalOf (formatInt n) = (false, n, 0).
Proof.
  intros Hn.
  destruct (formatInt_spec n Hn) as (c & ds & Ec & Hd & Hv & _).
  unfold decimalOf. rewrite Ec.
  pose proof (List.Forall_inv Hd) as Hc. cbv beta in Hc.
  assert (Ascii.eqb c "-" = false) as ->.
  { apply Ascii.eqb_neq. intros ->. discriminate Hc. }
  pose proof (digitRun_digits (c :: ds) [] Hd I) as Hrun.
  rewrite app_nil_r in Hrun. rewrite Hrun.
  rewrite app_nil_r. unfold digitsValue. rewrite Hv. reflexivity.
Qed.

(** The date in a number of seconds the writer wrote. *)
Lemma numericDate_formatInt (n : Z) :
  0 <= n < 2 ^ 53 ->
  numericDate (JNumber (formatInt n)) = Some (n * JWT.Second).
Proof.
  intros [Hn Hmax]. unfold numericDate, ParseFloat.
  rewrite decimalOf_formatInt by exact Hn.
  assert ((n <? 2 ^ 53) = true) as -> by (apply Z.ltb_lt; lia).
  cbn [Z.eqb andb]. unfold newNumericDateFromSeconds.
  cbn [Z.leb Z.compare]. change (2 ^ 0) with 1.
  rewrite !Z.mul_1_r, !Z.div_1_r.
  assert ((n <? 2 ^ 63) = true) as -> by (apply Z.ltb_lt; lia).
  cbn [andb]. unfold wrap64, unixToInternal.
  f_equal. f_equal. rewrite Z.mod_small; lia.
Qed.


(** *** Objects *)

Lemma chars_quote (s : string) (tail : list ascii) :
  (chars (quote s) ++ tail = dquote :: chars (escape s) ++ dquote :: tail)%list.
Proof.
  unfold quote, str. cbn [chars app]. rewrite chars_append, <- app_assoc.
  reflexivity.
Qed.

Lemma chars_member (kv : string * json) (tail : list ascii) :
  (chars (writeMember kv) ++ tail
   = dquote :: chars (escape (fst kv))
       ++ dquote :: ":"%char :: chars (writeValue (snd kv)) ++ tail)%list.
Proof.
  unfold writeMember, member.
  rewrite chars_append, <- app_assoc, chars_quote.
  rewrite chars_append, <- app_assoc. reflexivity.
Qed.

Lemma readValue_plain (v : json) (sep : ascii) (rest : list ascii)
    (fuel : nat) (depth : Z) :
  match v with
  | JString s => ValidString s = true
  | JNumber lit => exists n, 0 <= n /\ lit = formatInt n
  | _ => False
  end ->
  closes sep ->
  (0 < fuel)%nat ->
  readValue fuel depth (chars (writeValue v) ++ sep :: rest)
  = Some (v, sep :: rest).
Proof.
  intros Hv Hsep Hfuel. destruct fuel as [|fuel]; [lia|]. clear Hfuel.
  revert Hv Hsep.
  destruct v as [|b|lit|s|l|ms]; intros Hv Hsep; try contradiction.
  - destruct Hv as (n & Hn & ->). cbn [writeValue].
    pose proof (readNumber_formatInt n sep rest Hn Hsep) as Hr.
    destruct (formatInt_spec n Hn) as (c & ds & Ec & Hd & _ & _).
    pose proof (List.Forall_inv Hd) as Hc. cbv beta in Hc.
    rewrite Ec in Hr |- *. cbn [app] in Hr |- *. cbn [readValue].
    assert (isSpace c = false) as Hsp.
    { destruct (isSpace c) eqn:E; [|reflexivity]. unfold isSpace in E.
      unfold Go.isDigit in Hc. unfold byte in E.
      apply andb_true_iff in Hc as [H1 H2]. apply Z.leb_le in H1, H2.
      repeat (apply orb_true_iff in E as [E|E]); apply Z.eqb_eq in E; lia. }
    cbn [skipSpace]. rewrite Hsp.
    repeat match goal with
    | |- context [Ascii.eqb c ?x] =>
        replace (Ascii.eqb c x) with false
          by (symmetry; apply Ascii.eqb_neq; intros ->; discriminate Hc)
    end.
    now rewrite Hr.
  - cbn [writeValue]. rewrite chars_quote. cbn [readValue].
    change (skipSpace (dquote :: ?x)) with (dquote :: x).
    cbv beta match.
    rewrite Ascii.eqb_refl, readString_escape by exact Hv. reflexivity.
Qed.

Lemma concat_cons2 (x y : string) (l : list string) :
  String.concat "," (x :: y :: l) = x +:+ "," +:+ String.concat "," (y :: l).
Proof. reflexivity. Qed.

Lemma readMembers_S (fuel : nat) (depth : Z) (cs : list ascii) :
  readMembers (S fuel) depth cs
  = match skipSpace cs with
    | q :: r =>
        if Ascii.eqb q dquote then
          match readString r with
          | None => None
          | Some (key, r1) =>
              match skipSpace r1 with
              | colon :: r2 =>
                  if Ascii.eqb colon ":" then
                    match readValue fuel depth r2 with
                    | None => None
                    | Some (v, r3) =>
                        match skipSpace r3 with
                        | sep :: r4 =>
                            if Ascii.eqb sep "}" then Some ([(key, v)], r4)
                            else if Ascii.eqb sep "," then
                              match readMembers fuel depth r4 with
                              | None => None
                              | Some (ms, out) => Some ((key, v) :: ms, out)
                              end
                            else None
                        | [] => None
                        end
                    end
                  else None
              | [] => None
              end
          end
        else None
    | [] => None
    end.
Proof. reflexivity. Qed.

(** Reading the members of a written object gives them back. *)
Lemma readMembers_plain (ms : list (string * json)) :
  ms <> [] ->
  Forall plainMember ms ->
  forall (fuel : nat) (depth : Z) (tail : list ascii),
    (length ms < fuel)%nat ->
    readMembers fuel depth
      (chars (String.concat "," (map writeMember ms) +:+ "}") ++ tail)
    = Some (ms, tail).
Proof.
  induction ms as [|[k v] ms IH]; [contradiction|].
  intros _ Hms fuel depth tail Hfuel.
  inversion Hms as [|? ? [Hk Hv] Hms']; subst.
  cbn [fst snd] in Hk, Hv.
  destruct fuel as [|fuel]; [simpl in Hfuel; lia|].
  assert (0 < fuel)%nat as Hpos by (simpl in Hfuel; lia).
  rewrite readMembers_S.
  destruct ms as [|kv' ms].
  - cbn [map String.concat]. rewrite chars_append, <- app_assoc, chars_member.
    cbn [fst snd chars app].
    change (skipSpace (dquote :: ?x)) with (dquote :: x).
    cbv beta match.
    rewrite Ascii.eqb_refl, readString_escape by exact Hk.
    change (skipSpace (":"%char :: ?x)) with (":"%char :: x).
    cbv beta match.
    cbn [Ascii.eqb Bool.eqb]. cbv beta match.
    rewrite readValue_plain by (exact Hv || exact Hpos || now right).
    reflexivity.
  - cbn [map]. rewrite concat_cons2, !append_assoc, chars_append, <- app_assoc,
      chars_member.
    rewrite append_cons, append_nil.
    cbn [fst snd chars app].
    change (skipSpace (dquote :: ?x)) with (dquote :: x).
    cbv beta match.
    rewrite Ascii.eqb_refl, readString_escape by exact Hk.
    change (skipSpace (":"%char :: ?x)) with (":"%char :: x).
    cbv beta match.
    cbn [Ascii.eqb Bool.eqb]. cbv beta match.
    rewrite readValue_plain by (exact Hv || exact Hpos || now left).
    change (skipSpace (","%char :: ?x)) with (","%char :: x).
    cbv beta match.
    cbn [Ascii.eqb Bool.eqb]. cbv beta match.
    change (writeMember kv' :: map writeMember ms)
      with (map writeMember (kv' :: ms)).
    rewrite IH; [reflexivity | discriminate | exact Hms' |].
    simpl in Hfuel |- *. lia.
Qed.

Lemma length_chars_append (a b : string) :
  length (chars (a +:+ b)) = (length (chars a) + length (chars b))%nat.
Proof. now rewrite chars_append, length_app. Qed.

Lemma written_length (ms : list (string * json)) :
  (length ms
   < length (chars (String.concat "," (map writeMember ms) +:+ "}")))%nat.
Proof.
  induction ms as [|kv ms IH]; [simpl; lia|].
  destruct ms as [|kv' ms].
  - cbn [map String.concat]. rewrite length_chars_append.
    pose proof (chars_member kv []) as Hm. rewrite app_nil_r in Hm.
    rewrite Hm. simpl. lia.
  - cbn [map]. rewrite concat_cons2, !append_assoc.
    rewrite length_chars_append, append_cons, append_nil.
    change (writeMember kv' :: map writeMember ms)
      with (map writeMember (kv' :: ms)).
    cbn [chars length] in IH |- *. lia.
Qed.

Lemma parse_plain (ms : list (string * json)) :
  ms <> [] ->
  Forall plainMember ms ->
  parse (object (map writeMember ms)) = Some (JObject ms).
Proof.
  intros Hne Hms. unfold parse, object.
  rewrite append_cons, append_nil. cbn [chars length].
  pose proof (written_length ms) as Hlen.
  set (body := chars (String.concat "," (map writeMember ms) +:+ "}")) in *.
  replace (2 * S (length body) + 2)%nat with (S (S (2 * length body + 2)))
    by lia.
  pose proof (readMembers_plain ms Hne Hms (S (2 * length body + 2)) 1 []
                ltac:(lia)) as Hr.
  fold body in Hr. rewrite app_nil_r in Hr.
  cbn [readValue].
  change (skipSpace ("{"%char :: ?x)) with ("{"%char :: x).
  cbn [Ascii.eqb Bool.eqb]. cbv beta match.
  change (maxNestingDepth <=? 0) with false. cbv beta match.
  assert (exists rest, body = dquote :: rest) as [rest Eb].
  { subst body. destruct ms as [|kv ms]; [contradiction|].
    destruct ms as [|kv' ms].
    - cbn [map String.concat]. rewrite chars_append.
      rewrite <- (app_nil_r (chars "}")), chars_member. eauto.
    - cbn [map]. rewrite concat_cons2, !append_assoc, chars_append.
      rewrite <- (app_nil_r (chars (_ +:+ _))), chars_member. eauto. }
  rewrite Eb in *.
  change (skipSpace (dquote :: rest)) with (dquote :: rest).
  change (Ascii.eqb dquote "}") with false. cbv beta match.
  change (0 + 1) with 1. rewrite Hr. reflexivity.
Qed.


(** *** Claims *)

Lemma storeMember_user_id (c : JWT.JWTClaims) (n : Z) :
  0 <= n <= Go.maxUint64 ->
  storeMember c ("user_id", JNumber (formatInt n))
  = Some {| JWT.UserID := n; JWT.Email := JWT.Email c; JWT.Role := JWT.Role c;
            JWT.Registered := JWT.Registered c |}.
Proof.
  intros Hn. unfold storeMember.
  change (fieldFor "user_id") with (Some "user_id").
  cbn [String.eqb Ascii.eqb Bool.eqb]. now rewrite ParseUint_formatInt.
Qed.

Lemma dateField_formatInt (n : Z) :
  0 <= n < 2 ^ 53 ->
  dateField (JNumber (formatInt n)) = Some (Some (n * JWT.Second)).
Proof.
  intros Hn. unfold dateField. now rewrite numericDate_formatInt.
Qed.

(** The JSON layer gives back the header and the claims of every token
    [GenerateToken] issues for an identity with a 64-bit id and an email
    and a role in valid UTF-8, at clock readings after the epoch whose
    seconds a float64 holds exactly. *)
Lemma codec_round_trips (now1 now2 : JWT.Time) (uid : Z) (email role : string) :
  0 <= uid <= Go.maxUint64 ->
  ValidString email = true -> ValidString role = true ->
  0 <= now1 -> now1 + 24 * JWT.Hour < 2 ^ 53 * JWT.Second ->
  0 <= now2 < 2 ^ 53 * JWT.Second ->
  Spec.roundTrips codec (Middleware.newClaims now1 now2 uid email role).
Proof.
  intros Huid Hemail Hrole Hn1 Hn1' Hn2. split; [vm_compute; reflexivity|].
  cbn [codec JWT.marshalClaims JWT.unmarshalClaims].
  set (exp := (now1 + 24 * JWT.Hour) / JWT.Second).
  set (iat := now2 / JWT.Second).
  assert (0 <= exp < 2 ^ 53) as Hexp.
  { subst exp. unfold JWT.Hour, JWT.Second in *. split.
    - apply Z.div_pos; lia.
    - apply Z.div_lt_upper_bound; lia. }
  assert (0 <= iat < 2 ^ 53) as Hiat.
  { subst iat. unfold JWT.Second in *. split.
    - apply Z.div_pos; lia.
    - apply Z.div_lt_upper_bound; lia. }
  assert (forall t, t * JWT.Second / JWT.Second = t) as Hdiv.
  { intros t. apply Z.div_mul. discriminate. }
  assert (marshalClaimsGo (Middleware.newClaims now1 now2 uid email role)
          = object (map writeMember
                      [("user_id", JNumber (formatInt uid));
                       ("email", JString email); ("role", JString role);
                       ("iss", JString "jiaxun");
                       ("exp", JNumber (formatInt exp));
                       ("iat", JNumber (formatInt iat))])) as ->.
  { unfold marshalClaimsGo, Middleware.newClaims, JWT.NewNumericDate.
    cbn [JWT.Registered JWT.UserID JWT.Email JWT.Role JWT.Issuer JWT.Subject
         JWT.Audience JWT.ExpiresAt JWT.NotBefore JWT.IssuedAt JWT.ID
         optDate optAudience].
    rewrite !Hdiv. reflexivity. }
  unfold unmarshalClaimsGo. rewrite parse_plain.
  - unfold storeMembers. cbn [fold_left mbind option_bind].
    rewrite storeMember_user_id by exact Huid.
    cbn [mbind option_bind].
    unfold storeMember at 1 2 3.
    change (fieldFor "email") with (Some "email").
    change (fieldFor "role") with (Some "role").
    change (fieldFor "iss") with (Some "iss").
    cbn [String.eqb Ascii.eqb Bool.eqb stringField mbind option_bind
         JWT.UserID JWT.Email JWT.Role JWT.Registered zeroClaims
         JWT.Issuer JWT.Subject JWT.Audience JWT.ExpiresAt JWT.NotBefore
         JWT.IssuedAt JWT.ID setRegistered].
    unfold storeMember.
    change (fieldFor "exp") with (Some "exp").
    change (fieldFor "iat") with (Some "iat").
    cbn [String.eqb Ascii.eqb Bool.eqb].
    rewrite !dateField_formatInt by assumption.
    cbn [mbind option_bind JWT.UserID JWT.Email JWT.Role JWT.Registered
         JWT.Issuer JWT.Subject JWT.Audience JWT.ExpiresAt JWT.NotBefore
         JWT.IssuedAt JWT.ID setRegistered].
    unfold Middleware.newClaims, JWT.NewNumericDate. reflexivity.
  - discriminate.
  - repeat constructor; cbn [fst snd]; trivial;
      first [ reflexivity
            | exists uid; split; [lia|reflexivity]
            | exists exp; split; [lia|reflexivity]
            | exists iat; split; [lia|reflexivity] ].
Qed.

End JSONFacts.

(** ** Issuing and verifying tokens *)

Module TokenFacts.
Import Gin Authz Spec Middleware CodecFacts FilterFacts.

(** The three segments of a signed token. *)
Lemma Split_signed (h c sig : string) :
  Go.Split ((Base64.EncodeToString h +:+ "." +:+ Base64.EncodeToString c)
            +:+ "." +:+ Base64.EncodeToString sig) "."
  = [Base64.EncodeToString h; Base64.EncodeToString c;
     Base64.EncodeToString sig].
Proof.
  rewrite append_assoc, !append_cons, !append_nil.
  rewrite Split_at_sep by (apply EncodeToString_free; now right).
  rewrite Split_at_sep by (apply EncodeToString_free; now right).
  rewrite Split_free by (apply EncodeToString_free; now right).
  reflexivity.
Qed.

(** A signed token has no space in it. *)
Lemma signed_free_of_space (h c sig : string) :
  Go.free " " ((Base64.EncodeToString h +:+ "." +:+ Base64.EncodeToString c)
               +:+ "." +:+ Base64.EncodeToString sig).
Proof.
  assert (Go.free " " ".") as Hdot by (repeat constructor; discriminate).
  repeat apply free_append;
    try exact Hdot; apply EncodeToString_free; now left.
Qed.

Lemma Split_bearer (tokenString : string) :
  Go.free " " tokenString ->
  Go.Split ("Bearer " +:+ tokenString) " " = ["Bearer"; tokenString].
Proof.
  intros Hfree.
  change ("Bearer " +:+ tokenString) with ("Bearer" +:+ String " " tokenString).
  rewrite Split_at_sep by (repeat constructor; discriminate).
  now rewrite Split_free.
Qed.



Lemma presents_bearer (c : Context) (tokenString : string) :
  isPublicPath (Path c) = false ->
  Go.free " " tokenString ->
  GetHeader c "Authorization" = "Bearer " +:+ tokenString ->
  presents c tokenString.
Proof.
  intros Hpub Hfree Hh. split; [exact Hpub|].
  rewrite Hh. now apply Split_bearer.
Qed.





(** HMAC pads a short key with zero bytes to the block size, so a key
    and the same key followed by zero bytes give one tag. *)
Lemma hmac_zero_padded_key (h : Crypto.Hash) (key msg : list Z) (n : nat) :
  (length key + n <= Crypto.BlockSize h)%nat ->
  Crypto.hmacBytes h (key ++ repeat 0 n) msg = Crypto.hmacBytes h key msg.
Proof.
  intros Hlen. unfold Crypto.hmacBytes.
  assert (Crypto.hmacKeyBlock h (key ++ repeat 0 n) = Crypto.hmacKeyBlock h key)
    as ->; [|reflexivity].
  unfold Crypto.hmacKeyBlock.
  assert ((Crypto.BlockSize h <? length (key ++ repeat 0%Z n))%nat = false) as ->.
  { apply Nat.ltb_ge. rewrite length_app, repeat_length. lia. }
  assert ((Crypto.BlockSize h <? length key)%nat = false) as ->
    by (apply Nat.ltb_ge; lia).
  rewrite <- app_assoc, <- repeat_app, length_app, repeat_length.
  do 2 f_equal. lia.
Qed.


(** The route group of the self-or-role policy runs the filter before
    the gate: with a verified identity a malformed id is answered 400 by
    the gate; without a bearer header the filter has already answered. *)
Example owner_route_order :
  runChain (userOwnerChain GoJSON.codec Config.defaultConfig (issuedAt7 + JWT.Hour))
    (request "/api/users/abc" {[ "id" := "abc" ]} (Some ("Bearer " +:+ token7)))
  = reject (withIdentity (request "/api/users/abc" {[ "id" := "abc" ]}
                            (Some ("Bearer " +:+ token7))) claims7)
      400 "Invalid user ID"
  /\ runChain (userOwnerChain GoJSON.codec Config.defaultConfig (issuedAt7 + JWT.Hour))
       (request "/api/users/abc" {[ "id" := "abc" ]} None)
     = reject (request "/api/users/abc" {[ "id" := "abc" ]} None)
         401 "Authorization header is required".
Proof. split; vm_compute; reflexivity. Qed.

End TokenFacts.

(** ** More on the filter: header shape, route groups, token lifetime *)

Module RouteFacts.
Import Gin Authz Spec Middleware Routes CodecFacts FilterFacts TokenFacts.

Lemma Split_one_inv (sep : ascii) (s b : string) :
  Go.Split s sep = [b] -> s = b /\ Go.free sep b.
Proof.
  revert b. induction s as [|x s IH]; intros b; simpl.
  - intros [= <-]. split; [reflexivity | constructor].
  - destruct (Ascii.eqb_spec x sep) as [->|Hx].
    + destruct s; simpl; [discriminate|].
      destruct (Ascii.eqb _ sep); [discriminate|].
      destruct (Go.Split s sep); discriminate.
    + destruct (Go.Split s sep) as [|piece rest] eqn:Es.
      * intros [= <-]. destruct s; simpl in Es; [discriminate|].
        destruct (Ascii.eqb _ sep); [discriminate|].
        destruct (Go.Split s sep); discriminate.
      * intros [= <- ->]. destruct (IH piece eq_refl) as [-> Hfree].
        split; [reflexivity|]. constructor; assumption.
Qed.

Lemma Split_two_inv (sep : ascii) (s a b : string) :
  Go.Split s sep = [a; b] ->
  s = a +:+ String sep b /\ Go.free sep a /\ Go.free sep b.
Proof.
  revert a. induction s as [|x s IH]; intros a; simpl; [discriminate|].
  destruct (Ascii.eqb_spec x sep) as [->|Hx].
  - intros [= <- Hs]. apply Split_one_inv in Hs as [-> Hb].
    repeat split; [constructor | exact Hb].
  - destruct (Go.Split s sep) as [|piece rest] eqn:Es; [discriminate|].
    intros [= <- ->]. destruct (IH piece eq_refl) as (-> & Ha & Hb).
    repeat split; [constructor; assumption | exact Hb].
Qed.

(** The filter's split-and-compare test of the header is an exact shape:
    the word Bearer, one space, and a token without spaces. *)
Lemma presents_iff (c : Context) (tokenString : string) :
  presents c tokenString
  <-> isPublicPath (Path c) = false
      /\ GetHeader c "Authorization" = "Bearer " +:+ tokenString
      /\ Go.free " " tokenString.
Proof.
  split.
  - intros [Hpub Hs]. apply Split_two_inv in Hs as (Hh & _ & Hfree).
    now repeat split.
  - intros (Hpub & Hh & Hfree). now apply presents_bearer.
Qed.




Lemma runChain_single (h : HandlerFunc) (c : Context) :
  runChain [h] c = h c.
Proof.
  cbn [runChain]. destruct (h c) as [c'|]; [|reflexivity].
  destruct (Aborted c'); reflexivity.
Qed.

Lemma runChain_two (a h : HandlerFunc) (c : Context) :
  runChain [a; h] c
  = match a c with
    | Panic => Panic
    | Done c' => if Aborted c' then Done c' else h c'
    end.
Proof.
  change (runChain [a; h] c)
    with (match a c with
          | Panic => Panic
          | Done c' => if Aborted c' then Done c' else runChain [h] c'
          end).
  destruct (a c) as [c'|]; [|reflexivity].
  now rewrite runChain_single.
Qed.

(** The three ways the filter can end. *)
Lemma AuthMiddleware_cases (J : JWT.JSONCodec) (cfg : Config.Config)
    (now : JWT.Time) (c : Context) :
  (isPublicPath (Path c) = true /\ AuthMiddleware J cfg now c = Done c)
  \/ (isPublicPath (Path c) = false
      /\ exists msg, AuthMiddleware J cfg now c = reject c 401 msg)
  \/ (exists tokenString claims,
        presents c tokenString
        /\ verifiedUnder J (Config.Secret (Config.Application cfg)) now
             tokenString claims
        /\ AuthMiddleware J cfg now c = Done (withIdentity c claims)).
Proof.
  destruct (isPublicPath (Path c)) eqn:Hpub.
  { left. split; [reflexivity|]. unfold AuthMiddleware. now rewrite Hpub. }
  right.
  destruct (Go.Split (GetHeader c "Authorization") " ")
    as [|scheme [|tokenString [|]]] eqn:Es;
    try (left; split; [reflexivity|];
         apply AuthMiddleware_no_token; [exact Hpub|];
         intros t [_ Ht]; rewrite Es in Ht; discriminate Ht).
  destruct (String.eqb_spec scheme "Bearer") as [->|Hs].
  - assert (presents c tokenString) as Hp by now split.
    rewrite (AuthMiddleware_presents J cfg now c tokenString Hp).
    destruct (JWT.ParseWithClaims J tokenString (keyFunc cfg) now)
      as [token|err] eqn:Ep.
    + right. exists tokenString, (JWT.Claims token).
      apply ParseWithClaims_verified in Ep as [_ Hv]. now repeat split.
    + left. split; [reflexivity|]. eauto.
  - left. split; [reflexivity|].
    apply AuthMiddleware_no_token; [exact Hpub|].
    intros t [_ Ht]. rewrite Es in Ht. congruence.
Qed.

Lemma withIdentity_hasIdentity (c : Context) (claims : JWT.JWTClaims) :
  hasIdentity (withIdentity c claims) (JWT.UserID claims) (JWT.Role claims).
Proof.
  unfold hasIdentity, withIdentity, Get, Set_. cbn [Keys]. split.
  - rewrite !lookup_insert_ne by discriminate. apply lookup_insert_eq.
  - apply lookup_insert_eq.
Qed.

Lemma users_path_protected (rest : string) :
  isPublicPath ("/api/users" +:+ rest) = false.
Proof. reflexivity. Qed.

(** X2: no path of the user route group (/api/users and below) is
    public, so whenever the filter lets a request of that group through,
    the context carries the identity of a token it has verified. *)
Theorem users_group_authenticated (J : JWT.JSONCodec) (cfg : Config.Config)
    (now : JWT.Time) (c c' : Context) (rest : string) :
  Path c = "/api/users" +:+ rest ->
  AuthMiddleware J cfg now c = Done c' ->
  Aborted c' = false ->
  exists tokenString claims,
    presents c tokenString
    /\ verifiedUnder J (Config.Secret (Config.Application cfg)) now
         tokenString claims
    /\ c' = withIdentity c claims
    /\ hasIdentity c' (JWT.UserID claims) (JWT.Role claims).
Proof.
  intros Hpath Hrun Hgo.
  destruct (AuthMiddleware_cases J cfg now c)
    as [[Hpub _]|[(_ & msg & Hm)|(t & claims & Hp & Hv & Hm)]].
  - rewrite Hpath, users_path_protected in Hpub. discriminate Hpub.
  - rewrite Hm in Hrun. injection Hrun as <-. discriminate Hgo.
  - rewrite Hm in Hrun. injection Hrun as <-.
    exists t, claims. split; [exact Hp|]. split; [exact Hv|].
    split; [reflexivity|]. apply withIdentity_hasIdentity.
Qed.

Lemma users_group_authenticated_witness :
  exists tokenString claims,
    presents (toUser7 (Some ("Bearer " +:+ token7))) tokenString
    /\ verifiedUnder GoJSON.codec "mysecret" (issuedAt7 + JWT.Hour)
         tokenString claims
    /\ withIdentity (toUser7 (Some ("Bearer " +:+ token7))) claims7
       = withIdentity (toUser7 (Some ("Bearer " +:+ token7))) claims
    /\ hasIdentity (withIdentity (toUser7 (Some ("Bearer " +:+ token7))) claims7)
         (JWT.UserID claims) (JWT.Role claims).
Proof.
  apply (users_group_authenticated GoJSON.codec Config.defaultConfig
           (issuedAt7 + JWT.Hour) (toUser7 (Some ("Bearer " +:+ token7)))
           _ "/7"); [reflexivity | vm_compute; reflexivity | reflexivity].
Defined.

Lemma CanModifyUser_no_panic (c : Context) :
  Get c "userID" = None \/ (exists n, Get c "userID" = Some (AUint n)) ->
  CanModifyUser c <> Panic.
Proof.
  intros H. unfold CanModifyUser.
  destruct (Go.ParseUint (Param c "id") 32); [|discriminate].
  destruct H as [->|[n ->]]; [discriminate|].
  destruct (anyEqString _ "teacher"); [discriminate|].
  destruct (n =? z); discriminate.
Qed.

(** X3: on a request that enters with no keys, the route group of the
    self-or-role policy never panics, whatever the path, the headers and
    the id parameter are: the gate's type assertion on the user id only
    ever meets the [uint] the filter stored. *)
Theorem owner_chain_never_panics (J : JWT.JSONCodec) (cfg : Config.Config)
    (now : JWT.Time) (c : Context) :
  Keys c = ∅ ->
  runChain (userOwnerChain J cfg now) c <> Panic.
Proof.
  intros Hkeys. unfold userOwnerChain. rewrite runChain_two.
  destruct (AuthMiddleware_cases J cfg now c)
    as [[_ ->]|[(_ & msg & ->)|(t & claims & _ & _ & ->)]].
  - destruct (Aborted c); [discriminate|].
    apply CanModifyUser_no_panic. left. unfold Get. now rewrite Hkeys.
  - discriminate.
  - change (Aborted (withIdentity c claims)) with (Aborted c).
    destruct (Aborted c); [discriminate|].
    apply CanModifyUser_no_panic. right. eexists.
    apply withIdentity_hasIdentity.
Qed.

Lemma owner_chain_never_panics_witness :
  runChain (userOwnerChain GoJSON.codec Config.defaultConfig 0)
    (request "/api/auth/login/7" {[ "id" := "7" ]} None) <> Panic.
Proof. apply owner_chain_never_panics. reflexivity. Defined.


Lemma signedWith_free (J : JWT.JSONCodec) (h : Crypto.Hash)
    (claims : JWT.JWTClaims) (key : string) :
  Go.free " " (signedWith J h claims key).
Proof. apply signed_free_of_space. Qed.

(** Parsing a token signed with any of the three HMAC methods. *)
Lemma parse_signedWith (J : JWT.JSONCodec) (cfg : Config.Config)
    (now : JWT.Time) (h : Crypto.Hash) (claims : JWT.JWTClaims) :
  roundTripsWith J (JWT.Alg (JWT.SigningMethodHMAC h)) claims ->
  JWT.ParseWithClaims J
    (signedWith J h claims (Config.Secret (Config.Application cfg)))
    (keyFunc cfg) now
  = match JWT.Validate (JWT.Registered claims) now with
    | Some err => inr (JWT.newError EmptyString JWT.ErrTokenInvalidClaims [err])
    | None =>
        inl {| JWT.Raw :=
                 signedWith J h claims (Config.Secret (Config.Application cfg));
               JWT.Method := JWT.SigningMethodHMAC h;
               JWT.HeaderAlg := JWT.Alg (JWT.SigningMethodHMAC h);
               JWT.Claims := claims;
               JWT.Signature :=
                 Crypto.HMAC h (Config.Secret (Config.Application cfg))
                   (JWT.SigningString J (JWT.SigningMethodHMAC h) claims);
               JWT.Valid := true |}
    end.
Proof.
  intros [Hh Hc].
  unfold JWT.ParseWithClaims, JWT.ParseUnverified, signedWith.
  unfold JWT.SigningString at 1 2.
  rewrite Split_signed, !DecodeString_EncodeToString, Hh, Hc.
  assert (JWT.GetSigningMethod (JWT.Alg (JWT.SigningMethodHMAC h))
          = Some (JWT.SigningMethodHMAC h)) as -> by (destruct h; reflexivity).
  cbv beta iota. rewrite DecodeString_EncodeToString.
  cbn [keyFunc JWT.Method JWT.Verify JWT.Claims JWT.Raw JWT.HeaderAlg].
  unfold JWT.SigningString. rewrite String.eqb_refl.
  destruct (JWT.Validate (JWT.Registered claims) now); reflexivity.
Qed.

(** The filter on a request that presents such a token. *)
Lemma AuthMiddleware_signedWith (J : JWT.JSONCodec) (cfg : Config.Config)
    (now : JWT.Time) (h : Crypto.Hash) (claims : JWT.JWTClaims) (c : Context) :
  roundTripsWith J (JWT.Alg (JWT.SigningMethodHMAC h)) claims ->
  isPublicPath (Path c) = false ->
  GetHeader c "Authorization"
  = "Bearer " +:+ signedWith J h claims (Config.Secret (Config.Application cfg)) ->
  AuthMiddleware J cfg now c
  = match JWT.Validate (JWT.Registered claims) now with
    | Some err =>
        reject c 401
          (tokenErrorMessage
             (JWT.newError EmptyString JWT.ErrTokenInvalidClaims [err]))
    | None => Done (withIdentity c claims)
    end.
Proof.
  intros Hrt Hpub Hh.
  rewrite (AuthMiddleware_presents J cfg now c _
             (presents_bearer c _ Hpub (signedWith_free J h claims _) Hh)).
  rewrite (parse_signedWith J cfg now h claims Hrt).
  destruct (JWT.Validate (JWT.Registered claims) now); reflexivity.
Qed.






(** X6: the filter does not require an expiry: a token signed under the
    configured secret whose claims carry neither exp nor nbf is accepted
    at every instant. *)
Theorem token_without_exp_never_expires (J : JWT.JSONCodec)
    (cfg : Config.Config) (now : JWT.Time) (uid : Z) (email role : string)
    (c : Context) :
  roundTrips J (timelessClaims uid email role) ->
  isPublicPath (Path c) = false ->
  GetHeader c "Authorization"
  = "Bearer " +:+ signedWith J Crypto.SHA256 (timelessClaims uid email role)
                    (Config.Secret (Config.Application cfg)) ->
  AuthMiddleware J cfg now c
  = Done (withIdentity c (timelessClaims uid email role)).
Proof.
  intros Hrt Hpub Hh.
  now rewrite (AuthMiddleware_signedWith J cfg now Crypto.SHA256 _ c Hrt Hpub Hh).
Qed.

Lemma token_without_exp_never_expires_witness :
  AuthMiddleware GoJSON.codec Config.defaultConfig (1000000 * issuedAt7)
    (toUser7 (Some ("Bearer " +:+ signedWith GoJSON.codec Crypto.SHA256
                                    (timelessClaims 1 "x@example.com" "teacher")
                                    "mysecret")))
  = Done (withIdentity
            (toUser7 (Some ("Bearer " +:+ signedWith GoJSON.codec Crypto.SHA256
                                    (timelessClaims 1 "x@example.com" "teacher")
                                    "mysecret")))
            (timelessClaims 1 "x@example.com" "teacher")).
Proof.
  apply (token_without_exp_never_expires GoJSON.codec Config.defaultConfig).
  - split; vm_compute; reflexivity.
  - reflexivity.
  - reflexivity.
Defined.








(** X9: the three gates only ever answer: whatever the context, a gate
    that returns leaves path, headers, parameters and keys as they were
    and either changes nothing or aborts with a 400, 401 or 403 body;
    the login and teacher gates never panic. *)
Theorem gates_leave_keys (g : HandlerFunc) (c : Context) :
  In g [LoginRequired; TeacherRequired; CanModifyUser] ->
  LoginRequired c <> Panic
  /\ TeacherRequired c <> Panic
  /\ (forall c', g c = Done c' ->
        Keys c' = Keys c /\ Params c' = Params c
        /\ Path c' = Path c /\ Header c' = Header c
        /\ (c' = c
            \/ exists status msg,
                 c' = Abort (JSON c status msg)
                 /\ In status [400; 401; 403])).
Proof.
  assert (forall status msg c',
            In status [400; 401; 403] ->
            reject c status msg = Done c' ->
            Keys c' = Keys c /\ Params c' = Params c
            /\ Path c' = Path c /\ Header c' = Header c
            /\ (c' = c
                \/ exists status msg,
                     c' = Abort (JSON c status msg)
                     /\ In status [400; 401; 403])) as Hrej.
  { intros status msg c' Hin [= <-]. repeat split. right. eauto. }
  assert (forall c', Done c = Done c' ->
            Keys c' = Keys c /\ Params c' = Params c
            /\ Path c' = Path c /\ Header c' = Header c
            /\ (c' = c
                \/ exists status msg,
                     c' = Abort (JSON c status msg)
                     /\ In status [400; 401; 403])) as Hok.
  { intros c' [= <-]. repeat split. now left. }
  intros Hg. split; [|split].
  - unfold LoginRequired.
    destruct (Get c "userID") as [[| |]|]; discriminate.
  - unfold TeacherRequired.
    destruct (Get c "userID") as [[| |]|]; cbn [anyIsNil]; try discriminate;
      destruct (Get c "role") as [r|];
      try destruct (anyEqString r "teacher"); discriminate.
  - intros c'. destruct Hg as [<-|[<-|[<-|[]]]].
    + unfold LoginRequired.
      destruct (Get c "userID") as [[| |]|]; cbn [anyIsNil];
        first [apply Hok | apply Hrej; simpl; tauto].
    + unfold TeacherRequired.
      destruct (Get c "userID") as [[| |]|]; cbn [anyIsNil];
        try (apply Hrej; simpl; tauto);
        destruct (Get c "role") as [r|];
        try destruct (anyEqString r "teacher"); cbn [negb];
        first [apply Hok | apply Hrej; simpl; tauto].
    + unfold CanModifyUser.
      destruct (Go.ParseUint (Param c "id") 32) as [t|];
        [|apply Hrej; simpl; tauto].
      destruct (Get c "userID") as [v|]; [|apply Hrej; simpl; tauto].
      destruct (anyEqString (default ANil (Get c "role")) "teacher");
        [apply Hok|].
      destruct v as [n| |]; try discriminate.
      destruct (n =? t); [apply Hok | apply Hrej; simpl; tauto].
Qed.

Lemma gates_leave_keys_witness :
  TeacherRequired (onUser7 8 "student") <> Panic
  /\ Keys (Abort (JSON (onUser7 8 "student") 403 "Teacher privileges required"))
     = Keys (onUser7 8 "student").
Proof.
  destruct (gates_leave_keys TeacherRequired (onUser7 8 "student"))
    as (_ & Hnp & Hkeep); [right; left; reflexivity|].
  split; [exact Hnp|].
  exact (proj1 (Hkeep _ eq_refl)).
Defined.

(** X10: the self-or-role gate panics in exactly one situation: the id
    parameter parses, a value that is not a [uint] sits under userID
    and the role is not teacher; a teacher role is decided before the
    type assertion is reached. *)
Theorem CanModifyUser_panics_iff (c : Context) :
  CanModifyUser c = Panic
  <-> (exists t, Go.ParseUint (Param c "id") 32 = inl t)
      /\ (exists v, Get c "userID" = Some v /\ forall n, v <> AUint n)
      /\ Get c "role" <> Some (AString "teacher").
Proof.
  unfold CanModifyUser. split.
  - destruct (Go.ParseUint (Param c "id") 32) as [t|]; [|discriminate].
    destruct (Get c "userID") as [v|]; [|discriminate].
    destruct (Get c "role") as [r|] eqn:Er; cbn [default from_option id].
    + destruct (anyEqString r "teacher") eqn:Et; [discriminate|].
      destruct v as [n| |]; [destruct (n =? t); discriminate| |];
        intros _; (split; [eauto|]);
        (split; [eexists; split; [reflexivity|discriminate]|]);
        intros [= ->]; discriminate Et.
    + cbn [anyEqString].
      destruct v as [n| |]; [destruct (n =? t); discriminate| |];
        intros _; (split; [eauto|]);
        (split; [eexists; split; [reflexivity|discriminate]|]);
        discriminate.
  - intros ([t ->] & (v & -> & Hv) & Hr).
    assert (anyEqString (default ANil (Get c "role")) "teacher" = false) as ->.
    { destruct (Get c "role") as [r|]; [|reflexivity].
      cbn [default from_option id].
      destruct (anyEqString r "teacher") eqn:Et; [|reflexivity].
      apply AuthzFacts.anyEqString_true in Et. subst r. now contradict Hr. }
    destruct v as [n| |]; [exfalso; exact (Hv n eq_refl)|reflexivity|reflexivity].
Qed.

Lemma CanModifyUser_panics_iff_witness :
  CanModifyUser
    (Set_ (request "/api/users/7" {[ "id" := "7" ]} None) "userID"
       (AString "seven"))
  = Panic.
Proof.
  apply (proj2 (CanModifyUser_panics_iff
                  (Set_ (request "/api/users/7" {[ "id" := "7" ]} None)
                     "userID" (AString "seven")))).
  split; [exists 7; reflexivity|].
  split; [exists (AString "seven"); split; [reflexivity|discriminate]|].
  vm_compute. discriminate.
Defined.



End RouteFacts.

(** ** More on the configuration loader *)

Module EnvFacts.
Import Config.

Lemma envString_unset (env : gmap string string) (key old : string) :
  Go.Getenv env key = EmptyString -> envString env key old = old.
Proof. unfold envString. now intros ->. Qed.

Lemma envInt_unset (env : gmap string string) (key : string) (old : Z) :
  Go.Getenv env key = EmptyString -> envInt env key old = old.
Proof. unfold envInt. now intros ->. Qed.

(** X11: variables that are unset or set to the empty string change
    nothing: when none of the ten variables the loader reads has a
    non-empty value, the configuration comes back as it went in. *)
Theorem overrideFromEnv_unset (env : gmap string string) (cfg : Config) :
  (forall key, In key Env.names -> Go.Getenv env key = EmptyString) ->
  overrideFromEnv env cfg = cfg.
Proof.
  intros H. unfold overrideFromEnv.
  rewrite !envString_unset, !envInt_unset by (apply H; simpl; tauto).
  destruct cfg as [[] [] [] []]. reflexivity.
Qed.

Lemma overrideFromEnv_unset_witness :
  overrideFromEnv Spec.suppliedEnv defaultConfig = defaultConfig.
Proof.
  apply overrideFromEnv_unset. intros key Hin.
  simpl in Hin.
  repeat (destruct Hin as [<-|Hin]; [reflexivity|]). contradiction.
Defined.

Lemma envString_twice (env : gmap string string) (key old : string) :
  envString env key (envString env key old) = envString env key old.
Proof. unfold envString. destruct (String.eqb _ EmptyString); reflexivity. Qed.

Lemma envInt_twice (env : gmap string string) (key : string) (old : Z) :
  envInt env key (envInt env key old) = envInt env key old.
Proof.
  unfold envInt. destruct (String.eqb _ EmptyString); [reflexivity|].
  destruct (Go.Atoi _); reflexivity.
Qed.

(** X12: applying the environment is idempotent: a second pass over the
    same environment changes nothing more. *)
Theorem overrideFromEnv_idempotent (env : gmap string string) (cfg : Config) :
  overrideFromEnv env (overrideFromEnv env cfg) = overrideFromEnv env cfg.
Proof.
  unfold overrideFromEnv.
  cbn [Server Database Logging Application ServerHost ServerPort Driver DBHost
       DBPort User Password Name Level Format].
  now rewrite !envString_twice, !envInt_twice.
Qed.

Lemma envString_nonempty (env : gmap string string) (key old : string) :
  String.eqb old EmptyString = false ->
  String.eqb (envString env key old) EmptyString = false.
Proof.
  intros Hold. unfold envString.
  destruct (String.eqb (Go.Getenv env key) EmptyString) eqn:E; assumption.
Qed.

(** X13: the environment cannot blank a required field: on a
    configuration that validates, the overridden configuration validates
    exactly when its server port, the only checked field the environment
    can spoil, is still between 1 and 65535. *)
Theorem overrideFromEnv_keeps_required (env : gmap string string) (cfg : Config) :
  Validate cfg = true ->
  Validate (overrideFromEnv env cfg) = Env.portInRange (overrideFromEnv env cfg).
Proof.
  unfold Validate, Env.portInRange. intros Hv.
  apply andb_prop in Hv as [Hv Hname]. apply andb_prop in Hv as [Hv Hpw].
  apply andb_prop in Hv as [Hv Huser]. apply andb_prop in Hv as [_ Hhost].
  apply negb_true_iff in Hname, Hpw, Huser, Hhost.
  cbn [overrideFromEnv Server Database ServerPort DBHost User Password Name].
  rewrite !envString_nonempty by assumption. cbn [negb].
  rewrite !andb_true_r.
  set (p := envInt env "SERVER_PORT" (ServerPort (Server cfg))).
  destruct (Z.leb_spec p 0), (Z.ltb_spec 65535 p), (Z.ltb_spec 0 p),
    (Z.leb_spec p 65535); cbn; try reflexivity; lia.
Qed.

Lemma overrideFromEnv_keeps_required_witness :
  Validate (overrideFromEnv {[ "SERVER_PORT" := "0"; "DB_HOST" := "db" ]}
              defaultConfig) = false
  /\ Validate (overrideFromEnv {[ "SERVER_PORT" := "9090"; "DB_HOST" := "db" ]}
                 defaultConfig) = true.
Proof.
  split.
  - rewrite (overrideFromEnv_keeps_required _ defaultConfig eq_refl).
    reflexivity.
  - rewrite (overrideFromEnv_keeps_required _ defaultConfig eq_refl).
    reflexivity.
Defined.

(** X14: a file error hides the environment: when loading reports an
    error, the configuration returned is what the failed file load left
    behind, and no environment variable has any effect on it. *)
Theorem LoadConfig_error_ignores_env (configFile : string) (fs : FileState)
    (env : gmap string string) :
  snd (LoadConfig configFile fs env) = true ->
  LoadConfig configFile fs env = (fst (loadFromFile fs defaultConfig), true)
  /\ forall env', LoadConfig configFile fs env' = LoadConfig configFile fs env.
Proof.
  unfold LoadConfig.
  destruct (String.eqb configFile EmptyString); cbn [negb]; [discriminate|].
  destruct (loadFromFile fs defaultConfig) as [cfg [|]];
    [|discriminate].
  intros _. split; reflexivity.
Qed.

Lemma LoadConfig_error_ignores_env_witness :
  LoadConfig "config.json" FileUnreadable {[ "SERVER_HOST" := "0.0.0.0" ]}
  = (defaultConfig, true).
Proof.
  exact (proj1 (LoadConfig_error_ignores_env "config.json" FileUnreadable
                  {[ "SERVER_HOST" := "0.0.0.0" ]} eq_refl)).
Defined.

End EnvFacts.

(** ** The user service *)

Module ServiceFacts.
Import Gorm Repository Service.

Section WithRepo.
Context {S : Type}.
Variable repo : Repo.UserRepo S.
Variable B : Bcrypt.

Lemma isNotFound_true (e : DBError) :
  isNotFound e = true <-> e = ErrRecordNotFound.
Proof. destruct e; simpl; split; congruence. Qed.

(** X15: a user comes back from [Authenticate] only when the password
    checks against that user's stored hash, and the user is the one the
    name finds as a username or, only when no username matches, as an
    email. *)
Theorem Authenticate_sound (s : S) (name password : string) (u : User) :
  Authenticate repo B s name password = inl u ->
  CheckPassword B password (Password u) = true
  /\ (Repo.GetByUsername repo s name = inl u
      \/ (Repo.GetByUsername repo s name = inr ErrRecordNotFound
          /\ Repo.GetByEmail repo s name = inl u)).
Proof.
  unfold Authenticate.
  destruct (Repo.GetByUsername repo s name) as [u1|e] eqn:Eu.
  - destruct (CheckPassword B password (Password u1)) eqn:Ec; [|discriminate].
    intros [= <-]. split; [exact Ec | now left].
  - destruct (isNotFound e) eqn:En; [|discriminate].
    apply isNotFound_true in En. subst e.
    destruct (Repo.GetByEmail repo s name) as [u2|e'] eqn:Ee.
    + destruct (CheckPassword B password (Password u2)) eqn:Ec; [|discriminate].
      intros [= <-]. split; [exact Ec | now right].
    + destruct (isNotFound e'); discriminate.
Qed.

(** X16: [Authenticate] answers an unknown name and a wrong password
    alike: it returns ErrInvalidCredentials exactly when the name is
    found neither as username nor as email, or the found user's hash
    rejects the password. *)
Theorem Authenticate_invalid_credentials (s : S) (name password : string) :
  Authenticate repo B s name password = inr ErrInvalidCredentials
  <-> (Repo.GetByUsername repo s name = inr ErrRecordNotFound
       /\ Repo.GetByEmail repo s name = inr ErrRecordNotFound)
      \/ (exists u,
            (Repo.GetByUsername repo s name = inl u
             \/ (Repo.GetByUsername repo s name = inr ErrRecordNotFound
                 /\ Repo.GetByEmail repo s name = inl u))
            /\ CheckPassword B password (Password u) = false).
Proof.
  unfold Authenticate. split.
  - destruct (Repo.GetByUsername repo s name) as [u1|e] eqn:Eu.
    + destruct (CheckPassword B password (Password u1)) eqn:Ec; [discriminate|].
      intros _. right. exists u1. split; [now left | exact Ec].
    + destruct (isNotFound e) eqn:En; [|discriminate].
      apply isNotFound_true in En. subst e.
      destruct (Repo.GetByEmail repo s name) as [u2|e'] eqn:Ee.
      * destruct (CheckPassword B password (Password u2)) eqn:Ec;
          [discriminate|].
        intros _. right. exists u2. split; [now right | exact Ec].
      * destruct (isNotFound e') eqn:En'; [|discriminate].
        apply isNotFound_true in En'. subst e'. intros _. now left.
  - intros [[-> ->]|(u & [->|[-> ->]] & Hc)]; cbn [isNotFound];
      try rewrite Hc; reflexivity.
Qed.

End WithRepo.

Lemma Authenticate_sound_witness :
  CheckPassword Mem.bcrypt "secret1" "hash:secret1" = true
  /\ Authenticate Mem.users Mem.bcrypt Mem.rows "amy@example.com" "secret1"
     = Authenticate Mem.users Mem.bcrypt Mem.rows "amy" "secret1".
Proof.
  destruct (Authenticate Mem.users Mem.bcrypt Mem.rows "amy@example.com"
              "secret1") as [u|e] eqn:E; [|discriminate E].
  pose proof (Authenticate_sound Mem.users Mem.bcrypt Mem.rows
                "amy@example.com" "secret1" u E) as [Hc _].
  injection E as <-. split; [exact Hc | reflexivity].
Defined.

Lemma Authenticate_invalid_credentials_witness :
  Authenticate Mem.users Mem.bcrypt Mem.rows "amy" "wrong"
  = inr ErrInvalidCredentials
  /\ Authenticate Mem.users Mem.bcrypt Mem.rows "nobody" "secret1"
     = inr ErrInvalidCredentials.
Proof.
  split.
  - apply (proj2 (Authenticate_invalid_credentials Mem.users Mem.bcrypt
                    Mem.rows "amy" "wrong")).
    right. exists (nth 1 Mem.rows (rootUser EmptyString 0)).
    split; [left; reflexivity | reflexivity].
  - apply (proj2 (Authenticate_invalid_credentials Mem.users Mem.bcrypt
                    Mem.rows "nobody" "secret1")).
    left. split; reflexivity.
Defined.

End ServiceFacts.

(** ** The user handlers *)

Module HandlerFacts.
Import Gin Gorm Repository Handler.

Section WithService.
Context {S : Type}.
Variable repo : Repo.UserRepo S.
Variable B : Service.Bcrypt.
Variable J : JWT.JSONCodec.
Variable cfg : Config.Config.

(** X17: Register refuses a taken username with 409 and a taken email
    with 500 (the email conflict is not among the errors the handler
    tells apart); in both cases nothing is written. *)
Theorem Register_refuses_duplicates (now : JWT.Time) (s : S)
    (request : RegisterRequest) (other : User) :
  (Repo.GetByUsername repo s (RegUsername request) = inl other ->
     Register repo B now s (inl request)
     = (s, ErrorReply 409 "User already exists"))
  /\ (Repo.GetByUsername repo s (RegUsername request) = inr ErrRecordNotFound ->
      Repo.GetByEmail repo s (RegEmail request) = inl other ->
      Register repo B now s (inl request)
      = (s, ErrorReply 500 "Failed to create user")).
Proof.
  unfold Register, Service.Create. cbn [Username Email]. split.
  - now intros ->.
  - now intros -> ->.
Qed.

(** X18: when Register succeeds it has written exactly one row: the
    request's names and email, the bcrypt hash of the request's password,
    the creation time, and an empty role; the reply is that row as the
    database completed it, with the password blanked. *)
Theorem Register_writes_hashed_row (now : JWT.Time) (s s' : S)
    (request : RegisterRequest) (u : User) :
  Register repo B now s (inl request) = (s', UserReply 201 u) ->
  exists hashed created,
    Service.GenerateFromPassword B (RegPassword request) = inl hashed
    /\ Repo.Create repo s
         {| ID := 0; Username := RegUsername request;
            Email := RegEmail request; FullName := RegFullName request;
            Password := hashed; Role := EmptyString; CreatedAt := now |}
       = (s', inl created)
    /\ u = Service.setPassword created EmptyString.
Proof.
  unfold Register, Service.Create, Service.HashPassword.
  cbn [Username Email Password Service.setCreatedAt Service.setPassword
       ID FullName Role CreatedAt].
  destruct (Service.taken (Repo.GetByUsername repo s (RegUsername request)))
    as [[|]|]; try discriminate.
  destruct (Service.taken (Repo.GetByEmail repo s (RegEmail request)))
    as [[|]|]; try discriminate.
  destruct (Service.GenerateFromPassword B (RegPassword request))
    as [hashed|] eqn:Eh; [|discriminate].
  destruct (Repo.Create repo s _) as [s1 [created|e]] eqn:Ec;
    [|destruct e; discriminate].
  intros [= <- <-]. exists hashed, created. now repeat split.
Qed.



(** X20: what UpdateUser can change: when it succeeds, the row it saves
    has the id, username, role and creation time of the stored row; email
    and full name are the request's when not empty and the stored ones
    otherwise; the password is the stored hash or the bcrypt hash of the
    request's password; the reply is the saved row with the password
    blanked. *)
Theorem UpdateUser_preserves (s s' : S) (c : Context)
    (request : UpdateRequest) (u : User) :
  (forall id found, Repo.GetByID repo s id = inl found -> ID found = id) ->
  UpdateUser repo B s c (inl request) = (s', UserReply 200 u) ->
  exists stored written,
    Go.ParseUint (Param c "id") 32 = inl (ID stored)
    /\ Repo.GetByID repo s (ID stored) = inl stored
    /\ Repo.Update repo s written = (s', None)
    /\ u = Service.setPassword written EmptyString
    /\ ID written = ID stored
    /\ Username written = Username stored
    /\ Role written = Role stored
    /\ CreatedAt written = CreatedAt stored
    /\ Email written
       = (if String.eqb (UpdEmail request) EmptyString then Email stored
          else UpdEmail request)
    /\ FullName written
       = (if String.eqb (UpdFullName request) EmptyString then FullName stored
          else UpdFullName request)
    /\ (Password written = Password stored
        \/ Service.GenerateFromPassword B (UpdPassword request)
           = inl (Password written)).
Proof.
  intros Hlaw. unfold UpdateUser.
  destruct (Go.ParseUint (Param c "id") 32) as [id|] eqn:Eid; [|discriminate].
  unfold Service.GetByID.
  destruct (Repo.GetByID repo s id) as [stored|e] eqn:Eg;
    [|destruct (Service.notFoundOr e); discriminate].
  pose proof (Hlaw id stored Eg) as Hid. subst id.
  set (user3 := if negb (String.eqb (UpdFullName request) EmptyString) then _ else _).
  assert (ID user3 = ID stored /\ Username user3 = Username stored
          /\ Role user3 = Role stored /\ CreatedAt user3 = CreatedAt stored
          /\ Email user3
             = (if String.eqb (UpdEmail request) EmptyString then Email stored
                else UpdEmail request)
          /\ FullName user3
             = (if String.eqb (UpdFullName request) EmptyString
                then FullName stored else UpdFullName request)
          /\ Password user3
             = (if String.eqb (UpdPassword request) EmptyString
                then Password stored else UpdPassword request)) as Hu3.
  { subst user3.
    destruct (String.eqb (UpdFullName request) EmptyString),
      (String.eqb (UpdPassword request) EmptyString),
      (String.eqb (UpdEmail request) EmptyString); repeat split. }
  destruct Hu3 as (H1 & H2 & H3 & H4 & H5 & H6 & H7).
  unfold Service.Update. rewrite H1, Eg.
  destruct (if negb (String.eqb (Email user3) (Email stored)) then _ else None)
    as [e|]; [discriminate|].
  destruct (negb (String.eqb (Password user3) EmptyString)
            && negb (String.eqb (Password user3) (Password stored))) eqn:Ehash.
  - unfold Service.HashPassword.
    destruct (Service.GenerateFromPassword B (Password user3)) as [hashed|] eqn:Eh;
      [|discriminate].
    destruct (Repo.Update repo s _) as [s1 [e|]] eqn:Eu; [discriminate|].
    intros [= <- <-]. exists stored, (Service.setPassword user3 hashed).
    repeat split; try assumption. right.
    rewrite H7 in Eh, Ehash.
    destruct (String.eqb (UpdPassword request) EmptyString); [|exact Eh].
    rewrite String.eqb_refl in Ehash. rewrite andb_false_r in Ehash.
    discriminate Ehash.
  - destruct (Repo.Update repo s user3) as [s1 [e|]] eqn:Eu; [discriminate|].
    intros [= <- <-]. exists stored, user3.
    repeat split; try assumption.
    rewrite H7 in Ehash |- *.
    destruct (String.eqb (UpdPassword request) EmptyString) eqn:Ep;
      [now left|].
    rewrite Ep in Ehash.
    cbn [negb andb] in Ehash. apply negb_false_iff, String.eqb_eq in Ehash.
    now left.
Qed.

(** X21: the handlers that reply with one user never send a password:
    in every user reply of GetUser, GetCurrentUser, Register and
    UpdateUser the password field is empty. *)
Theorem single_user_replies_blank_password (now : JWT.Time) (s : S)
    (c : Context) (status : Z) (u : User) :
  (GetUser repo s c = UserReply status u -> Password u = EmptyString)
  /\ (GetCurrentUser repo s c = Replied (UserReply status u) ->
      Password u = EmptyString)
  /\ (forall body s',
        Register repo B now s body = (s', UserReply status u) ->
        Password u = EmptyString)
  /\ (forall body s',
        UpdateUser repo B s c body = (s', UserReply status u) ->
        Password u = EmptyString).
Proof.
  assert (forall r, fetched r = UserReply status u -> Password u = EmptyString)
    as Hf.
  { intros [x|e]; cbn [fetched]; [now intros [= _ <-]|].
    destruct e; discriminate. }
  split; [|split; [|split]].
  - unfold GetUser. destruct (Go.ParseUint _ 32); [apply Hf|discriminate].
  - unfold GetCurrentUser.
    destruct (Get c "userID") as [[| |]|]; try discriminate.
    intros [= H]. now apply Hf in H.
  - intros body s'. unfold Register. destruct body as [request|]; [|discriminate].
    destruct (Service.Create _ _ _ _ _) as [s1 [created|e]];
      [now intros [= _ _ <-]|destruct e; discriminate].
  - intros body s'. unfold UpdateUser.
    destruct (Go.ParseUint _ 32); [|discriminate].
    destruct body as [request|]; [|discriminate].
    destruct (Service.GetByID repo s z) as [x|e]; [|destruct e; discriminate].
    destruct (Service.Update _ _ _ _) as [s1 [updated|e]];
      [now intros [= _ _ <-]|discriminate].
Qed.

(** X22: ListUsers does send the stored password hashes: its reply
    carries the rows exactly as the repository listed them for the page
    it asked for; the loop meant to blank the passwords has no effect on
    them. *)
Theorem ListUsers_returns_rows (s : S) (query : gmap string string)
    (users : list User) (total page pageSize : Z) :
  ListUsers repo s query = UsersReply users total page pageSize ->
  (page, pageSize) = pagination query
  /\ Repo.List repo s page pageSize = inl (users, total).
Proof.
  unfold ListUsers, Service.List.
  destruct (pagination query) as [p n].
  destruct (Repo.List repo s p n) as [[rows t]|] eqn:El; [|discriminate].
  now intros [= <- <- <- <-].
Qed.


(** X23: GetCurrentUser behind the filter never panics: for a request
    that is not already aborted, either the filter answers 401 and the
    handler does not run, or the handler looks up the user id of claims
    that the presented token carries and that verify under the secret. *)
Theorem GetCurrentUser_behind_filter (now : JWT.Time) (s : S) (c : Context) :
  Middleware.isPublicPath (Path c) = false ->
  Aborted c = false ->
  (exists msg,
     behindFilter J cfg now c (GetCurrentUser repo s)
     = inr (Authz.reject c 401 msg))
  \/ (exists tokenString claims,
        Spec.presents c tokenString
        /\ Spec.verifiedUnder J (Config.Secret (Config.Application cfg)) now
             tokenString claims
        /\ behindFilter J cfg now c (GetCurrentUser repo s)
           = inl (Replied (fetched
                    (Service.GetByID repo s (JWT.UserID claims))))).
Proof.
  intros Hpub Hab. unfold behindFilter.
  destruct (RouteFacts.AuthMiddleware_cases J cfg now c)
    as [[Hp _]|[[_ [msg ->]]|(t & claims & Hp & Hv & ->)]].
  - congruence.
  - left. exists msg. reflexivity.
  - right. exists t, claims. split; [exact Hp|]. split; [exact Hv|].
    change (Aborted (Spec.withIdentity c claims)) with (Aborted c).
    rewrite Hab. unfold GetCurrentUser.
    now rewrite (proj1 (RouteFacts.withIdentity_hasIdentity c claims)).
Qed.

End WithService.

Lemma Register_refuses_duplicates_witness :
  Register Mem.users Mem.bcrypt 5 Mem.rows
    (inl {| RegUsername := "amy"; RegEmail := "new@example.com";
            RegPassword := "secret2"; RegFullName := "Other Amy" |})
  = (Mem.rows, ErrorReply 409 "User already exists")
  /\ Register Mem.users Mem.bcrypt 5 Mem.rows
       (inl {| RegUsername := "amy2"; RegEmail := "amy@example.com";
               RegPassword := "secret2"; RegFullName := "Other Amy" |})
     = (Mem.rows, ErrorReply 500 "Failed to create user").
Proof.
  split.
  - exact (proj1 (Register_refuses_duplicates Mem.users Mem.bcrypt 5 Mem.rows
                    {| RegUsername := "amy"; RegEmail := "new@example.com";
                       RegPassword := "secret2"; RegFullName := "Other Amy" |}
                    (nth 1 Mem.rows (rootUser "" 0))) eq_refl).
  - exact (proj2 (Register_refuses_duplicates Mem.users Mem.bcrypt 5 Mem.rows
                    {| RegUsername := "amy2"; RegEmail := "amy@example.com";
                       RegPassword := "secret2"; RegFullName := "Other Amy" |}
                    (nth 1 Mem.rows (rootUser "" 0))) eq_refl eq_refl).
Defined.

Lemma Register_writes_hashed_row_witness :
  exists hashed created,
    Service.GenerateFromPassword Mem.bcrypt "secret3" = inl hashed
    /\ Repo.Create Mem.users Mem.rows
         {| ID := 0; Username := "bob"; Email := "bob@example.com";
            FullName := "Bob"; Password := hashed; Role := EmptyString;
            CreatedAt := 5 |}
       = ((Mem.rows ++ [created])%list, inl created)
    /\ Service.setPassword created EmptyString
       = {| ID := 3; Username := "bob"; Email := "bob@example.com";
            FullName := "Bob"; Password := EmptyString; Role := EmptyString;
            CreatedAt := 5 |}.
Proof.
  destruct (Register_writes_hashed_row Mem.users Mem.bcrypt 5 Mem.rows
              (Mem.rows ++ [{| ID := 3; Username := "bob";
                               Email := "bob@example.com"; FullName := "Bob";
                               Password := "hash:secret3"; Role := EmptyString;
                               CreatedAt := 5 |}])%list
              {| RegUsername := "bob"; RegEmail := "bob@example.com";
                 RegPassword := "secret3"; RegFullName := "Bob" |}
              {| ID := 3; Username := "bob"; Email := "bob@example.com";
                 FullName := "Bob"; Password := EmptyString;
                 Role := EmptyString; CreatedAt := 5 |} eq_refl)
    as (hashed & created & Hh & Hc & Hu).
  exists hashed, created. split; [exact Hh|].
  injection Hh as <-.
  assert (created = {| ID := 3; Username := "bob"; Email := "bob@example.com";
                       FullName := "Bob"; Password := "hash:secret3";
                       Role := EmptyString; CreatedAt := 5 |}) as ->.
  { vm_compute in Hc. now injection Hc as <-. }
  split; reflexivity.
Defined.


Lemma Mem_GetByID_law (rows : list User) (id : Z) (found : User) :
  Repo.GetByID Mem.users rows id = inl found -> ID found = id.
Proof.
  cbn [Repo.GetByID Mem.users]. unfold Mem.byKey.
  destruct (find (fun u => ID u =? id) rows) as [u|] eqn:Ef; [|discriminate].
  intros [= <-]. apply find_some in Ef as [_ Ef]. now apply Z.eqb_eq.
Qed.


Lemma UpdateUser_preserves_witness :
  exists stored written : User,
    Username stored = "amy"
    /\ Username written = "amy"
    /\ Email written = "amy@example.com"
    /\ FullName written = "Amy B"
    /\ (Password written = Password stored
        \/ Service.GenerateFromPassword Mem.bcrypt "secret9"
           = inl (Password written)).
Proof.
  pose (c := Spec.request "/api/users/2" {[ "id" := "2" ]} None).
  pose (body := {| UpdEmail := EmptyString; UpdPassword := "secret9";
                   UpdFullName := "Amy B" |}).
  pose (after := UpdateUser Mem.users Mem.bcrypt Mem.rows c (inl body)).
  destruct (UpdateUser_preserves Mem.users Mem.bcrypt Mem.rows (fst after) c body
              (match snd after with
               | UserReply _ u => u
               | _ => rootUser EmptyString 0
               end) (Mem_GetByID_law Mem.rows))
    as (stored & written & Hid & Hg & _ & _ & _ & Hun & _ & _ & Hem & Hfn & Hpw).
  { vm_compute. reflexivity. }
  exists stored, written.
  assert (stored = nth 1 Mem.rows (rootUser EmptyString 0)) as Hs.
  { assert (ID stored = 2) as H2.
    { vm_compute in Hid. injection Hid as Hid. now symmetry. }
    rewrite H2 in Hg. vm_compute in Hg. now injection Hg as <-. }
  rewrite Hun, Hem, Hfn. rewrite Hs. cbn.
  split; [reflexivity|]. split; [reflexivity|]. split; [reflexivity|].
  split; [reflexivity|]. rewrite Hs in Hpw. exact Hpw.
Defined.

Lemma single_user_replies_blank_password_witness :
  GetUser Mem.users Mem.rows (Spec.request "/api/users/2" {[ "id" := "2" ]} None)
  = UserReply 200 (Service.setPassword (nth 1 Mem.rows (rootUser EmptyString 0))
                     EmptyString)
  /\ Password (Service.setPassword (nth 1 Mem.rows (rootUser EmptyString 0))
                 EmptyString) = EmptyString.
Proof.
  split; [vm_compute; reflexivity|].
  apply (proj1 (single_user_replies_blank_password Mem.users Mem.bcrypt 0
                  Mem.rows
                  (Spec.request "/api/users/2" {[ "id" := "2" ]} None)
                  200 _)).
  vm_compute. reflexivity.
Defined.

Lemma ListUsers_returns_rows_witness :
  (1, 10) = pagination ∅
  /\ Repo.List Mem.users Mem.rows 1 10 = inl (Mem.rows, 2)
  /\ Forall (fun u => Password u <> EmptyString) Mem.rows.
Proof.
  destruct (ListUsers_returns_rows Mem.users Mem.rows ∅ Mem.rows 2 1 10)
    as [Hp Hl].
  - vm_compute. reflexivity.
  - split; [exact Hp|]. split; [exact Hl|].
    repeat constructor; discriminate.
Defined.

Lemma GetCurrentUser_behind_filter_witness :
  exists tokenString claims,
    Spec.presents
      (Spec.request "/api/users/me" ∅ (Some ("Bearer " +:+ Spec.token7)))
      tokenString
    /\ Spec.verifiedUnder GoJSON.codec
         (Config.Secret (Config.Application Config.defaultConfig))
         (Spec.issuedAt7 + JWT.Hour) tokenString claims
    /\ behindFilter GoJSON.codec Config.defaultConfig (Spec.issuedAt7 + JWT.Hour)
         (Spec.request "/api/users/me" ∅ (Some ("Bearer " +:+ Spec.token7)))
         (GetCurrentUser Mem.users Mem.rows)
       = inl (Replied (fetched
                (Service.GetByID Mem.users Mem.rows (JWT.UserID claims)))).
Proof.
  destruct (GetCurrentUser_behind_filter Mem.users GoJSON.codec
              Config.defaultConfig (Spec.issuedAt7 + JWT.Hour) Mem.rows
              (Spec.request "/api/users/me" ∅ (Some ("Bearer " +:+ Spec.token7)))
              eq_refl eq_refl) as [[msg H]|H].
  - exfalso. vm_compute in H. discriminate H.
  - exact H.
Defined.

End HandlerFacts.

(** ** Pagination *)

Module PageFacts.
Import Gorm Repository Handler.

Lemma digitVal_nonneg (c : ascii) : Go.isDigit c = true -> 0 <= Go.digitVal c.
Proof.
  unfold Go.isDigit, Go.digitVal. intros H.
  apply andb_true_iff in H as [H _]. apply Z.leb_le in H. lia.
Qed.

Lemma parseUintLoop_nonneg (maxVal : Z) (s : string) :
  forall n v, 0 <= n -> Go.parseUintLoop maxVal s n = inl v -> 0 <= v.
Proof.
  induction s as [|c s IH]; intros n v Hn; cbn [Go.parseUintLoop].
  - now intros [= <-].
  - destruct (Go.isDigit c) eqn:Hd; cbn [negb]; [|discriminate].
    destruct (Go.maxUint64 / 10 + 1 <=? n); [discriminate|].
    destruct (maxVal <? n * 10 + Go.digitVal c); [discriminate|].
    apply IH. pose proof (digitVal_nonneg c Hd). lia.
Qed.

(** What [strconv.Atoi] returns without an error is an [int]. *)
Lemma Atoi_range (s : string) (v : Z) :
  Go.Atoi s = inl v -> - 2 ^ 63 <= v < 2 ^ 63.
Proof.
  unfold Go.Atoi, Go.ParseInt64. destruct s as [|c s]; [discriminate|].
  set (digits := if (_ : bool) then s else String c s).
  destruct (Go.ParseUint digits 64) as [un|] eqn:Eu; [|discriminate].
  assert (0 <= un) as Hun.
  { unfold Go.ParseUint in Eu. destruct digits; [discriminate|].
    now apply parseUintLoop_nonneg in Eu. }
  destruct (Ascii.eqb c "-"); cbn [negb andb].
  - destruct (2 ^ 63 <? un) eqn:E; [discriminate|].
    intros [= <-]. apply Z.ltb_ge in E. lia.
  - destruct (2 ^ 63 <=? un) eqn:E; [discriminate|].
    intros [= <-]. apply Z.leb_gt in E. lia.
Qed.

Lemma pageSize_range (query : gmap string string) :
  1 <= snd (pagination query) <= 100.
Proof.
  unfold pagination. cbn [snd].
  destruct (Go.Atoi (DefaultQuery query "page_size" "10")) as [n|]; [|lia].
  destruct (n <? 1) eqn:E1; cbn [orb]; [lia|].
  destruct (100 <? n) eqn:E2; [lia|].
  apply Z.ltb_ge in E1, E2. lia.
Qed.

Lemma wrapInt_id (x : Z) : - 2 ^ 63 <= x < 2 ^ 63 -> wrapInt x = x.
Proof.
  intros H. unfold wrapInt. rewrite Z.mod_small; lia.
Qed.

(** X24: whatever the query holds, ListUsers asks for a page of at least
    1 that fits an int and for a page size from 1 to 100; a page size
    that parses to a number outside 1..100 is replaced by 10, not by the
    nearest bound, and a page that does not parse or is below 1 by 1. *)
Theorem pagination_bounds (query : gmap string string) :
  1 <= fst (pagination query) < 2 ^ 63
  /\ 1 <= snd (pagination query) <= 100
  /\ (forall n, Go.Atoi (DefaultQuery query "page_size" "10") = inl n ->
        (n < 1 \/ 100 < n) -> snd (pagination query) = 10)
  /\ (forall p, Go.Atoi (DefaultQuery query "page" "1") = inl p ->
        fst (pagination query) = Z.max 1 p).
Proof.
  split; [|split; [apply pageSize_range|split]].
  - unfold pagination. cbn [fst].
    destruct (Go.Atoi (DefaultQuery query "page" "1")) as [p|] eqn:E; [|lia].
    apply Atoi_range in E. destruct (p <? 1) eqn:E1; [lia|].
    apply Z.ltb_ge in E1. lia.
  - intros n Hn Hout. unfold pagination. cbn [snd]. rewrite Hn.
    destruct Hout as [H|H].
    + apply Z.ltb_lt in H. now rewrite H.
    + apply Z.ltb_lt in H. rewrite H. now rewrite orb_true_r.
  - intros p Hp. unfold pagination. cbn [fst]. rewrite Hp.
    destruct (p <? 1) eqn:E1; [apply Z.ltb_lt in E1|apply Z.ltb_ge in E1]; lia.
Qed.

Lemma pagination_bounds_witness :
  pagination {[ "page" := "0"; "page_size" := "500" ]} = (1, 10).
Proof.
  pose proof (pagination_bounds {[ "page" := "0"; "page_size" := "500" ]})
    as (_ & _ & Hn & Hp).
  specialize (Hn 500 eq_refl (or_intror eq_refl)).
  specialize (Hp 0 eq_refl).
  rewrite (surjective_pairing (pagination _)), Hn, Hp. reflexivity.
Defined.

(** X25: ListUsers over BaseRepository.List: for every query whose page
    is at most 92233720368547759 the rows are looked up at the offset
    (page - 1) * pageSize, which is not negative and has not wrapped
    around; for a page size of 100 every larger page wraps around and the
    lookup is made at another offset. *)
Theorem listing_offset {S T : Type} (db : Table S T) (s : S)
    (query : gmap string string) (total : Z) :
  Count db s = inl total ->
  let page := fst (pagination query) in
  let pageSize := snd (pagination query) in
  (page <= 92233720368547759 ->
   0 <= (page - 1) * pageSize
   /\ BaseList db s page pageSize
      = match Find db s ((page - 1) * pageSize) pageSize with
        | inr err => inr err
        | inl objs => inl (objs, total)
        end)
  /\ (92233720368547759 < page -> pageSize = 100 ->
      exists offset,
        offset <> (page - 1) * pageSize
        /\ BaseList db s page pageSize
           = match Find db s offset pageSize with
             | inr err => inr err
             | inl objs => inl (objs, total)
             end).
Proof.
  intros Hc page pageSize.
  pose proof (pageSize_range query) as Hn. fold pageSize in Hn.
  assert (1 <= page) as Hp.
  { subst page. unfold pagination. cbn [fst].
    destruct (Go.Atoi (DefaultQuery query "page" "1")) as [p|]; [|lia].
    destruct (p <? 1) eqn:E1; [lia|]. apply Z.ltb_ge in E1. lia. }
  unfold BaseList. rewrite Hc. split.
  - intros Hle. split; [nia|]. rewrite wrapInt_id; [reflexivity|]. nia.
  - intros Hgt H100. exists (wrapInt ((page - 1) * pageSize)).
    split; [|reflexivity].
    assert (wrapInt ((page - 1) * pageSize) < 2 ^ 63) as Hw.
    { unfold wrapInt.
      pose proof (Z.mod_pos_bound ((page - 1) * pageSize + 2 ^ 63) (2 ^ 64)).
      lia. }
    rewrite H100 in *. lia.
Qed.

Lemma listing_offset_witness :
  0 <= (3 - 1) * 1
  /\ BaseList Mem.table Mem.rows 3 1 = inl ([], 2).
Proof.
  destruct (listing_offset Mem.table Mem.rows
              {[ "page" := "3"; "page_size" := "1" ]} 2 eq_refl) as [H _].
  destruct H as [H0 Hl]; [vm_compute; discriminate|].
  split; [vm_compute in H0 |- *; exact H0 | vm_compute in Hl |- *; exact Hl].
Defined.

End PageFacts.

(** ** The contest service *)

Module ContestFacts.
Import Gorm Contest.

(** X26: UpdateContest uses nothing of its argument but the id: two
    contests with the same id give the same result and the same table,
    since what is saved is the row that was just read. *)
Theorem UpdateContest_ignores_fields {S : Type} (svc : ContestService S)
    (s : S) (contest other : Contest) :
  ContestID contest = ContestID other ->
  UpdateContest svc s contest = UpdateContest svc s other.
Proof.
  intros Hid. unfold UpdateContest. now rewrite Hid.
Qed.

Lemma UpdateContest_ignores_fields_witness :
  UpdateContest (NewContestService Mem.contests) [Mem.spring] Mem.renamed
  = UpdateContest (NewContestService Mem.contests) [Mem.spring] Mem.spring
  /\ UpdateContest (NewContestService Mem.contests) [Mem.spring] Mem.renamed
     = ([Mem.spring], None).
Proof.
  split.
  - apply (UpdateContest_ignores_fields (NewContestService Mem.contests)
             [Mem.spring] Mem.renamed Mem.spring).
    reflexivity.
  - vm_compute. reflexivity.
Defined.

(** X27: a contest service as NewContestService builds it never
    registers a user: the table is left as it was and the call does not
    return success; when the contest exists it panics on the missing user
    service, and when the lookup fails it returns the lookup's error. *)
Theorem RegisterUserToContest_never_registers {S : Type} (r : ContestRepo S)
    (s : S) (contestID userID : Z) :
  fst (RegisterUserToContest (NewContestService r) s contestID userID) = s
  /\ snd (RegisterUserToContest (NewContestService r) s contestID userID)
     <> Returned None
  /\ (forall contest,
        GetByID r s contestID = inl contest ->
        snd (RegisterUserToContest (NewContestService r) s contestID userID)
        = Panicked)
  /\ (forall e,
        GetByID r s contestID = inr e ->
        snd (RegisterUserToContest (NewContestService r) s contestID userID)
        = Returned (Some (notFoundOr e))).
Proof.
  unfold RegisterUserToContest, NewContestService. cbn [repo userService].
  destruct (GetByID r s contestID) as [contest|e]; cbn [fst snd];
    repeat split; try discriminate; intros x [= <-]; reflexivity.
Qed.

Lemma RegisterUserToContest_never_registers_witness :
  snd (RegisterUserToContest (NewContestService Mem.contests) [Mem.spring] 1 2)
  = Panicked.
Proof.
  apply (proj1 (proj2 (proj2 (RegisterUserToContest_never_registers
                                Mem.contests [Mem.spring] 1 2))) Mem.spring).
  reflexivity.
Defined.

End ContestFacts.
